(** * ShiftMatch: the extraction pipeline and the preference scorer of app.py

    A shallow embedding of [ShiftMatchCrawler] (the text classifiers, the
    table strategy, the grid strategy, the coordinator in [get_shifts]) and
    of [ShiftMatcher] ([__init__], [score], [rank]), followed by the
    properties of the specification that concern them.

    Conventions of the embedding.
    - A Python [str] is the list of its code points ([str := list N]).
      The whitespace set of [str.strip] and of the regex class [\s], and
      the glyph ranges named by the source, are those of the runtime.
      Case mapping, decimal digits and [int()] follow the tables and the
      algorithms of the runtime, CPython 3.11 with Unicode 14.0.
    - Exceptions are values: a computation that can raise has type
      [res A].
    - [random.randint] reads an explicit sequence of draws.
    - A regular expression of the source is a list of tokens run by a
      backtracking matcher with Python's priorities (leftmost start,
      greedy repetition, alternatives in order). *)

From Stdlib Require Import ZArith NArith Ascii String List Lia DecimalNat.
From stdpp Require Import base option list gmap strings sorting.

Set Default Proof Using "Type".
Set Warnings "-register-all".

(** ** Text *)

Definition char := N.
Definition str := list char.

(** A literal of the source (ASCII) as a [str]. *)
Definition py (s : string) : str := map N_of_ascii (list_ascii_of_string s).

Definition str_eqb (a b : str) : bool := bool_decide (a = b).

(** Truth value of a string: empty is false. *)
Definition truthy (s : str) : bool :=
  match s with [] => false | _ :: _ => true end.

(** Truth value of a value that is [None] or a string. *)
Definition otruthy (o : option str) : bool :=
  match o with Some s => truthy s | None => false end.

Definition in_range (lo hi c : N) : bool := ((lo <=? c) && (c <=? hi))%N.

Definition in_ranges (rs : list (N * N)) (c : N) : bool :=
  existsb (fun r => in_range r.1 r.2 c) rs.

(** *** Tables of the runtime

    The character tables of CPython 3.11 (Unicode 14.0), in the form in
    which [str] and [re] consult them. *)

(** The code points of value 0 of the decimal digits (category Nd): each
    is followed by the digits 1 to 9 of its script. *)
Definition DECIMAL_ZEROS : list N :=
  [ 48; 1632; 1776; 1984; 2406; 2534; 2662; 2790; 2918; 3046; 3174; 3302;
    3430; 3558; 3664; 3792; 3872; 4160; 4240; 6112; 6160; 6470; 6608; 6784;
    6800; 6992; 7088; 7232; 7248; 42528; 43216; 43264; 43472; 43504; 43600;
    44016; 65296; 66720; 68912; 69734; 69872; 69942; 70096; 70384; 70736;
    70864; 71248; 71360; 71472; 71904; 72016; 72784; 73040; 73120; 92768;
    92864; 93008; 120782; 120792; 120802; 120812; 120822; 123200; 123632;
    125264; 130032 ]%N.

(** The cased code points ([_PyUnicode_IsCased]), as ranges. *)
Definition CASED : list (N * N) :=
  [ (65, 90); (97, 122); (170, 170); (181, 181); (186, 186); (192, 214);
    (216, 246); (248, 442); (444, 447); (452, 659); (661, 696); (704, 705);
    (736, 740); (837, 837); (880, 883); (886, 887); (890, 893); (895, 895);
    (902, 902); (904, 906); (908, 908); (910, 929); (931, 1013); (1015, 1153);
    (1162, 1327); (1329, 1366); (1376, 1416); (4256, 4293); (4295, 4295);
    (4301, 4301); (4304, 4346); (4349, 4351); (5024, 5109); (5112, 5117);
    (7296, 7304); (7312, 7354); (7357, 7359); (7424, 7615); (7680, 7957);
    (7960, 7965); (7968, 8005); (8008, 8013); (8016, 8023); (8025, 8025);
    (8027, 8027); (8029, 8029); (8031, 8061); (8064, 8116); (8118, 8124);
    (8126, 8126); (8130, 8132); (8134, 8140); (8144, 8147); (8150, 8155);
    (8160, 8172); (8178, 8180); (8182, 8188); (8305, 8305); (8319, 8319);
    (8336, 8348); (8450, 8450); (8455, 8455); (8458, 8467); (8469, 8469);
    (8473, 8477); (8484, 8484); (8486, 8486); (8488, 8488); (8490, 8493);
    (8495, 8500); (8505, 8505); (8508, 8511); (8517, 8521); (8526, 8526);
    (8544, 8575); (8579, 8580); (9398, 9449); (11264, 11492); (11499, 11502);
    (11506, 11507); (11520, 11557); (11559, 11559); (11565, 11565);
    (42560, 42605); (42624, 42653); (42786, 42887); (42891, 42894);
    (42896, 42954); (42960, 42961); (42963, 42963); (42965, 42969);
    (42997, 42998); (43000, 43002); (43824, 43866); (43868, 43880);
    (43888, 43967); (64256, 64262); (64275, 64279); (65313, 65338);
    (65345, 65370); (66560, 66639); (66736, 66771); (66776, 66811);
    (66928, 66938); (66940, 66954); (66956, 66962); (66964, 66965);
    (66967, 66977); (66979, 66993); (66995, 67001); (67003, 67004);
    (67456, 67456); (67459, 67461); (67463, 67504); (67506, 67514);
    (68736, 68786); (68800, 68850); (71840, 71903); (93760, 93823);
    (119808, 119892); (119894, 119964); (119966, 119967); (119970, 119970);
    (119973, 119974); (119977, 119980); (119982, 119993); (119995, 119995);
    (119997, 120003); (120005, 120069); (120071, 120074); (120077, 120084);
    (120086, 120092); (120094, 120121); (120123, 120126); (120128, 120132);
    (120134, 120134); (120138, 120144); (120146, 120485); (120488, 120512);
    (120514, 120538); (120540, 120570); (120572, 120596); (120598, 120628);
    (120630, 120654); (120656, 120686); (120688, 120712); (120714, 120744);
    (120746, 120770); (120772, 120779); (122624, 122633); (122635, 122654);
    (125184, 125251); (127280, 127305); (127312, 127337); (127344, 127369) ]%N.

(** The case-ignorable code points ([_PyUnicode_IsCaseIgnorable]), as ranges. *)
Definition CASE_IGNORABLE : list (N * N) :=
  [ (39, 39); (46, 46); (58, 58); (94, 94); (96, 96); (168, 168); (173, 173);
    (175, 175); (180, 180); (183, 184); (688, 879); (884, 885); (890, 890);
    (900, 901); (903, 903); (1155, 1161); (1369, 1369); (1375, 1375);
    (1425, 1469); (1471, 1471); (1473, 1474); (1476, 1477); (1479, 1479);
    (1524, 1524); (1536, 1541); (1552, 1562); (1564, 1564); (1600, 1600);
    (1611, 1631); (1648, 1648); (1750, 1757); (1759, 1768); (1770, 1773);
    (1807, 1807); (1809, 1809); (1840, 1866); (1958, 1968); (2027, 2037);
    (2042, 2042); (2045, 2045); (2070, 2093); (2137, 2139); (2184, 2184);
    (2192, 2193); (2200, 2207); (2249, 2306); (2362, 2362); (2364, 2364);
    (2369, 2376); (2381, 2381); (2385, 2391); (2402, 2403); (2417, 2417);
    (2433, 2433); (2492, 2492); (2497, 2500); (2509, 2509); (2530, 2531);
    (2558, 2558); (2561, 2562); (2620, 2620); (2625, 2626); (2631, 2632);
    (2635, 2637); (2641, 2641); (2672, 2673); (2677, 2677); (2689, 2690);
    (2748, 2748); (2753, 2757); (2759, 2760); (2765, 2765); (2786, 2787);
    (2810, 2815); (2817, 2817); (2876, 2876); (2879, 2879); (2881, 2884);
    (2893, 2893); (2901, 2902); (2914, 2915); (2946, 2946); (3008, 3008);
    (3021, 3021); (3072, 3072); (3076, 3076); (3132, 3132); (3134, 3136);
    (3142, 3144); (3146, 3149); (3157, 3158); (3170, 3171); (3201, 3201);
    (3260, 3260); (3263, 3263); (3270, 3270); (3276, 3277); (3298, 3299);
    (3328, 3329); (3387, 3388); (3393, 3396); (3405, 3405); (3426, 3427);
    (3457, 3457); (3530, 3530); (3538, 3540); (3542, 3542); (3633, 3633);
    (3636, 3642); (3654, 3662); (3761, 3761); (3764, 3772); (3782, 3782);
    (3784, 3789); (3864, 3865); (3893, 3893); (3895, 3895); (3897, 3897);
    (3953, 3966); (3968, 3972); (3974, 3975); (3981, 3991); (3993, 4028);
    (4038, 4038); (4141, 4144); (4146, 4151); (4153, 4154); (4157, 4158);
    (4184, 4185); (4190, 4192); (4209, 4212); (4226, 4226); (4229, 4230);
    (4237, 4237); (4253, 4253); (4348, 4348); (4957, 4959); (5906, 5908);
    (5938, 5939); (5970, 5971); (6002, 6003); (6068, 6069); (6071, 6077);
    (6086, 6086); (6089, 6099); (6103, 6103); (6109, 6109); (6155, 6159);
    (6211, 6211); (6277, 6278); (6313, 6313); (6432, 6434); (6439, 6440);
    (6450, 6450); (6457, 6459); (6679, 6680); (6683, 6683); (6742, 6742);
    (6744, 6750); (6752, 6752); (6754, 6754); (6757, 6764); (6771, 6780);
    (6783, 6783); (6823, 6823); (6832, 6862); (6912, 6915); (6964, 6964);
    (6966, 6970); (6972, 6972); (6978, 6978); (7019, 7027); (7040, 7041);
    (7074, 7077); (7080, 7081); (7083, 7085); (7142, 7142); (7144, 7145);
    (7149, 7149); (7151, 7153); (7212, 7219); (7222, 7223); (7288, 7293);
    (7376, 7378); (7380, 7392); (7394, 7400); (7405, 7405); (7412, 7412);
    (7416, 7417); (7468, 7530); (7544, 7544); (7579, 7679); (8125, 8125);
    (8127, 8129); (8141, 8143); (8157, 8159); (8173, 8175); (8189, 8190);
    (8203, 8207); (8216, 8217); (8228, 8228); (8231, 8231); (8234, 8238);
    (8288, 8292); (8294, 8303); (8305, 8305); (8319, 8319); (8336, 8348);
    (8400, 8432); (11388, 11389); (11503, 11505); (11631, 11631);
    (11647, 11647); (11744, 11775); (11823, 11823); (12293, 12293);
    (12330, 12333); (12337, 12341); (12347, 12347); (12441, 12446);
    (12540, 12542); (40981, 40981); (42232, 42237); (42508, 42508);
    (42607, 42610); (42612, 42621); (42623, 42623); (42652, 42655);
    (42736, 42737); (42752, 42785); (42864, 42864); (42888, 42890);
    (42994, 42996); (43000, 43001); (43010, 43010); (43014, 43014);
    (43019, 43019); (43045, 43046); (43052, 43052); (43204, 43205);
    (43232, 43249); (43263, 43263); (43302, 43309); (43335, 43345);
    (43392, 43394); (43443, 43443); (43446, 43449); (43452, 43453);
    (43471, 43471); (43493, 43494); (43561, 43566); (43569, 43570);
    (43573, 43574); (43587, 43587); (43596, 43596); (43632, 43632);
    (43644, 43644); (43696, 43696); (43698, 43700); (43703, 43704);
    (43710, 43711); (43713, 43713); (43741, 43741); (43756, 43757);
    (43763, 43764); (43766, 43766); (43867, 43871); (43881, 43883);
    (44005, 44005); (44008, 44008); (44013, 44013); (64286, 64286);
    (64434, 64450); (65024, 65039); (65043, 65043); (65056, 65071);
    (65106, 65106); (65109, 65109); (65279, 65279); (65287, 65287);
    (65294, 65294); (65306, 65306); (65342, 65342); (65344, 65344);
    (65392, 65392); (65438, 65439); (65507, 65507); (65529, 65531);
    (66045, 66045); (66272, 66272); (66422, 66426); (67456, 67461);
    (67463, 67504); (67506, 67514); (68097, 68099); (68101, 68102);
    (68108, 68111); (68152, 68154); (68159, 68159); (68325, 68326);
    (68900, 68903); (69291, 69292); (69446, 69456); (69506, 69509);
    (69633, 69633); (69688, 69702); (69744, 69744); (69747, 69748);
    (69759, 69761); (69811, 69814); (69817, 69818); (69821, 69821);
    (69826, 69826); (69837, 69837); (69888, 69890); (69927, 69931);
    (69933, 69940); (70003, 70003); (70016, 70017); (70070, 70078);
    (70089, 70092); (70095, 70095); (70191, 70193); (70196, 70196);
    (70198, 70199); (70206, 70206); (70367, 70367); (70371, 70378);
    (70400, 70401); (70459, 70460); (70464, 70464); (70502, 70508);
    (70512, 70516); (70712, 70719); (70722, 70724); (70726, 70726);
    (70750, 70750); (70835, 70840); (70842, 70842); (70847, 70848);
    (70850, 70851); (71090, 71093); (71100, 71101); (71103, 71104);
    (71132, 71133); (71219, 71226); (71229, 71229); (71231, 71232);
    (71339, 71339); (71341, 71341); (71344, 71349); (71351, 71351);
    (71453, 71455); (71458, 71461); (71463, 71467); (71727, 71735);
    (71737, 71738); (71995, 71996); (71998, 71998); (72003, 72003);
    (72148, 72151); (72154, 72155); (72160, 72160); (72193, 72202);
    (72243, 72248); (72251, 72254); (72263, 72263); (72273, 72278);
    (72281, 72283); (72330, 72342); (72344, 72345); (72752, 72758);
    (72760, 72765); (72767, 72767); (72850, 72871); (72874, 72880);
    (72882, 72883); (72885, 72886); (73009, 73014); (73018, 73018);
    (73020, 73021); (73023, 73029); (73031, 73031); (73104, 73105);
    (73109, 73109); (73111, 73111); (73459, 73460); (78896, 78904);
    (92912, 92916); (92976, 92982); (92992, 92995); (94031, 94031);
    (94095, 94111); (94176, 94177); (94179, 94180); (110576, 110579);
    (110581, 110587); (110589, 110590); (113821, 113822); (113824, 113827);
    (118528, 118573); (118576, 118598); (119143, 119145); (119155, 119170);
    (119173, 119179); (119210, 119213); (119362, 119364); (121344, 121398);
    (121403, 121452); (121461, 121461); (121476, 121476); (121499, 121503);
    (121505, 121519); (122880, 122886); (122888, 122904); (122907, 122913);
    (122915, 122916); (122918, 122922); (123184, 123197); (123566, 123566);
    (123628, 123631); (125136, 125142); (125252, 125259); (127995, 127999);
    (917505, 917505); (917536, 917631); (917760, 917999) ]%N.

(** [_PyUnicode_ToLowerFull], code points mapped to one code point: from [lo] to [hi] in
    steps of [step], each is moved by [delta]. *)
Definition LOWER_RUNS : list (N * N * N * Z) :=
  [ (65%N, 90%N, 1%N, 32%Z); (192%N, 214%N, 1%N, 32%Z);
    (216%N, 222%N, 1%N, 32%Z); (256%N, 302%N, 2%N, 1%Z);
    (306%N, 310%N, 2%N, 1%Z); (313%N, 327%N, 2%N, 1%Z);
    (330%N, 374%N, 2%N, 1%Z); (376%N, 376%N, 1%N, (-121)%Z);
    (377%N, 381%N, 2%N, 1%Z); (385%N, 385%N, 1%N, 210%Z);
    (386%N, 388%N, 2%N, 1%Z); (390%N, 390%N, 1%N, 206%Z);
    (391%N, 391%N, 1%N, 1%Z); (393%N, 394%N, 1%N, 205%Z);
    (395%N, 395%N, 1%N, 1%Z); (398%N, 398%N, 1%N, 79%Z);
    (399%N, 399%N, 1%N, 202%Z); (400%N, 400%N, 1%N, 203%Z);
    (401%N, 401%N, 1%N, 1%Z); (403%N, 403%N, 1%N, 205%Z);
    (404%N, 404%N, 1%N, 207%Z); (406%N, 406%N, 1%N, 211%Z);
    (407%N, 407%N, 1%N, 209%Z); (408%N, 408%N, 1%N, 1%Z);
    (412%N, 412%N, 1%N, 211%Z); (413%N, 413%N, 1%N, 213%Z);
    (415%N, 415%N, 1%N, 214%Z); (416%N, 420%N, 2%N, 1%Z);
    (422%N, 422%N, 1%N, 218%Z); (423%N, 423%N, 1%N, 1%Z);
    (425%N, 425%N, 1%N, 218%Z); (428%N, 428%N, 1%N, 1%Z);
    (430%N, 430%N, 1%N, 218%Z); (431%N, 431%N, 1%N, 1%Z);
    (433%N, 434%N, 1%N, 217%Z); (435%N, 437%N, 2%N, 1%Z);
    (439%N, 439%N, 1%N, 219%Z); (440%N, 440%N, 1%N, 1%Z);
    (444%N, 444%N, 1%N, 1%Z); (452%N, 452%N, 1%N, 2%Z);
    (453%N, 453%N, 1%N, 1%Z); (455%N, 455%N, 1%N, 2%Z);
    (456%N, 456%N, 1%N, 1%Z); (458%N, 458%N, 1%N, 2%Z);
    (459%N, 475%N, 2%N, 1%Z); (478%N, 494%N, 2%N, 1%Z);
    (497%N, 497%N, 1%N, 2%Z); (498%N, 500%N, 2%N, 1%Z);
    (502%N, 502%N, 1%N, (-97)%Z); (503%N, 503%N, 1%N, (-56)%Z);
    (504%N, 542%N, 2%N, 1%Z); (544%N, 544%N, 1%N, (-130)%Z);
    (546%N, 562%N, 2%N, 1%Z); (570%N, 570%N, 1%N, 10795%Z);
    (571%N, 571%N, 1%N, 1%Z); (573%N, 573%N, 1%N, (-163)%Z);
    (574%N, 574%N, 1%N, 10792%Z); (577%N, 577%N, 1%N, 1%Z);
    (579%N, 579%N, 1%N, (-195)%Z); (580%N, 580%N, 1%N, 69%Z);
    (581%N, 581%N, 1%N, 71%Z); (582%N, 590%N, 2%N, 1%Z);
    (880%N, 882%N, 2%N, 1%Z); (886%N, 886%N, 1%N, 1%Z);
    (895%N, 895%N, 1%N, 116%Z); (902%N, 902%N, 1%N, 38%Z);
    (904%N, 906%N, 1%N, 37%Z); (908%N, 908%N, 1%N, 64%Z);
    (910%N, 911%N, 1%N, 63%Z); (913%N, 929%N, 1%N, 32%Z);
    (931%N, 939%N, 1%N, 32%Z); (975%N, 975%N, 1%N, 8%Z);
    (984%N, 1006%N, 2%N, 1%Z); (1012%N, 1012%N, 1%N, (-60)%Z);
    (1015%N, 1015%N, 1%N, 1%Z); (1017%N, 1017%N, 1%N, (-7)%Z);
    (1018%N, 1018%N, 1%N, 1%Z); (1021%N, 1023%N, 1%N, (-130)%Z);
    (1024%N, 1039%N, 1%N, 80%Z); (1040%N, 1071%N, 1%N, 32%Z);
    (1120%N, 1152%N, 2%N, 1%Z); (1162%N, 1214%N, 2%N, 1%Z);
    (1216%N, 1216%N, 1%N, 15%Z); (1217%N, 1229%N, 2%N, 1%Z);
    (1232%N, 1326%N, 2%N, 1%Z); (1329%N, 1366%N, 1%N, 48%Z);
    (4256%N, 4293%N, 1%N, 7264%Z); (4295%N, 4295%N, 1%N, 7264%Z);
    (4301%N, 4301%N, 1%N, 7264%Z); (5024%N, 5103%N, 1%N, 38864%Z);
    (5104%N, 5109%N, 1%N, 8%Z); (7312%N, 7354%N, 1%N, (-3008)%Z);
    (7357%N, 7359%N, 1%N, (-3008)%Z); (7680%N, 7828%N, 2%N, 1%Z);
    (7838%N, 7838%N, 1%N, (-7615)%Z); (7840%N, 7934%N, 2%N, 1%Z);
    (7944%N, 7951%N, 1%N, (-8)%Z); (7960%N, 7965%N, 1%N, (-8)%Z);
    (7976%N, 7983%N, 1%N, (-8)%Z); (7992%N, 7999%N, 1%N, (-8)%Z);
    (8008%N, 8013%N, 1%N, (-8)%Z); (8025%N, 8031%N, 2%N, (-8)%Z);
    (8040%N, 8047%N, 1%N, (-8)%Z); (8072%N, 8079%N, 1%N, (-8)%Z);
    (8088%N, 8095%N, 1%N, (-8)%Z); (8104%N, 8111%N, 1%N, (-8)%Z);
    (8120%N, 8121%N, 1%N, (-8)%Z); (8122%N, 8123%N, 1%N, (-74)%Z);
    (8124%N, 8124%N, 1%N, (-9)%Z); (8136%N, 8139%N, 1%N, (-86)%Z);
    (8140%N, 8140%N, 1%N, (-9)%Z); (8152%N, 8153%N, 1%N, (-8)%Z);
    (8154%N, 8155%N, 1%N, (-100)%Z); (8168%N, 8169%N, 1%N, (-8)%Z);
    (8170%N, 8171%N, 1%N, (-112)%Z); (8172%N, 8172%N, 1%N, (-7)%Z);
    (8184%N, 8185%N, 1%N, (-128)%Z); (8186%N, 8187%N, 1%N, (-126)%Z);
    (8188%N, 8188%N, 1%N, (-9)%Z); (8486%N, 8486%N, 1%N, (-7517)%Z);
    (8490%N, 8490%N, 1%N, (-8383)%Z); (8491%N, 8491%N, 1%N, (-8262)%Z);
    (8498%N, 8498%N, 1%N, 28%Z); (8544%N, 8559%N, 1%N, 16%Z);
    (8579%N, 8579%N, 1%N, 1%Z); (9398%N, 9423%N, 1%N, 26%Z);
    (11264%N, 11311%N, 1%N, 48%Z); (11360%N, 11360%N, 1%N, 1%Z);
    (11362%N, 11362%N, 1%N, (-10743)%Z); (11363%N, 11363%N, 1%N, (-3814)%Z);
    (11364%N, 11364%N, 1%N, (-10727)%Z); (11367%N, 11371%N, 2%N, 1%Z);
    (11373%N, 11373%N, 1%N, (-10780)%Z); (11374%N, 11374%N, 1%N, (-10749)%Z);
    (11375%N, 11375%N, 1%N, (-10783)%Z); (11376%N, 11376%N, 1%N, (-10782)%Z);
    (11378%N, 11378%N, 1%N, 1%Z); (11381%N, 11381%N, 1%N, 1%Z);
    (11390%N, 11391%N, 1%N, (-10815)%Z); (11392%N, 11490%N, 2%N, 1%Z);
    (11499%N, 11501%N, 2%N, 1%Z); (11506%N, 11506%N, 1%N, 1%Z);
    (42560%N, 42604%N, 2%N, 1%Z); (42624%N, 42650%N, 2%N, 1%Z);
    (42786%N, 42798%N, 2%N, 1%Z); (42802%N, 42862%N, 2%N, 1%Z);
    (42873%N, 42875%N, 2%N, 1%Z); (42877%N, 42877%N, 1%N, (-35332)%Z);
    (42878%N, 42886%N, 2%N, 1%Z); (42891%N, 42891%N, 1%N, 1%Z);
    (42893%N, 42893%N, 1%N, (-42280)%Z); (42896%N, 42898%N, 2%N, 1%Z);
    (42902%N, 42920%N, 2%N, 1%Z); (42922%N, 42922%N, 1%N, (-42308)%Z);
    (42923%N, 42923%N, 1%N, (-42319)%Z); (42924%N, 42924%N, 1%N, (-42315)%Z);
    (42925%N, 42925%N, 1%N, (-42305)%Z); (42926%N, 42926%N, 1%N, (-42308)%Z);
    (42928%N, 42928%N, 1%N, (-42258)%Z); (42929%N, 42929%N, 1%N, (-42282)%Z);
    (42930%N, 42930%N, 1%N, (-42261)%Z); (42931%N, 42931%N, 1%N, 928%Z);
    (42932%N, 42946%N, 2%N, 1%Z); (42948%N, 42948%N, 1%N, (-48)%Z);
    (42949%N, 42949%N, 1%N, (-42307)%Z); (42950%N, 42950%N, 1%N, (-35384)%Z);
    (42951%N, 42953%N, 2%N, 1%Z); (42960%N, 42960%N, 1%N, 1%Z);
    (42966%N, 42968%N, 2%N, 1%Z); (42997%N, 42997%N, 1%N, 1%Z);
    (65313%N, 65338%N, 1%N, 32%Z); (66560%N, 66599%N, 1%N, 40%Z);
    (66736%N, 66771%N, 1%N, 40%Z); (66928%N, 66938%N, 1%N, 39%Z);
    (66940%N, 66954%N, 1%N, 39%Z); (66956%N, 66962%N, 1%N, 39%Z);
    (66964%N, 66965%N, 1%N, 39%Z); (68736%N, 68786%N, 1%N, 64%Z);
    (71840%N, 71871%N, 1%N, 32%Z); (93760%N, 93791%N, 1%N, 32%Z);
    (125184%N, 125217%N, 1%N, 34%Z) ].

(** [_PyUnicode_ToLowerFull], code points mapped to several code points. *)
Definition LOWER_SPECIAL : list (N * list N) :=
  [ (304, [105; 775]) ]%N.

(** [_PyUnicode_ToUpperFull], code points mapped to one code point: from [lo] to [hi] in
    steps of [step], each is moved by [delta]. *)
Definition UPPER_RUNS : list (N * N * N * Z) :=
  [ (97%N, 122%N, 1%N, (-32)%Z); (181%N, 181%N, 1%N, 743%Z);
    (224%N, 246%N, 1%N, (-32)%Z); (248%N, 254%N, 1%N, (-32)%Z);
    (255%N, 255%N, 1%N, 121%Z); (257%N, 303%N, 2%N, (-1)%Z);
    (305%N, 305%N, 1%N, (-232)%Z); (307%N, 311%N, 2%N, (-1)%Z);
    (314%N, 328%N, 2%N, (-1)%Z); (331%N, 375%N, 2%N, (-1)%Z);
    (378%N, 382%N, 2%N, (-1)%Z); (383%N, 383%N, 1%N, (-300)%Z);
    (384%N, 384%N, 1%N, 195%Z); (387%N, 389%N, 2%N, (-1)%Z);
    (392%N, 392%N, 1%N, (-1)%Z); (396%N, 396%N, 1%N, (-1)%Z);
    (402%N, 402%N, 1%N, (-1)%Z); (405%N, 405%N, 1%N, 97%Z);
    (409%N, 409%N, 1%N, (-1)%Z); (410%N, 410%N, 1%N, 163%Z);
    (414%N, 414%N, 1%N, 130%Z); (417%N, 421%N, 2%N, (-1)%Z);
    (424%N, 424%N, 1%N, (-1)%Z); (429%N, 429%N, 1%N, (-1)%Z);
    (432%N, 432%N, 1%N, (-1)%Z); (436%N, 438%N, 2%N, (-1)%Z);
    (441%N, 441%N, 1%N, (-1)%Z); (445%N, 445%N, 1%N, (-1)%Z);
    (447%N, 447%N, 1%N, 56%Z); (453%N, 453%N, 1%N, (-1)%Z);
    (454%N, 454%N, 1%N, (-2)%Z); (456%N, 456%N, 1%N, (-1)%Z);
    (457%N, 457%N, 1%N, (-2)%Z); (459%N, 459%N, 1%N, (-1)%Z);
    (460%N, 460%N, 1%N, (-2)%Z); (462%N, 476%N, 2%N, (-1)%Z);
    (477%N, 477%N, 1%N, (-79)%Z); (479%N, 495%N, 2%N, (-1)%Z);
    (498%N, 498%N, 1%N, (-1)%Z); (499%N, 499%N, 1%N, (-2)%Z);
    (501%N, 501%N, 1%N, (-1)%Z); (505%N, 543%N, 2%N, (-1)%Z);
    (547%N, 563%N, 2%N, (-1)%Z); (572%N, 572%N, 1%N, (-1)%Z);
    (575%N, 576%N, 1%N, 10815%Z); (578%N, 578%N, 1%N, (-1)%Z);
    (583%N, 591%N, 2%N, (-1)%Z); (592%N, 592%N, 1%N, 10783%Z);
    (593%N, 593%N, 1%N, 10780%Z); (594%N, 594%N, 1%N, 10782%Z);
    (595%N, 595%N, 1%N, (-210)%Z); (596%N, 596%N, 1%N, (-206)%Z);
    (598%N, 599%N, 1%N, (-205)%Z); (601%N, 601%N, 1%N, (-202)%Z);
    (603%N, 603%N, 1%N, (-203)%Z); (604%N, 604%N, 1%N, 42319%Z);
    (608%N, 608%N, 1%N, (-205)%Z); (609%N, 609%N, 1%N, 42315%Z);
    (611%N, 611%N, 1%N, (-207)%Z); (613%N, 613%N, 1%N, 42280%Z);
    (614%N, 614%N, 1%N, 42308%Z); (616%N, 616%N, 1%N, (-209)%Z);
    (617%N, 617%N, 1%N, (-211)%Z); (618%N, 618%N, 1%N, 42308%Z);
    (619%N, 619%N, 1%N, 10743%Z); (620%N, 620%N, 1%N, 42305%Z);
    (623%N, 623%N, 1%N, (-211)%Z); (625%N, 625%N, 1%N, 10749%Z);
    (626%N, 626%N, 1%N, (-213)%Z); (629%N, 629%N, 1%N, (-214)%Z);
    (637%N, 637%N, 1%N, 10727%Z); (640%N, 640%N, 1%N, (-218)%Z);
    (642%N, 642%N, 1%N, 42307%Z); (643%N, 643%N, 1%N, (-218)%Z);
    (647%N, 647%N, 1%N, 42282%Z); (648%N, 648%N, 1%N, (-218)%Z);
    (649%N, 649%N, 1%N, (-69)%Z); (650%N, 651%N, 1%N, (-217)%Z);
    (652%N, 652%N, 1%N, (-71)%Z); (658%N, 658%N, 1%N, (-219)%Z);
    (669%N, 669%N, 1%N, 42261%Z); (670%N, 670%N, 1%N, 42258%Z);
    (837%N, 837%N, 1%N, 84%Z); (881%N, 883%N, 2%N, (-1)%Z);
    (887%N, 887%N, 1%N, (-1)%Z); (891%N, 893%N, 1%N, 130%Z);
    (940%N, 940%N, 1%N, (-38)%Z); (941%N, 943%N, 1%N, (-37)%Z);
    (945%N, 961%N, 1%N, (-32)%Z); (962%N, 962%N, 1%N, (-31)%Z);
    (963%N, 971%N, 1%N, (-32)%Z); (972%N, 972%N, 1%N, (-64)%Z);
    (973%N, 974%N, 1%N, (-63)%Z); (976%N, 976%N, 1%N, (-62)%Z);
    (977%N, 977%N, 1%N, (-57)%Z); (981%N, 981%N, 1%N, (-47)%Z);
    (982%N, 982%N, 1%N, (-54)%Z); (983%N, 983%N, 1%N, (-8)%Z);
    (985%N, 1007%N, 2%N, (-1)%Z); (1008%N, 1008%N, 1%N, (-86)%Z);
    (1009%N, 1009%N, 1%N, (-80)%Z); (1010%N, 1010%N, 1%N, 7%Z);
    (1011%N, 1011%N, 1%N, (-116)%Z); (1013%N, 1013%N, 1%N, (-96)%Z);
    (1016%N, 1016%N, 1%N, (-1)%Z); (1019%N, 1019%N, 1%N, (-1)%Z);
    (1072%N, 1103%N, 1%N, (-32)%Z); (1104%N, 1119%N, 1%N, (-80)%Z);
    (1121%N, 1153%N, 2%N, (-1)%Z); (1163%N, 1215%N, 2%N, (-1)%Z);
    (1218%N, 1230%N, 2%N, (-1)%Z); (1231%N, 1231%N, 1%N, (-15)%Z);
    (1233%N, 1327%N, 2%N, (-1)%Z); (1377%N, 1414%N, 1%N, (-48)%Z);
    (4304%N, 4346%N, 1%N, 3008%Z); (4349%N, 4351%N, 1%N, 3008%Z);
    (5112%N, 5117%N, 1%N, (-8)%Z); (7296%N, 7296%N, 1%N, (-6254)%Z);
    (7297%N, 7297%N, 1%N, (-6253)%Z); (7298%N, 7298%N, 1%N, (-6244)%Z);
    (7299%N, 7300%N, 1%N, (-6242)%Z); (7301%N, 7301%N, 1%N, (-6243)%Z);
    (7302%N, 7302%N, 1%N, (-6236)%Z); (7303%N, 7303%N, 1%N, (-6181)%Z);
    (7304%N, 7304%N, 1%N, 35266%Z); (7545%N, 7545%N, 1%N, 35332%Z);
    (7549%N, 7549%N, 1%N, 3814%Z); (7566%N, 7566%N, 1%N, 35384%Z);
    (7681%N, 7829%N, 2%N, (-1)%Z); (7835%N, 7835%N, 1%N, (-59)%Z);
    (7841%N, 7935%N, 2%N, (-1)%Z); (7936%N, 7943%N, 1%N, 8%Z);
    (7952%N, 7957%N, 1%N, 8%Z); (7968%N, 7975%N, 1%N, 8%Z);
    (7984%N, 7991%N, 1%N, 8%Z); (8000%N, 8005%N, 1%N, 8%Z);
    (8017%N, 8023%N, 2%N, 8%Z); (8032%N, 8039%N, 1%N, 8%Z);
    (8048%N, 8049%N, 1%N, 74%Z); (8050%N, 8053%N, 1%N, 86%Z);
    (8054%N, 8055%N, 1%N, 100%Z); (8056%N, 8057%N, 1%N, 128%Z);
    (8058%N, 8059%N, 1%N, 112%Z); (8060%N, 8061%N, 1%N, 126%Z);
    (8112%N, 8113%N, 1%N, 8%Z); (8126%N, 8126%N, 1%N, (-7205)%Z);
    (8144%N, 8145%N, 1%N, 8%Z); (8160%N, 8161%N, 1%N, 8%Z);
    (8165%N, 8165%N, 1%N, 7%Z); (8526%N, 8526%N, 1%N, (-28)%Z);
    (8560%N, 8575%N, 1%N, (-16)%Z); (8580%N, 8580%N, 1%N, (-1)%Z);
    (9424%N, 9449%N, 1%N, (-26)%Z); (11312%N, 11359%N, 1%N, (-48)%Z);
    (11361%N, 11361%N, 1%N, (-1)%Z); (11365%N, 11365%N, 1%N, (-10795)%Z);
    (11366%N, 11366%N, 1%N, (-10792)%Z); (11368%N, 11372%N, 2%N, (-1)%Z);
    (11379%N, 11379%N, 1%N, (-1)%Z); (11382%N, 11382%N, 1%N, (-1)%Z);
    (11393%N, 11491%N, 2%N, (-1)%Z); (11500%N, 11502%N, 2%N, (-1)%Z);
    (11507%N, 11507%N, 1%N, (-1)%Z); (11520%N, 11557%N, 1%N, (-7264)%Z);
    (11559%N, 11559%N, 1%N, (-7264)%Z); (11565%N, 11565%N, 1%N, (-7264)%Z);
    (42561%N, 42605%N, 2%N, (-1)%Z); (42625%N, 42651%N, 2%N, (-1)%Z);
    (42787%N, 42799%N, 2%N, (-1)%Z); (42803%N, 42863%N, 2%N, (-1)%Z);
    (42874%N, 42876%N, 2%N, (-1)%Z); (42879%N, 42887%N, 2%N, (-1)%Z);
    (42892%N, 42892%N, 1%N, (-1)%Z); (42897%N, 42899%N, 2%N, (-1)%Z);
    (42900%N, 42900%N, 1%N, 48%Z); (42903%N, 42921%N, 2%N, (-1)%Z);
    (42933%N, 42947%N, 2%N, (-1)%Z); (42952%N, 42954%N, 2%N, (-1)%Z);
    (42961%N, 42961%N, 1%N, (-1)%Z); (42967%N, 42969%N, 2%N, (-1)%Z);
    (42998%N, 42998%N, 1%N, (-1)%Z); (43859%N, 43859%N, 1%N, (-928)%Z);
    (43888%N, 43967%N, 1%N, (-38864)%Z); (65345%N, 65370%N, 1%N, (-32)%Z);
    (66600%N, 66639%N, 1%N, (-40)%Z); (66776%N, 66811%N, 1%N, (-40)%Z);
    (66967%N, 66977%N, 1%N, (-39)%Z); (66979%N, 66993%N, 1%N, (-39)%Z);
    (66995%N, 67001%N, 1%N, (-39)%Z); (67003%N, 67004%N, 1%N, (-39)%Z);
    (68800%N, 68850%N, 1%N, (-64)%Z); (71872%N, 71903%N, 1%N, (-32)%Z);
    (93792%N, 93823%N, 1%N, (-32)%Z); (125218%N, 125251%N, 1%N, (-34)%Z) ].

(** [_PyUnicode_ToUpperFull], code points mapped to several code points. *)
Definition UPPER_SPECIAL : list (N * list N) :=
  [ (223, [83; 83]); (329, [700; 78]); (496, [74; 780]);
    (912, [921; 776; 769]); (944, [933; 776; 769]); (1415, [1333; 1362]);
    (7830, [72; 817]); (7831, [84; 776]); (7832, [87; 778]);
    (7833, [89; 778]); (7834, [65; 702]); (8016, [933; 787]);
    (8018, [933; 787; 768]); (8020, [933; 787; 769]); (8022, [933; 787; 834]);
    (8064, [7944; 921]); (8065, [7945; 921]); (8066, [7946; 921]);
    (8067, [7947; 921]); (8068, [7948; 921]); (8069, [7949; 921]);
    (8070, [7950; 921]); (8071, [7951; 921]); (8072, [7944; 921]);
    (8073, [7945; 921]); (8074, [7946; 921]); (8075, [7947; 921]);
    (8076, [7948; 921]); (8077, [7949; 921]); (8078, [7950; 921]);
    (8079, [7951; 921]); (8080, [7976; 921]); (8081, [7977; 921]);
    (8082, [7978; 921]); (8083, [7979; 921]); (8084, [7980; 921]);
    (8085, [7981; 921]); (8086, [7982; 921]); (8087, [7983; 921]);
    (8088, [7976; 921]); (8089, [7977; 921]); (8090, [7978; 921]);
    (8091, [7979; 921]); (8092, [7980; 921]); (8093, [7981; 921]);
    (8094, [7982; 921]); (8095, [7983; 921]); (8096, [8040; 921]);
    (8097, [8041; 921]); (8098, [8042; 921]); (8099, [8043; 921]);
    (8100, [8044; 921]); (8101, [8045; 921]); (8102, [8046; 921]);
    (8103, [8047; 921]); (8104, [8040; 921]); (8105, [8041; 921]);
    (8106, [8042; 921]); (8107, [8043; 921]); (8108, [8044; 921]);
    (8109, [8045; 921]); (8110, [8046; 921]); (8111, [8047; 921]);
    (8114, [8122; 921]); (8115, [913; 921]); (8116, [902; 921]);
    (8118, [913; 834]); (8119, [913; 834; 921]); (8124, [913; 921]);
    (8130, [8138; 921]); (8131, [919; 921]); (8132, [905; 921]);
    (8134, [919; 834]); (8135, [919; 834; 921]); (8140, [919; 921]);
    (8146, [921; 776; 768]); (8147, [921; 776; 769]); (8150, [921; 834]);
    (8151, [921; 776; 834]); (8162, [933; 776; 768]); (8163, [933; 776; 769]);
    (8164, [929; 787]); (8166, [933; 834]); (8167, [933; 776; 834]);
    (8178, [8186; 921]); (8179, [937; 921]); (8180, [911; 921]);
    (8182, [937; 834]); (8183, [937; 834; 921]); (8188, [937; 921]);
    (64256, [70; 70]); (64257, [70; 73]); (64258, [70; 76]);
    (64259, [70; 70; 73]); (64260, [70; 70; 76]); (64261, [83; 84]);
    (64262, [83; 84]); (64275, [1348; 1350]); (64276, [1348; 1333]);
    (64277, [1348; 1339]); (64278, [1358; 1350]); (64279, [1348; 1341]) ]%N.

(** [_PyUnicode_ToTitleFull], code points mapped to one code point: from [lo] to [hi] in
    steps of [step], each is moved by [delta]. *)
Definition TITLE_RUNS : list (N * N * N * Z) :=
  [ (97%N, 122%N, 1%N, (-32)%Z); (181%N, 181%N, 1%N, 743%Z);
    (224%N, 246%N, 1%N, (-32)%Z); (248%N, 254%N, 1%N, (-32)%Z);
    (255%N, 255%N, 1%N, 121%Z); (257%N, 303%N, 2%N, (-1)%Z);
    (305%N, 305%N, 1%N, (-232)%Z); (307%N, 311%N, 2%N, (-1)%Z);
    (314%N, 328%N, 2%N, (-1)%Z); (331%N, 375%N, 2%N, (-1)%Z);
    (378%N, 382%N, 2%N, (-1)%Z); (383%N, 383%N, 1%N, (-300)%Z);
    (384%N, 384%N, 1%N, 195%Z); (387%N, 389%N, 2%N, (-1)%Z);
    (392%N, 392%N, 1%N, (-1)%Z); (396%N, 396%N, 1%N, (-1)%Z);
    (402%N, 402%N, 1%N, (-1)%Z); (405%N, 405%N, 1%N, 97%Z);
    (409%N, 409%N, 1%N, (-1)%Z); (410%N, 410%N, 1%N, 163%Z);
    (414%N, 414%N, 1%N, 130%Z); (417%N, 421%N, 2%N, (-1)%Z);
    (424%N, 424%N, 1%N, (-1)%Z); (429%N, 429%N, 1%N, (-1)%Z);
    (432%N, 432%N, 1%N, (-1)%Z); (436%N, 438%N, 2%N, (-1)%Z);
    (441%N, 441%N, 1%N, (-1)%Z); (445%N, 445%N, 1%N, (-1)%Z);
    (447%N, 447%N, 1%N, 56%Z); (452%N, 452%N, 1%N, 1%Z);
    (454%N, 454%N, 1%N, (-1)%Z); (455%N, 455%N, 1%N, 1%Z);
    (457%N, 457%N, 1%N, (-1)%Z); (458%N, 458%N, 1%N, 1%Z);
    (460%N, 476%N, 2%N, (-1)%Z); (477%N, 477%N, 1%N, (-79)%Z);
    (479%N, 495%N, 2%N, (-1)%Z); (497%N, 497%N, 1%N, 1%Z);
    (499%N, 501%N, 2%N, (-1)%Z); (505%N, 543%N, 2%N, (-1)%Z);
    (547%N, 563%N, 2%N, (-1)%Z); (572%N, 572%N, 1%N, (-1)%Z);
    (575%N, 576%N, 1%N, 10815%Z); (578%N, 578%N, 1%N, (-1)%Z);
    (583%N, 591%N, 2%N, (-1)%Z); (592%N, 592%N, 1%N, 10783%Z);
    (593%N, 593%N, 1%N, 10780%Z); (594%N, 594%N, 1%N, 10782%Z);
    (595%N, 595%N, 1%N, (-210)%Z); (596%N, 596%N, 1%N, (-206)%Z);
    (598%N, 599%N, 1%N, (-205)%Z); (601%N, 601%N, 1%N, (-202)%Z);
    (603%N, 603%N, 1%N, (-203)%Z); (604%N, 604%N, 1%N, 42319%Z);
    (608%N, 608%N, 1%N, (-205)%Z); (609%N, 609%N, 1%N, 42315%Z);
    (611%N, 611%N, 1%N, (-207)%Z); (613%N, 613%N, 1%N, 42280%Z);
    (614%N, 614%N, 1%N, 42308%Z); (616%N, 616%N, 1%N, (-209)%Z);
    (617%N, 617%N, 1%N, (-211)%Z); (618%N, 618%N, 1%N, 42308%Z);
    (619%N, 619%N, 1%N, 10743%Z); (620%N, 620%N, 1%N, 42305%Z);
    (623%N, 623%N, 1%N, (-211)%Z); (625%N, 625%N, 1%N, 10749%Z);
    (626%N, 626%N, 1%N, (-213)%Z); (629%N, 629%N, 1%N, (-214)%Z);
    (637%N, 637%N, 1%N, 10727%Z); (640%N, 640%N, 1%N, (-218)%Z);
    (642%N, 642%N, 1%N, 42307%Z); (643%N, 643%N, 1%N, (-218)%Z);
    (647%N, 647%N, 1%N, 42282%Z); (648%N, 648%N, 1%N, (-218)%Z);
    (649%N, 649%N, 1%N, (-69)%Z); (650%N, 651%N, 1%N, (-217)%Z);
    (652%N, 652%N, 1%N, (-71)%Z); (658%N, 658%N, 1%N, (-219)%Z);
    (669%N, 669%N, 1%N, 42261%Z); (670%N, 670%N, 1%N, 42258%Z);
    (837%N, 837%N, 1%N, 84%Z); (881%N, 883%N, 2%N, (-1)%Z);
    (887%N, 887%N, 1%N, (-1)%Z); (891%N, 893%N, 1%N, 130%Z);
    (940%N, 940%N, 1%N, (-38)%Z); (941%N, 943%N, 1%N, (-37)%Z);
    (945%N, 961%N, 1%N, (-32)%Z); (962%N, 962%N, 1%N, (-31)%Z);
    (963%N, 971%N, 1%N, (-32)%Z); (972%N, 972%N, 1%N, (-64)%Z);
    (973%N, 974%N, 1%N, (-63)%Z); (976%N, 976%N, 1%N, (-62)%Z);
    (977%N, 977%N, 1%N, (-57)%Z); (981%N, 981%N, 1%N, (-47)%Z);
    (982%N, 982%N, 1%N, (-54)%Z); (983%N, 983%N, 1%N, (-8)%Z);
    (985%N, 1007%N, 2%N, (-1)%Z); (1008%N, 1008%N, 1%N, (-86)%Z);
    (1009%N, 1009%N, 1%N, (-80)%Z); (1010%N, 1010%N, 1%N, 7%Z);
    (1011%N, 1011%N, 1%N, (-116)%Z); (1013%N, 1013%N, 1%N, (-96)%Z);
    (1016%N, 1016%N, 1%N, (-1)%Z); (1019%N, 1019%N, 1%N, (-1)%Z);
    (1072%N, 1103%N, 1%N, (-32)%Z); (1104%N, 1119%N, 1%N, (-80)%Z);
    (1121%N, 1153%N, 2%N, (-1)%Z); (1163%N, 1215%N, 2%N, (-1)%Z);
    (1218%N, 1230%N, 2%N, (-1)%Z); (1231%N, 1231%N, 1%N, (-15)%Z);
    (1233%N, 1327%N, 2%N, (-1)%Z); (1377%N, 1414%N, 1%N, (-48)%Z);
    (5112%N, 5117%N, 1%N, (-8)%Z); (7296%N, 7296%N, 1%N, (-6254)%Z);
    (7297%N, 7297%N, 1%N, (-6253)%Z); (7298%N, 7298%N, 1%N, (-6244)%Z);
    (7299%N, 7300%N, 1%N, (-6242)%Z); (7301%N, 7301%N, 1%N, (-6243)%Z);
    (7302%N, 7302%N, 1%N, (-6236)%Z); (7303%N, 7303%N, 1%N, (-6181)%Z);
    (7304%N, 7304%N, 1%N, 35266%Z); (7545%N, 7545%N, 1%N, 35332%Z);
    (7549%N, 7549%N, 1%N, 3814%Z); (7566%N, 7566%N, 1%N, 35384%Z);
    (7681%N, 7829%N, 2%N, (-1)%Z); (7835%N, 7835%N, 1%N, (-59)%Z);
    (7841%N, 7935%N, 2%N, (-1)%Z); (7936%N, 7943%N, 1%N, 8%Z);
    (7952%N, 7957%N, 1%N, 8%Z); (7968%N, 7975%N, 1%N, 8%Z);
    (7984%N, 7991%N, 1%N, 8%Z); (8000%N, 8005%N, 1%N, 8%Z);
    (8017%N, 8023%N, 2%N, 8%Z); (8032%N, 8039%N, 1%N, 8%Z);
    (8048%N, 8049%N, 1%N, 74%Z); (8050%N, 8053%N, 1%N, 86%Z);
    (8054%N, 8055%N, 1%N, 100%Z); (8056%N, 8057%N, 1%N, 128%Z);
    (8058%N, 8059%N, 1%N, 112%Z); (8060%N, 8061%N, 1%N, 126%Z);
    (8064%N, 8071%N, 1%N, 8%Z); (8080%N, 8087%N, 1%N, 8%Z);
    (8096%N, 8103%N, 1%N, 8%Z); (8112%N, 8113%N, 1%N, 8%Z);
    (8115%N, 8115%N, 1%N, 9%Z); (8126%N, 8126%N, 1%N, (-7205)%Z);
    (8131%N, 8131%N, 1%N, 9%Z); (8144%N, 8145%N, 1%N, 8%Z);
    (8160%N, 8161%N, 1%N, 8%Z); (8165%N, 8165%N, 1%N, 7%Z);
    (8179%N, 8179%N, 1%N, 9%Z); (8526%N, 8526%N, 1%N, (-28)%Z);
    (8560%N, 8575%N, 1%N, (-16)%Z); (8580%N, 8580%N, 1%N, (-1)%Z);
    (9424%N, 9449%N, 1%N, (-26)%Z); (11312%N, 11359%N, 1%N, (-48)%Z);
    (11361%N, 11361%N, 1%N, (-1)%Z); (11365%N, 11365%N, 1%N, (-10795)%Z);
    (11366%N, 11366%N, 1%N, (-10792)%Z); (11368%N, 11372%N, 2%N, (-1)%Z);
    (11379%N, 11379%N, 1%N, (-1)%Z); (11382%N, 11382%N, 1%N, (-1)%Z);
    (11393%N, 11491%N, 2%N, (-1)%Z); (11500%N, 11502%N, 2%N, (-1)%Z);
    (11507%N, 11507%N, 1%N, (-1)%Z); (11520%N, 11557%N, 1%N, (-7264)%Z);
    (11559%N, 11559%N, 1%N, (-7264)%Z); (11565%N, 11565%N, 1%N, (-7264)%Z);
    (42561%N, 42605%N, 2%N, (-1)%Z); (42625%N, 42651%N, 2%N, (-1)%Z);
    (42787%N, 42799%N, 2%N, (-1)%Z); (42803%N, 42863%N, 2%N, (-1)%Z);
    (42874%N, 42876%N, 2%N, (-1)%Z); (42879%N, 42887%N, 2%N, (-1)%Z);
    (42892%N, 42892%N, 1%N, (-1)%Z); (42897%N, 42899%N, 2%N, (-1)%Z);
    (42900%N, 42900%N, 1%N, 48%Z); (42903%N, 42921%N, 2%N, (-1)%Z);
    (42933%N, 42947%N, 2%N, (-1)%Z); (42952%N, 42954%N, 2%N, (-1)%Z);
    (42961%N, 42961%N, 1%N, (-1)%Z); (42967%N, 42969%N, 2%N, (-1)%Z);
    (42998%N, 42998%N, 1%N, (-1)%Z); (43859%N, 43859%N, 1%N, (-928)%Z);
    (43888%N, 43967%N, 1%N, (-38864)%Z); (65345%N, 65370%N, 1%N, (-32)%Z);
    (66600%N, 66639%N, 1%N, (-40)%Z); (66776%N, 66811%N, 1%N, (-40)%Z);
    (66967%N, 66977%N, 1%N, (-39)%Z); (66979%N, 66993%N, 1%N, (-39)%Z);
    (66995%N, 67001%N, 1%N, (-39)%Z); (67003%N, 67004%N, 1%N, (-39)%Z);
    (68800%N, 68850%N, 1%N, (-64)%Z); (71872%N, 71903%N, 1%N, (-32)%Z);
    (93792%N, 93823%N, 1%N, (-32)%Z); (125218%N, 125251%N, 1%N, (-34)%Z) ].

(** [_PyUnicode_ToTitleFull], code points mapped to several code points. *)
Definition TITLE_SPECIAL : list (N * list N) :=
  [ (223, [83; 115]); (329, [700; 78]); (496, [74; 780]);
    (912, [921; 776; 769]); (944, [933; 776; 769]); (1415, [1333; 1410]);
    (7830, [72; 817]); (7831, [84; 776]); (7832, [87; 778]);
    (7833, [89; 778]); (7834, [65; 702]); (8016, [933; 787]);
    (8018, [933; 787; 768]); (8020, [933; 787; 769]); (8022, [933; 787; 834]);
    (8114, [8122; 837]); (8116, [902; 837]); (8118, [913; 834]);
    (8119, [913; 834; 837]); (8130, [8138; 837]); (8132, [905; 837]);
    (8134, [919; 834]); (8135, [919; 834; 837]); (8146, [921; 776; 768]);
    (8147, [921; 776; 769]); (8150, [921; 834]); (8151, [921; 776; 834]);
    (8162, [933; 776; 768]); (8163, [933; 776; 769]); (8164, [929; 787]);
    (8166, [933; 834]); (8167, [933; 776; 834]); (8178, [8186; 837]);
    (8180, [911; 837]); (8182, [937; 834]); (8183, [937; 834; 837]);
    (64256, [70; 102]); (64257, [70; 105]); (64258, [70; 108]);
    (64259, [70; 102; 105]); (64260, [70; 102; 108]); (64261, [83; 116]);
    (64262, [83; 116]); (64275, [1348; 1398]); (64276, [1348; 1381]);
    (64277, [1348; 1387]); (64278, [1358; 1398]); (64279, [1348; 1389]) ]%N.

(** [Py_UNICODE_TODECIMAL]: the decimal value of a code point, -1 when it
    has none. *)
Definition digit_value (c : char) : Z :=
  match find (fun z => in_range z (z + 9) c) DECIMAL_ZEROS with
  | Some z => Z.of_N (c - z)
  | None => (-1)%Z
  end.

(** [\d] and the digits [int()] reads ([Py_UNICODE_ISDECIMAL]). *)
Definition is_digit (c : char) : bool := (0 <=? digit_value c)%Z.

(** [str.isspace] per code point: the set used by [strip()] and by [\s]. *)
Definition is_space (c : char) : bool :=
  in_range 9 13 c || in_range 28 32 c || (c =? 133)%N || (c =? 160)%N
  || (c =? 5760)%N || in_range 8192 8202 c || (c =? 8232)%N || (c =? 8233)%N
  || (c =? 8239)%N || (c =? 8287)%N || (c =? 12288)%N.

Definition is_cased (c : char) : bool := in_ranges CASED c.
Definition is_case_ignorable (c : char) : bool := in_ranges CASE_IGNORABLE c.

Definition in_run (c : char) (r : N * N * N * Z) : bool :=
  let '(lo, hi, step, _) := r in
  in_range lo hi c && ((c - lo) mod step =? 0)%N.

(** The image of one code point under a case mapping. *)
Definition case_map (runs : list (N * N * N * Z)) (special : list (N * list N))
    (c : char) : str :=
  match find (fun e => (e.1 =? c)%N) special with
  | Some e => e.2
  | None =>
      match find (in_run c) runs with
      | Some (_, _, _, delta) => [Z.to_N (Z.of_N c + delta)]
      | None => [c]
      end
  end.

Definition lower_full : char -> str := case_map LOWER_RUNS LOWER_SPECIAL.
Definition upper_full : char -> str := case_map UPPER_RUNS UPPER_SPECIAL.
Definition title_full : char -> str := case_map TITLE_RUNS TITLE_SPECIAL.

(** The second half of the test of [handle_capital_sigma]: after the
    case-ignorable code points that follow, the text ends or goes on with a
    code point that is not cased. *)
Fixpoint no_cased_ahead (s : str) : bool :=
  match s with
  | [] => true
  | c :: s' => if is_case_ignorable c then no_cased_ahead s' else negb (is_cased c)
  end.

(** [lower_ucs4]: the lower case of [c] where it stands. A capital sigma
    (931) becomes a final sigma (962) when the last code point before it that
    is not case-ignorable is cased ([after_cased]) and no cased one is ahead;
    it becomes a small sigma (963) otherwise. *)
Definition lower_at (after_cased : bool) (c : char) (rest : str) : str :=
  if (c =? 931)%N
  then [if after_cased && no_cased_ahead rest then 962%N else 963%N]
  else lower_full c.

(** [after_cased] once [c] is read. *)
Definition seen (after_cased : bool) (c : char) : bool :=
  if is_case_ignorable c then after_cased else is_cased c.

Fixpoint lower_from (after_cased : bool) (s : str) : str :=
  match s with
  | [] => []
  | c :: s' => lower_at after_cased c s' ++ lower_from (seen after_cased c) s'
  end.

(** [s.lower()] *)
Definition lower (s : str) : str := lower_from false s.

(** [s.upper()] *)
Definition upper (s : str) : str := concat (map upper_full s).

(** [s.title()]: a code point that follows a cased one is lower-cased, any
    other is title-cased. *)
Fixpoint title_from (after_cased prev_cased : bool) (s : str) : str :=
  match s with
  | [] => []
  | c :: s' =>
      (if prev_cased then lower_at after_cased c s' else title_full c)
        ++ title_from (seen after_cased c) (is_cased c) s'
  end.

Definition title (s : str) : str := title_from false false s.

Fixpoint lstrip (s : str) : str :=
  match s with
  | c :: s' => if is_space c then lstrip s' else s
  | [] => []
  end.

(** [s.strip()] *)
Definition strip (s : str) : str := rev (lstrip (rev (lstrip s))).

(** [s.startswith(w)] *)
Fixpoint startswith (s w : str) {struct w} : bool :=
  match w, s with
  | [], _ => true
  | a :: w', b :: s' => (a =? b)%N && startswith s' w'
  | _ :: _, [] => false
  end.

(** [w in s] on strings: [w] occurs in [s] as a substring. *)
Fixpoint contains (w s : str) : bool :=
  startswith s w || match s with [] => false | _ :: s' => contains w s' end.

(** [s.replace(w, "")] for a non-empty [w]: occurrences are removed from left
    to right, without overlap; [skip] counts the characters of the occurrence
    being removed that are still to be dropped. *)
Fixpoint remove_from (w : str) (skip : nat) (s : str) : str :=
  match s with
  | [] => []
  | c :: s' =>
      match skip with
      | S k => remove_from w k s'
      | O => if startswith s w then remove_from w (length w - 1) s'
             else c :: remove_from w 0 s'
      end
  end.

Definition remove_all (w s : str) : str :=
  match w with [] => s | _ :: _ => remove_from w 0 s end.

(** [sep.join(parts)] *)
Fixpoint join (sep : str) (parts : list str) : str :=
  match parts with
  | [] => []
  | [p] => p
  | p :: rest => p ++ sep ++ join sep rest
  end.

(** ** Numbers as text *)

Fixpoint uint_chars (d : Decimal.uint) : str :=
  match d with
  | Decimal.Nil => []
  | Decimal.D0 d => 48%N :: uint_chars d
  | Decimal.D1 d => 49%N :: uint_chars d
  | Decimal.D2 d => 50%N :: uint_chars d
  | Decimal.D3 d => 51%N :: uint_chars d
  | Decimal.D4 d => 52%N :: uint_chars d
  | Decimal.D5 d => 53%N :: uint_chars d
  | Decimal.D6 d => 54%N :: uint_chars d
  | Decimal.D7 d => 55%N :: uint_chars d
  | Decimal.D8 d => 56%N :: uint_chars d
  | Decimal.D9 d => 57%N :: uint_chars d
  end.

(** [str(n)] for [n >= 0] *)
Definition str_of_nat (n : nat) : str := uint_chars (Nat.to_uint n).

(** [str(z)] and the [{z}] of an f-string *)
Definition str_of_Z (z : Z) : str :=
  if (z <? 0)%Z then 45%N :: str_of_nat (Z.to_nat (- z)) else str_of_nat (Z.to_nat z).

(** [f"{n:03d}"]: decimal, padded with zeros on the left to three places. *)
Definition fmt_03d (n : nat) : str :=
  let d := str_of_nat n in replicate (3 - length d) 48%N ++ d.

(** The value of a run of digits, most significant first. *)
Definition digits_value (s : str) : Z :=
  fold_left (fun acc c => (10 * acc + digit_value c)%Z) s 0%Z.

(** [_PyUnicode_TransformDecimalAndSpaceToASCII] on a text that is not all
    ASCII: a code point below 127 is kept, a space becomes a blank, a decimal
    digit its ASCII digit; at any other code point the text is cut and ends
    with a question mark. *)
Fixpoint transform_decimal_and_space (s : str) : str :=
  match s with
  | [] => []
  | c :: s' =>
      if (c <? 127)%N then c :: transform_decimal_and_space s'
      else if is_space c then 32%N :: transform_decimal_and_space s'
      else if is_digit c
           then Z.to_N (48 + digit_value c) :: transform_decimal_and_space s'
           else [63%N]
  end.

Definition to_ascii (s : str) : str :=
  if forallb (fun c => (c <? 128)%N) s then s else transform_decimal_and_space s.

(** [Py_ISSPACE] *)
Definition is_c_space (c : char) : bool := in_range 9 13 c || (c =? 32)%N.

Fixpoint skip_c_spaces (s : str) : str :=
  match s with
  | c :: s' => if is_c_space c then skip_c_spaces s' else s
  | [] => []
  end.

(** The scan of the digits in [PyLong_FromString]: ASCII digits, with single
    underscores between them. It gives the value, the number of digits and
    the text that is left; [prev] is the character read last. *)
Fixpoint int_body (acc : Z) (count : nat) (prev : char) (s : str)
  : option (Z * nat * str) :=
  match s with
  | c :: s' =>
      if in_range 48 57 c
      then int_body (10 * acc + Z.of_N (c - 48)) (S count) c s'
      else if (c =? 95)%N
           then if (prev =? 95)%N then None else int_body acc count c s'
           else if (prev =? 95)%N then None else Some (acc, count, s)
  | [] => if (prev =? 95)%N then None else Some (acc, count, s)
  end.

(** The most digits [int()] converts ([sys.int_info.default_max_str_digits]). *)
Definition MAX_STR_DIGITS : nat := 4300.

(** [int(s)] on a string; [None] stands for [ValueError]. Blanks around the
    number are skipped, one sign may precede the digits, an underscore may
    not come first, and there is at least one digit and at most
    [MAX_STR_DIGITS]. *)
Definition int_of_str (s : str) : option Z :=
  let s := skip_c_spaces (to_ascii s) in
  let '(negative, s) :=
    match s with
    | c :: s' => if (c =? 43)%N then (false, s')
                 else if (c =? 45)%N then (true, s') else (false, s)
    | [] => (false, s)
    end in
  match s with
  | c :: _ => if (c =? 95)%N then None else
      match int_body 0 0 0%N s with
      | Some (value, count, rest) =>
          if (count =? 0) || (MAX_STR_DIGITS <? count) then None
          else match skip_c_spaces rest with
               | [] => Some (if negative then (- value)%Z else value)
               | _ :: _ => None
               end
      | None => None
      end
  | [] => None
  end.

(** ** Exceptions *)

Inductive exn := ValueError | TypeError | AttributeError | IndexError.

Inductive res (A : Type) : Type :=
| Ok (a : A)
| Raise (e : exn).
Arguments Ok {A} a.
Arguments Raise {A} e.

Definition bind {A B} (m : res A) (k : A -> res B) : res B :=
  match m with Ok a => k a | Raise e => Raise e end.

Notation "'let*' x := m 'in' k" := (bind m (fun x => k))
  (at level 10, x pattern, m at level 100, k at level 200).

(** ** Regular expressions *)

Inductive tok :=
| Cls (p : char -> bool)                      (* one character of a class *)
| Rep (p : char -> bool) (lo : nat) (hi : option nat)
                                              (* greedy p{lo,hi}; p* and p+ have no hi *)
| Lit (w : str)                               (* literal text *)
| Alt (ws : list str)                         (* w1|w2|..., tried in order *)
| Open                                        (* ( *)
| Close                                       (* ) *)
| Eol.                                        (* $ *)

(** Closed groups in order, and the text of the group being read. *)
Record mstate := { caps : list str; cur : option str }.

Definition eat (u : str) (st : mstate) : mstate :=
  {| caps := caps st; cur := (fun g => g ++ u) <$> cur st |}.

(** Length of the longest prefix of [s] in class [p], [hi] at most. *)
Fixpoint span (p : char -> bool) (hi : option nat) (s : str) : nat :=
  match hi with
  | Some O => O
  | _ =>
      match s with
      | c :: s' => if p c then S (span p (Nat.pred <$> hi) s') else O
      | [] => O
      end
  end.

(** Greedy repetition: the longest count first, then shorter ones down to
    [lo], until the rest of the pattern matches. *)
Fixpoint backtrack {A} (f : nat -> option A) (lo n : nat) : option A :=
  match n with
  | O => if (lo =? 0)%nat then f O else None
  | S n' =>
      if (S n' <? lo)%nat then None
      else match f (S n') with
           | Some r => Some r
           | None => backtrack f lo n'
           end
  end.

Fixpoint first_some {A B} (f : A -> option B) (l : list A) : option B :=
  match l with
  | [] => None
  | a :: l' => match f a with Some r => Some r | None => first_some f l' end
  end.

(** [run p s st]: match pattern [p] at the start of [s]; on success the
    groups and the unread rest of [s]. *)
Fixpoint run (p : list tok) (s : str) (st : mstate) : option (list str * str) :=
  match p with
  | [] => Some (caps st, s)
  | Cls c :: k =>
      match s with
      | x :: s' => if c x then run k s' (eat [x] st) else None
      | [] => None
      end
  | Rep c lo hi :: k =>
      backtrack (fun n => run k (drop n s) (eat (take n s) st)) lo (span c hi s)
  | Lit w :: k =>
      if startswith s w then run k (drop (length w) s) (eat w st) else None
  | Alt ws :: k =>
      first_some
        (fun w => if startswith s w then run k (drop (length w) s) (eat w st) else None)
        ws
  | Open :: k => run k s {| caps := caps st; cur := Some [] |}
  | Close :: k => run k s {| caps := caps st ++ [default [] (cur st)]; cur := None |}
  | Eol :: k =>
      match s with
      | [] => run k s st
      | [10%N] => run k s st
      | _ => None
      end
  end.

Definition mstate0 : mstate := {| caps := []; cur := None |}.

(** [re.match(p, s)]: the groups of a match at the start of [s]. *)
Definition re_match (p : list tok) (s : str) : option (list str) :=
  fst <$> run p s mstate0.

(** [re.search(p, s)]: the groups of the match with the leftmost start. *)
Fixpoint re_search (p : list tok) (s : str) : option (list str) :=
  match re_match p s with
  | Some m => Some m
  | None => match s with [] => None | _ :: s' => re_search p s' end
  end.

(** [m.group(i)], [i >= 1] *)
Definition group (m : list str) (i : nat) : str := default [] (m !! (i - 1)).

Definition one_of (cs : str) (c : char) : bool := existsb (N.eqb c) cs.

(** ** Constants *)

Definition KNOWN_COMMITTEES : list str :=
  map py ["Receiving"; "Stocking"; "Checkout"; "Produce"; "Maintenance";
          "Food Processing"; "Office"; "Childcare"; "Orientation"; "Inventory";
          "Shopping"; "Cashier"; "FTOP"].

Definition DAY_NAMES : list str :=
  map py ["Monday"; "Tuesday"; "Wednesday"; "Thursday"; "Friday"; "Saturday"; "Sunday"].

Definition BASE : str := py "https://members.foodcoop.com".

(** ** Text classifiers of ShiftMatchCrawler *)

(** r"(\d{1,2}):(\d{2})\s*([APap][Mm])" *)
Definition time_re : list tok :=
  [Open; Rep is_digit 1 (Some 2); Close; Lit (py ":");
   Open; Rep is_digit 2 (Some 2); Close; Rep is_space 0 None;
   Open; Cls (one_of (py "APap")); Cls (one_of (py "Mm")); Close].

(** [int(m.group(1))] *)
Definition int_group (m : list str) (i : nat) : res Z :=
  match int_of_str (group m i) with Some z => Ok z | None => Raise ValueError end.

(** The hour [_classify_time] derives from a match. *)
Definition slot_hour (m : list str) : res Z :=
  let* hour := int_group m 1 in
  let ampm := upper (group m 3) in
  let hour := if str_eqb ampm (py "PM") && negb (hour =? 12)%Z
              then (hour + 12)%Z else hour in
  let hour := if str_eqb ampm (py "AM") && (hour =? 12)%Z then 0%Z else hour in
  Ok hour.

Definition _classify_time (time_raw : str) : res str :=
  match re_search time_re time_raw with
  | None => Ok (py "Morning")
  | Some m =>
      let* hour := slot_hour m in
      if (hour <? 12)%Z then Ok (py "Morning")
      else if (hour <? 17)%Z then Ok (py "Afternoon")
      else if (hour <? 21)%Z then Ok (py "Evening")
      else Ok (py "Overnight")
  end.

(** r"^(mon|tue|wed|thu|fri|sat|sun)" *)
Definition day_prefix_re : list tok :=
  [Open; Alt (map py ["mon"; "tue"; "wed"; "thu"; "fri"; "sat"; "sun"]); Close].

Definition _is_day_name (text : str) : bool :=
  bool_decide (is_Some (re_match day_prefix_re (lower (strip text)))).

Definition _normalize_day (text : str) : str :=
  let t := take 3 (lower (strip text)) in
  match find (fun d => startswith (lower d) t) DAY_NAMES with
  | Some d => d
  | None => title (strip text)
  end.

Definition _fuzzy_committee (text : str) : option str :=
  let t := lower (strip text) in
  find (fun c => contains (lower c) t || contains t (lower c)) KNOWN_COMMITTEES.

(** [lst[idx]] guarded as in [_safe_idx]; the index is [None] or a list
    position. *)
Definition _safe_idx (lst : list str) (idx : option nat) : option str :=
  match idx with
  | Some i => if (i <? length lst)%nat then lst !! i else None
  | None => None
  end.

(** [lst[i]] *)
Definition item {A} (lst : list A) (i : nat) : res A :=
  match lst !! i with Some x => Ok x | None => Raise IndexError end.

(** ** The canonical shift record

    A record is a dictionary; a field is [None] when its key is absent. The
    keys are those the two strategies write. *)

Inductive source := FromTable (table_idx : nat) | FromGrid.

Record shift := {
  shift_id : option str;
  day : option str;
  date : option str;
  time_raw : option str;
  time_slot : option str;
  committee : option str;
  description : option str;
  signup_url : option str;
  slots : option str;
  status : option str;
  is_carrot : option bool;
  source_table : option source;
  source_row : option nat
}.

(** [shift["id"] = v] *)
Definition set_id (v : str) (s : shift) : shift :=
  {| shift_id := Some v; day := day s; date := date s; time_raw := time_raw s;
     time_slot := time_slot s; committee := committee s;
     description := description s; signup_url := signup_url s;
     slots := slots s; status := status s; is_carrot := is_carrot s;
     source_table := source_table s; source_row := source_row s |}.

(** ** The page as the crawler reads it

    What the BeautifulSoup queries of the source return: per table its [tr]
    rows, per row its [td]/[th] cells, per cell its stripped text and the
    [href] of its first link; the grid container, if any, with its [col]
    children, per column the stripped text of its first [p] (if any) and its
    [a.shift] links. *)

Record cell := { cell_text : str; cell_href : option str }.

Record shift_link := {
  link_classes : list str;      (* link.get("class", []) *)
  link_bold : option str;       (* text of link.find("b") *)
  link_text : str;              (* link.get_text(strip=True) *)
  link_href : option str        (* link.get("href") *)
}.

Record column := { col_header : option str; col_links : list shift_link }.

Record soup := {
  page_tables : list (list (list cell));
  page_grid : option (list column)
}.

(** ** Random draws *)

Record rng := { draws : nat -> nat; drawn : nat }.

(** [random.randint(lo, lo + width - 1)] *)
Definition randint (lo width : nat) (g : rng) : nat * rng :=
  ((lo + draws g (drawn g) mod width)%nat,
   {| draws := draws g; drawn := S (drawn g) |}).

(** ** Table strategy *)

Definition any_in (keys : list string) (txt : str) : bool :=
  existsb (fun k => contains (py k) txt) keys.

Definition detect_header (mapping : gmap string nat) (idx : nat) (c : cell)
  : gmap string nat :=
  let txt := lower (cell_text c) in
  if any_in ["day"; "date"] txt then <["day" := idx]> mapping
  else if any_in ["time"; "hour"; "when"] txt then <["time" := idx]> mapping
  else if any_in ["committee"; "squad"; "dept"; "area"; "job"] txt
       then <["committee" := idx]> mapping
  else if any_in ["slot"; "open"; "avail"; "remain"] txt then <["slots" := idx]> mapping
  else if any_in ["desc"; "detail"; "note"; "info"] txt
       then <["description" := idx]> mapping
  else mapping.

Fixpoint detect_from (idx : nat) (cells : list cell) (mapping : gmap string nat)
  : gmap string nat :=
  match cells with
  | [] => mapping
  | c :: rest => detect_from (S idx) rest (detect_header mapping idx c)
  end.

Definition _detect_headers (header_row : list cell) : gmap string nat :=
  detect_from 0 header_row ∅.

(** r"\d{1,2}:\d{2}\s*[APap][Mm]" *)
Definition clock_re : list tok :=
  [Rep is_digit 1 (Some 2); Lit (py ":"); Rep is_digit 2 (Some 2);
   Rep is_space 0 None; Cls (one_of (py "APap")); Cls (one_of (py "Mm"))].

(** r"^\d+$" *)
Definition digits_re : list tok := [Rep is_digit 1 None; Eol].

(** The values the cell scan fills in. *)
Record scan := {
  scan_day : option str;
  scan_time_raw : str;
  scan_committee : str;
  scan_slots : str
}.

(** One turn of the loop over the cell texts. *)
Definition scan_cell (txt : str) (v : scan) : scan :=
  let day := if negb (otruthy (scan_day v)) && _is_day_name txt
             then Some (_normalize_day txt) else scan_day v in
  let time_raw := if negb (truthy (scan_time_raw v))
                     && bool_decide (is_Some (re_search clock_re txt))
                  then txt else scan_time_raw v in
  let committee :=
    if negb (truthy (scan_committee v)) then
      match _fuzzy_committee txt with
      | Some cm => if truthy cm then cm else scan_committee v
      | None => scan_committee v
      end
    else scan_committee v in
  let slots := if negb (truthy (scan_slots v))
                  && bool_decide (is_Some (re_match digits_re (strip txt)))
               then strip txt else scan_slots v in
  {| scan_day := day; scan_time_raw := time_raw;
     scan_committee := committee; scan_slots := slots |}.

Definition scan_cells (texts : list str) (v : scan) : scan :=
  fold_left (fun v txt => scan_cell txt v) texts v.

(** The loop over the cells that looks for a signup link. *)
Fixpoint find_signup (cells : list cell) : str :=
  match cells with
  | [] => []
  | c :: rest =>
      match cell_href c with
      | Some href =>
          if contains (py "signup") (lower href) || contains (py "shift") (lower href)
             || startswith href (py "http")
          then (if startswith href (py "http") then href else BASE ++ href)
          else find_signup rest
      | None => find_signup rest
      end
  end.

Definition or_str (a b : str) : str := if truthy a then a else b.

Definition _extract_shift (cells : list cell) (texts : list str)
    (hmap : gmap string nat) (current_day : option str) (tbl row : nat) (g : rng)
  : res (option shift * rng) :=
  let v0 :=
    if bool_decide (hmap ≠ ∅) then
      {| scan_day := if otruthy current_day then current_day
                     else _safe_idx texts (hmap !! "day");
         scan_time_raw := or_str (default [] (_safe_idx texts (hmap !! "time"))) [];
         scan_committee := or_str (default [] (_safe_idx texts (hmap !! "committee"))) [];
         scan_slots := or_str (default [] (_safe_idx texts (hmap !! "slots"))) [] |}
    else
      {| scan_day := current_day; scan_time_raw := [];
         scan_committee := []; scan_slots := [] |} in
  let description :=
    if bool_decide (hmap ≠ ∅)
    then or_str (default [] (_safe_idx texts (hmap !! "description"))) []
    else [] in
  let v := scan_cells texts v0 in
  let signup_url := find_signup cells in
  let description :=
    if truthy description then description
    else join (py " | ")
           (filter (fun t => truthy t = true ∧ Some t ≠ scan_day v ∧ t ≠ scan_time_raw v)
                   texts) in
  if negb (truthy (scan_time_raw v) || truthy (scan_committee v)) then Ok (None, g)
  else
    let* slot := _classify_time (scan_time_raw v) in
    let '(slots_v, g') :=
      if truthy (scan_slots v) then (scan_slots v, g)
      else let '(n, g') := randint 1 6 g in (str_of_nat n, g') in
    Ok (Some {| shift_id := None;
                day := Some (if otruthy (scan_day v) then default [] (scan_day v)
                             else py "Unknown");
                date := None;
                time_raw := Some (scan_time_raw v);
                time_slot := Some slot;
                committee := Some (or_str (scan_committee v) (py "General"));
                description := Some (take 200 description);
                signup_url := Some signup_url;
                slots := Some slots_v;
                status := None;
                is_carrot := None;
                source_table := Some (FromTable tbl);
                source_row := Some row |}, g').

(** The state of the loops of [_parse_shifts]. *)
Record pstate := {
  shifts : list shift;
  counter : nat;
  current_day : option str;
  gen : rng
}.

(** One turn of the loop over the rows of a table. *)
Definition parse_row (hmap : gmap string nat) (table_idx row_idx : nat)
    (cells : list cell) (st : pstate) : res pstate :=
  let texts := map cell_text cells in
  let* section :=
    if (length cells =? 1)%nat
    then (let* t0 := item texts 0 in Ok (_is_day_name t0))
    else Ok false in
  if section then
    let* t0 := item texts 0 in
    Ok {| shifts := shifts st; counter := counter st;
          current_day := Some (_normalize_day t0); gen := gen st |}
  else if (length cells <? 2)%nat then Ok st
  else
    let* found := _extract_shift cells texts hmap (current_day st)
                    table_idx row_idx (gen st) in
    let '(r, g) := found in
    match r with
    | Some sh =>
        let counter := S (counter st) in
        Ok {| shifts := shifts st ++ [set_id (py "shift_" ++ fmt_03d counter) sh];
              counter := counter; current_day := current_day st; gen := g |}
    | None =>
        Ok {| shifts := shifts st; counter := counter st;
              current_day := current_day st; gen := g |}
    end.

Fixpoint parse_rows (hmap : gmap string nat) (table_idx row_idx : nat)
    (rows : list (list cell)) (st : pstate) : res pstate :=
  match rows with
  | [] => Ok st
  | row :: rest =>
      let* st' := parse_row hmap table_idx row_idx row st in
      parse_rows hmap table_idx (S row_idx) rest st'
  end.

(** One turn of the loop over the tables. *)
Definition parse_table (table_idx : nat) (rows : list (list cell)) (st : pstate)
  : res pstate :=
  match rows with
  | [] => Ok st
  | header :: data =>
      let header_map := _detect_headers header in
      parse_rows header_map table_idx 1 data
        {| shifts := shifts st; counter := counter st;
           current_day := None; gen := gen st |}
  end.

Fixpoint parse_tables (table_idx : nat) (tables : list (list (list cell)))
    (st : pstate) : res pstate :=
  match tables with
  | [] => Ok st
  | t :: rest =>
      let* st' := parse_table table_idx t st in
      parse_tables (S table_idx) rest st'
  end.

Definition _parse_shifts (tables : list (list (list cell))) (g : rng)
  : res (list shift * rng) :=
  let* st := parse_tables 0 tables
               {| shifts := []; counter := 0; current_day := None; gen := g |} in
  Ok (shifts st, gen st).

(** ** Grid strategy *)

(** r"(Mon|Tue|Wed|Thu|Fri|Sat|Sun)\s*(\d{1,2}/\d{1,2}/\d{4})" *)
Definition day_date_re : list tok :=
  [Open; Alt (map py ["Mon"; "Tue"; "Wed"; "Thu"; "Fri"; "Sat"; "Sun"]); Close;
   Rep is_space 0 None;
   Open; Rep is_digit 1 (Some 2); Lit (py "/"); Rep is_digit 1 (Some 2); Lit (py "/");
   Rep is_digit 4 (Some 4); Close].

(** The class of
    r"[\U0001F300-\U0001FAFF\U00002702-\U000027B0\U0000FE00-\U0000FE0F
       \u200d\u2600-\u26FF\u2700-\u27BF]+" *)
Definition is_emoji (c : char) : bool :=
  in_range 127744 129791 c || in_range 9986 10160 c || in_range 65024 65039 c
  || (c =? 8205)%N || in_range 9728 9983 c || in_range 9984 10175 c.

(** The carrot glyph, U+1F955. *)
Definition carrot : char := 129365%N.

(** r"^\*+\s*" *)
Definition stars_re : list tok := [Rep (N.eqb 42) 1 None; Rep is_space 0 None].

(** [re.sub(stars_re, "", s)]: the pattern is anchored, only a match at the
    start is replaced. *)
Definition strip_stars (s : str) : str :=
  match run stars_re s mstate0 with
  | Some (_, rest) => rest
  | None => s
  end.

(** The committee text of a link: its text without the time, the carrot,
    the glyphs and the leading asterisks. *)
Definition committee_of_link (full_text time_raw : str) : str :=
  let committee_text :=
    if truthy time_raw then remove_all time_raw full_text else full_text in
  let committee_text := strip (filter (fun c => c ≠ carrot) committee_text) in
  let committee_clean := strip (filter (fun c => is_emoji c = false) committee_text) in
  strip (strip_stars committee_clean).

(** The state of the loops of [_parse_column_layout]. *)
Record gstate := { g_shifts : list shift; g_counter : nat }.

(** One turn of the loop over the links of a column. *)
Definition parse_link (day date_str : str) (link : shift_link) (st : gstate)
  : res gstate :=
  let classes := link_classes link in
  let is_unavail := bool_decide (py "unavail" ∈ classes) in
  let has_worker := bool_decide (py "worker" ∈ classes) in
  let is_carrot_v := bool_decide (py "carrot" ∈ classes) in
  let time_raw_v := default [] (link_bold link) in
  let committee_clean := committee_of_link (link_text link) time_raw_v in
  let href := strip (default [] (link_href link)) in
  let signup_url_v :=
    if truthy href
    then (if startswith href (py "http") then href else BASE ++ href)
    else [] in
  let '(status_v, slots_v) :=
    if is_unavail then (py "unavailable", py "0")
    else if has_worker then (py "filled", py "0")
    else (py "available", py "1") in
  let desc_parts :=
    (if is_carrot_v then [py "Carrot shift (extra credit)"] else [])
    ++ (if is_unavail then [py "Currently unavailable"] else [])
    ++ (if has_worker then [py "Worker assigned"] else []) in
  let counter := S (g_counter st) in
  let* slot := _classify_time time_raw_v in
  Ok {| g_shifts := g_shifts st ++
          [ {| shift_id := Some (py "shift_" ++ fmt_03d counter);
               day := Some day;
               date := Some date_str;
               time_raw := Some time_raw_v;
               time_slot := Some slot;
               committee := Some (or_str committee_clean (py "General"));
               description := Some (join [32%N; 8212%N; 32%N] desc_parts);
               signup_url := Some signup_url_v;
               slots := Some slots_v;
               status := Some status_v;
               is_carrot := Some is_carrot_v;
               source_table := Some FromGrid;
               source_row := Some counter |} ];
        g_counter := counter |}.

Fixpoint parse_links (day date_str : str) (links : list shift_link) (st : gstate)
  : res gstate :=
  match links with
  | [] => Ok st
  | link :: rest =>
      let* st' := parse_link day date_str link st in
      parse_links day date_str rest st'
  end.

(** The day and the date read from the header of a column. *)
Definition parse_header (header_text : str) : str * str :=
  match re_match day_date_re header_text with
  | Some day_match => (_normalize_day (group day_match 1), group day_match 2)
  | None => (py "Unknown", [])
  end.

(** One turn of the loop over the columns. *)
Definition parse_column (col : column) (st : gstate) : res gstate :=
  match col_header col with
  | None => Ok st
  | Some header_text =>
      let '(day, date_str) := parse_header header_text in
      parse_links day date_str (col_links col) st
  end.

Fixpoint parse_columns (columns : list column) (st : gstate) : res gstate :=
  match columns with
  | [] => Ok st
  | col :: rest =>
      let* st' := parse_column col st in
      parse_columns rest st'
  end.

Definition _parse_column_layout (page : soup) : res (list shift) :=
  match page_grid page with
  | None => Ok []
  | Some columns =>
      let* st := parse_columns columns {| g_shifts := []; g_counter := 0 |} in
      Ok (g_shifts st)
  end.

(** ** Coordinator *)

(** The dictionary [get_shifts] returns once the page is fetched. *)
Record crawl := {
  success : bool;
  parsed_shifts : list shift;
  message : str;
  debug : list str
}.

(** [get_shifts] from the line "Parse shifts" on: [page] is the parsed
    response and [debug_info] the log written so far. Fetching the page is
    left to the caller. *)
Definition get_shifts (page : soup) (debug_info : list str) (g : rng)
  : res (crawl * rng) :=
  let* first := _parse_shifts (page_tables page) g in
  let '(parsed, g') := first in
  let debug_info :=
    debug_info ++ [py "Parsed " ++ str_of_nat (length parsed) ++ py " shifts from tables"] in
  let* second :=
    match parsed with
    | [] =>
        let* parsed := _parse_column_layout page in
        Ok (parsed,
            debug_info ++ [py "Parsed " ++ str_of_nat (length parsed)
                             ++ py " shifts from column layout"])
    | _ :: _ => Ok (parsed, debug_info)
    end in
  let '(parsed, debug_info) := second in
  Ok ({| success := true; parsed_shifts := parsed; message := py "OK";
         debug := debug_info |}, g').

(** What [send_daily_matches] does with the result of [get_shifts]. *)
Inductive outcome := NoShiftsFound | Proceed (found : list shift).

Definition daily_outcome (r : crawl) : outcome :=
  match parsed_shifts r with
  | [] => NoShiftsFound
  | _ :: _ => Proceed (parsed_shifts r)
  end.

(** ** Preferences and the scorer *)

(** A value decoded from JSON, numbers being integers. *)
Inductive json :=
| JNull
| JBool (b : bool)
| JNum (n : Z)
| JStr (s : str)
| JArr (items : list json)
| JObj (members : list (str * json)).

(** [for x in v]: a list gives its items, a string its characters, an object
    its keys; nothing else can be iterated. *)
Definition iterate (v : json) : res (list json) :=
  match v with
  | JArr items => Ok items
  | JStr s => Ok (map (fun c => JStr [c]) s)
  | JObj members => Ok (map (fun kv => JStr (fst kv)) members)
  | JNull | JBool _ | JNum _ => Raise TypeError
  end.

(** [x.lower()] of one item *)
Definition lower_item (x : json) : res str :=
  match x with
  | JStr s => Ok (lower s)
  | _ => Raise AttributeError
  end.

Fixpoint lower_items (xs : list json) : res (list str) :=
  match xs with
  | [] => Ok []
  | x :: rest =>
      let* a := lower_item x in
      let* r := lower_items rest in
      Ok (a :: r)
  end.

(** [[x.lower() for x in v]] *)
Definition lowered (v : json) : res (list str) :=
  let* xs := iterate v in lower_items xs.

Record ShiftMatcher := {
  days : list str;
  times : list str;
  committees : json;
  excluded : list str
}.

(** [preferences.get(key, [])] *)
Definition pref (preferences : gmap string json) (key : string) : json :=
  default (JArr []) (preferences !! key).

(** [ShiftMatcher.__init__] *)
Definition init (preferences : gmap string json) : res ShiftMatcher :=
  let* days_v := lowered (pref preferences "days") in
  let* times_v := lowered (pref preferences "times") in
  let committees_v := pref preferences "committees" in
  let* excluded_v := lowered (pref preferences "excludedCommittees") in
  Ok {| days := days_v; times := times_v; committees := committees_v;
        excluded := excluded_v |}.

(** [d[key] = v] on a dictionary that keeps insertion order. *)
Fixpoint dict_set (key : string) (v : str) (d : list (string * str))
  : list (string * str) :=
  match d with
  | [] => [(key, v)]
  | (k, x) :: rest =>
      if String.eqb k key then (k, v) :: rest else (k, x) :: dict_set key v rest
  end.

Fixpoint dict_get (key : string) (d : list (string * str)) : option str :=
  match d with
  | [] => None
  | (k, x) :: rest => if String.eqb k key then Some x else dict_get key rest
  end.

(** [l.index(x)] for an [x] that occurs in [l] *)
Fixpoint index_of (x : str) (l : list str) : nat :=
  match l with
  | [] => 0
  | y :: rest => if str_eqb y x then 0 else S (index_of x rest)
  end.

(** [base] and [breakdown] while [score] runs. *)
Record tally := { base : Z; breakdown : list (string * str) }.

Definition note (delta : Z) (key : string) (text : str) (t : tally) : tally :=
  {| base := (base t + delta)%Z; breakdown := dict_set key text (breakdown t) |}.

(** Committee rank scoring *)
Definition committee_step (self : ShiftMatcher) (sh : shift) (t : tally) : res tally :=
  let committee_v := default [] (committee sh) in
  let* comm_lower := lowered (committees self) in
  match comm_lower with
  | _ :: _ =>
      if bool_decide (lower committee_v ∈ comm_lower) then
        let rank := index_of (lower committee_v) comm_lower in
        if (rank =? 0)%nat then
          Ok (note 10 "committee" (py "Top choice: " ++ committee_v ++ py " (+10%)") t)
        else
          let penalty := (rank * 5)%nat in
          Ok (note (- Z.of_nat penalty) "committee"
                (py "Rank #" ++ str_of_nat (rank + 1) ++ py ": " ++ committee_v
                   ++ py " (-" ++ str_of_nat penalty ++ py "%)") t)
      else
        Ok (note (-25) "committee"
              (committee_v ++ py " not in your preferences (-25%)") t)
  | [] => Ok (note 0 "committee" (py "No committee preference set") t)
  end.

(** Day matching *)
Definition day_step (self : ShiftMatcher) (sh : shift) (t : tally) : tally :=
  let day_raw := default [] (day sh) in
  let day_v := lower day_raw in
  match days self with
  | _ :: _ =>
      if bool_decide (day_v ∈ days self)
      then note 0 "day" (day_raw ++ py " is a preferred day") t
      else note (-20) "day" (day_raw ++ py " is not preferred (-20%)") t
  | [] => note 0 "day" (py "No day preference set") t
  end.

(** Time matching *)
Definition time_step (self : ShiftMatcher) (sh : shift) (t : tally) : tally :=
  let slot_raw := default [] (time_slot sh) in
  let time_slot_v := lower slot_raw in
  match times self with
  | _ :: _ =>
      if bool_decide (time_slot_v ∈ times self)
      then note 0 "time" (slot_raw ++ py " is a preferred time") t
      else note (-15) "time" (slot_raw ++ py " is not preferred (-15%)") t
  | [] => note 0 "time" (py "No time preference set") t
  end.

(** [int(shift.get("slots", 0))]: the default is the integer 0; [None]
    stands for the [ValueError] that the [except] clause catches. *)
Definition slots_int (sh : shift) : option Z :=
  match slots sh with
  | Some s => int_of_str s
  | None => Some 0%Z
  end.

(** Slots bonus/penalty *)
Definition slots_step (sh : shift) (t : tally) : tally :=
  match slots_int sh with
  | Some slot_n =>
      if (slot_n >? 3)%Z
      then note 5 "slots" (str_of_Z slot_n ++ py " slots available (+5%)") t
      else if (slot_n =? 1)%Z
      then note (-5) "slots" (py "Only 1 slot left (-5%)") t
      else note 0 "slots" (str_of_Z slot_n ++ py " slots available") t
  | None => note 0 "slots" (py "Slots unknown") t
  end.

(** The hour the late-evening check of [score] derives from a match. *)
Definition late_hour (m : list str) : res Z :=
  let* hour := int_group m 1 in
  let ampm := upper (group m 3) in
  Ok (if str_eqb ampm (py "PM") && negb (hour =? 12)%Z then (hour + 12)%Z else hour).

(** Late evening penalty *)
Definition late_step (sh : shift) (t : tally) : res tally :=
  match re_search time_re (default [] (time_raw sh)) with
  | Some m =>
      let* hour := late_hour m in
      if (hour >=? 21)%Z
      then Ok (note (-10) "late" (py "Late evening shift (-10%)") t)
      else Ok t
  | None => Ok t
  end.

(** The dictionary [score] returns. *)
Record scored := {
  scored_shift : shift;
  scored_score : Z;
  scored_breakdown : list (string * str)
}.

(** [ShiftMatcher.score] *)
Definition score (self : ShiftMatcher) (sh : shift) : res scored :=
  let t := {| base := 100; breakdown := [] |} in
  let* t := committee_step self sh t in
  let t := day_step self sh t in
  let t := time_step self sh t in
  let t := slots_step sh t in
  let* t := late_step sh t in
  Ok {| scored_shift := sh;
        scored_score := Z.max 0 (Z.min 120 (base t));
        scored_breakdown := breakdown t |}.

(** [list.sort(key=lambda x: x["score"], reverse=True)]. The sort of the
    runtime is stable, also when reversed; a stable sort is determined by its
    input, and is given here by insertion from the right: an item goes before
    the first one whose score is not greater than its own. *)
Fixpoint insert_scored (x : scored) (l : list scored) : list scored :=
  match l with
  | [] => [x]
  | y :: rest =>
      if (scored_score x <? scored_score y)%Z then y :: insert_scored x rest
      else x :: y :: rest
  end.

Definition sort_by_score (l : list scored) : list scored :=
  foldr insert_scored [] l.

Fixpoint score_all (self : ShiftMatcher) (l : list shift) : res (list scored) :=
  match l with
  | [] => Ok []
  | s :: rest =>
      let* r := score self s in
      let* rs := score_all self rest in
      Ok (r :: rs)
  end.

(** The test of the filter of [rank]. *)
Definition kept (self : ShiftMatcher) (s : shift) : bool :=
  bool_decide (lower (default [] (committee s)) ∉ excluded self).

(** [ShiftMatcher.rank] *)
Definition rank (self : ShiftMatcher) (shifts_v : list shift) : res (list scored) :=
  let filtered := filter (fun s => kept self s = true) shifts_v in
  let* scored_v := score_all self filtered in
  Ok (sort_by_score scored_v).

(** [l[:n]]: the first [n] items; for a negative [n], all but the last
    [-n]. *)
Definition slice_to {A} (n : Z) (l : list A) : list A :=
  if (n <? 0)%Z then take (length l - Z.to_nat (- n)) l else take (Z.to_nat n) l.

(** [ShiftMatcher.top] *)
Definition top (self : ShiftMatcher) (shifts_v : list shift) (n : Z)
  : res (list scored) :=
  let* ranked := rank self shifts_v in Ok (slice_to n ranked).

(** ** The specification's words

    Definitions that follow the text of the specification, for comparison
    with the code above. *)

(** [w] is a substring of [s]. *)
Definition substring (w s : str) : Prop := ∃ a b, s = a ++ w ++ b.

Definition digits (s : str) : Prop := Forall (fun c => is_digit c = true) s.
Definition blanks (s : str) : Prop := Forall (fun c => is_space c = true) s.

(** [u] has the shape H:MM followed by AM or PM: an hour [h] of one or two
    digits, a colon, two digits, optional blanks, a letter [a] among A, P, a,
    p and a letter M or m. *)
Definition time_shape (h : str) (a : char) (u : str) : Prop :=
  (length h = 1 ∨ length h = 2) ∧ digits h ∧
  ∃ mm ws z, length mm = 2 ∧ digits mm ∧ blanks ws
             ∧ one_of (py "APap") a = true ∧ one_of (py "Mm") z = true
             ∧ u = h ++ py ":" ++ mm ++ ws ++ [a; z].

(** A substring of that shape starts at offset [n] of [s]. *)
Definition time_at (n : nat) (h : str) (a : char) (s : str) : Prop :=
  ∃ u pre post, time_shape h a u ∧ s = pre ++ u ++ post ∧ length pre = n.

(** The first substring of that shape in [s] has hour [h] and letter [a]. *)
Definition first_time (s h : str) (a : char) : Prop :=
  ∃ n, time_at n h a s ∧ ∀ n' h' a', time_at n' h' a' s → n ≤ n'.

(** Conversion to a 24-hour hour: a PM hour other than 12 gains 12, 12PM
    stays 12, 12AM becomes 0. *)
Definition hour24 (hour : Z) (a : char) : Z :=
  if one_of (py "Pp") a
  then (if (hour =? 12)%Z then 12 else hour + 12)%Z
  else (if (hour =? 12)%Z then 0 else hour)%Z.

(** The bucket boundaries. *)
Definition bucket (hour : Z) : str :=
  if (hour <? 12)%Z then py "Morning"
  else if (hour <? 17)%Z then py "Afternoon"
  else if (hour <? 21)%Z then py "Evening"
  else py "Overnight".

Definition TIME_SLOTS : list str :=
  map py ["Morning"; "Afternoon"; "Evening"; "Overnight"].

(** Two texts are equal up to case. *)
Definition same_ignoring_case (a b : str) : Prop := lower a = lower b.

(** A preference set: days, time-of-day buckets, ranked categories and
    excluded categories, each a list of names. *)
Record preference_set := {
  pref_days : list str;
  pref_times : list str;
  pref_committees : list str;
  pref_excluded : list str
}.

Definition names (l : list str) : json := JArr (JStr <$> l).

(** The dictionary that holds a preference set. *)
Definition preferences_of (p : preference_set) : gmap string json :=
  <["days" := names (pref_days p)]>
    (<["times" := names (pref_times p)]>
       (<["committees" := names (pref_committees p)]>
          (<["excludedCommittees" := names (pref_excluded p)]> ∅))).

(** The category of a record is excluded by the preference set. *)
Definition excluded_category (p : preference_set) (s : shift) : Prop :=
  Exists (same_ignoring_case (default [] (committee s))) (pref_excluded p).

#[global] Instance same_ignoring_case_dec a b : Decision (same_ignoring_case a b).
Proof. unfold same_ignoring_case. apply _. Defined.

#[global] Instance excluded_category_dec p s : Decision (excluded_category p s).
Proof. unfold excluded_category. apply _. Defined.

(** The scorer a preference set gives rise to. *)
Definition matcher_of (p : preference_set) : ShiftMatcher :=
  {| days := lower <$> pref_days p; times := lower <$> pref_times p;
     committees := names (pref_committees p); excluded := lower <$> pref_excluded p |}.

(** Scores do not increase along the list. *)
Definition descending (l : list scored) : Prop :=
  ∀ i j a b, i < j → l !! i = Some a → l !! j = Some b →
             (scored_score b ≤ scored_score a)%Z.

(** Results with the same score stand in [out] in the order they have in
    [input]. *)
Definition ties_in_order (out input : list scored) : Prop :=
  ∀ v : Z, filter (fun r => scored_score r = v) out
           = filter (fun r => scored_score r = v) input.

(** The late-evening penalty is due: a time is found in the text and its
    24-hour hour is 21 or more. *)
Definition is_late (raw : str) : Prop :=
  ∃ h a, first_time raw h a ∧ (21 ≤ hour24 (digits_value h) a)%Z.

(** [b] does not score above [a]. *)
Definition ge_score (a b : scored) : Prop := (scored_score b ≤ scored_score a)%Z.

(** The identifiers of the records are the ordinals 1, 2, ... in emission
    order, written as [shift_001], [shift_002], ... *)
Definition sequential_ids (l : list shift) : Prop :=
  ∀ k sh, l !! k = Some sh → shift_id sh = Some (py "shift_" ++ fmt_03d (S k)).

(** The record [sh] is the one emitted for link [l] of a column whose header
    text is [h]: its time is the bold text of the link; its day and date are
    read from the header when it has the form day and date, and are
    "Unknown" and the empty string when it has not. *)
Definition emitted_for (hl : str * shift_link) (sh : shift) : Prop :=
  time_raw sh = Some (default [] (link_bold hl.2))
  ∧ source_table sh = Some FromGrid
  ∧ match re_match day_date_re hl.1 with
    | Some m => day sh = Some (_normalize_day (group m 1)) ∧ date sh = Some (group m 2)
    | None => day sh = Some (py "Unknown") ∧ date sh = Some []
    end.

(** The links of the columns that have a header, in document order, each
    with the header text of its column. *)
Definition headed_links (columns : list column) : list (str * shift_link) :=
  columns ≫= (fun col =>
    match col_header col with
    | Some h => (fun l => (h, l)) <$> col_links col
    | None => []
    end).

(** All the links of all the columns, in document order. *)
Definition all_links (columns : list column) : list shift_link :=
  columns ≫= col_links.

(** The state of the table strategy holds as many records as it counted,
    numbered in order. *)
Definition counted (st : pstate) : Prop :=
  length (shifts st) = counter st ∧ sequential_ids (shifts st).

(** The same for the state of the grid strategy. *)
Definition gcounted (st : gstate) : Prop :=
  length (g_shifts st) = g_counter st ∧ sequential_ids (g_shifts st).

(** The entries [get_shifts] writes to its log. *)
Definition tables_entry (parsed : list shift) : str :=
  py "Parsed " ++ str_of_nat (length parsed) ++ py " shifts from tables".

Definition grid_entry (parsed : list shift) : str :=
  py "Parsed " ++ str_of_nat (length parsed) ++ py " shifts from column layout".

(** ** Inputs of the examples *)

(** A grid of one column that has no header and holds one link. *)
Definition a_link : shift_link :=
  {| link_classes := [py "shift"]; link_bold := Some (py "6:30pm");
     link_text := py "6:30pmCheckout"; link_href := Some (py "/services/shift_claim/1/") |}.

Definition headless_columns : list column :=
  [ {| col_header := None; col_links := [a_link] |} ].

Definition headless_page : soup :=
  {| page_tables := []; page_grid := Some headless_columns |}.

(** Preferences whose [days] is a number, and whose [days] is a string. *)
Definition days_number : gmap string json := {[ "days" := JNum 5 ]}.
Definition days_string : gmap string json := {[ "days" := JStr (py "sat") ]}.

(** The preferences and the records of the examples of the specification. *)
Definition example_preferences : gmap string json :=
  preferences_of {| pref_days := [py "saturday"]; pref_times := [py "evening"];
                    pref_committees := [py "Produce"]; pref_excluded := [] |}.

Definition late_shift : shift :=
  {| shift_id := Some (py "shift_002"); day := Some (py "Monday"); date := None;
     time_raw := Some (py "9:45pm"); time_slot := Some (py "Overnight");
     committee := Some (py "Checkout"); description := Some [];
     signup_url := Some []; slots := Some (py "2"); status := None;
     is_carrot := None; source_table := Some (FromTable 0); source_row := Some 2 |}.

Definition unavailable_page : soup :=
  {| page_tables := [];
     page_grid := Some
       [ {| col_header := Some (py "Sat 2/14/2026");
            col_links := [ {| link_classes := [py "shift"; py "unavail"];
                              link_bold := Some (py "6:30pm");
                              link_text := py "6:30pmCheckout";
                              link_href := Some (py "/services/shift_claim/7/") |} ] |} ] |}.

Definition saturday_shift : shift :=
  {| shift_id := Some (py "shift_001"); day := Some (py "Saturday"); date := None;
     time_raw := Some (py "6:30pm"); time_slot := Some (py "Evening");
     committee := Some (py "Produce"); description := Some [];
     signup_url := Some []; slots := Some (py "1"); status := None;
     is_carrot := None; source_table := Some (FromTable 0); source_row := Some 1 |}.

Definition blank : shift :=
  {| shift_id := None; day := None; date := None; time_raw := None;
     time_slot := None; committee := None; description := None;
     signup_url := None; slots := None; status := None; is_carrot := None;
     source_table := None; source_row := None |}.

Definition tally0 : tally := {| base := 100; breakdown := [] |}.

(** A page with neither table nor grid, and a sequence of draws. *)
Definition empty_page : soup := {| page_tables := []; page_grid := None |}.

Definition rng0 : rng := {| draws := fun n => n; drawn := 0 |}.

(** A column whose header is not a day followed by a date. *)
Definition odd_header_columns : list column :=
  [ {| col_header := Some (py "Next week"); col_links := [a_link] |} ].

(** A data row whose second cell is empty. *)
Definition row_with_empty_cell : list cell :=
  [ {| cell_text := py "x"; cell_href := None |};
    {| cell_text := []; cell_href := None |} ].

(** A record whose [slots] is not a number. *)
Definition many_slots_shift : shift :=
  {| shift_id := Some (py "shift_003"); day := Some (py "Monday"); date := None;
     time_raw := Some (py "9:00AM"); time_slot := Some (py "Morning");
     committee := Some (py "Office"); description := Some [];
     signup_url := Some []; slots := Some (py "many"); status := None;
     is_carrot := None; source_table := Some (FromTable 0); source_row := Some 3 |}.

(** ** The terms of the score

    What each step of [score] adds to [base], read off the step. *)

(** The committee term, from the lower-cased ranked list and the lower-cased
    committee of the record. *)
Definition committee_delta (comm_lower : list str) (c : str) : Z :=
  match comm_lower with
  | [] => 0
  | _ :: _ =>
      if bool_decide (c ∈ comm_lower)
      then (if (index_of c comm_lower =? 0)%nat then 10
            else - Z.of_nat (index_of c comm_lower * 5))
      else -25
  end.

(** The term of a list of preferred values: nothing when the list is empty
    or holds the value, [penalty] otherwise. *)
Definition preferred_delta (penalty : Z) (preferred : list str) (v : str) : Z :=
  match preferred with
  | [] => 0
  | _ :: _ => if bool_decide (v ∈ preferred) then 0 else penalty
  end.

Definition slots_delta (sh : shift) : Z :=
  match slots_int sh with
  | Some n => if (n >? 3)%Z then 5 else if (n =? 1)%Z then -5 else 0
  | None => 0
  end.

(** [x] stands first at position [r] of [l]. *)
Definition first_at (x : str) (l : list str) (r : nat) : Prop :=
  l !! r = Some x ∧ ∀ j, j < r → l !! j ≠ Some x.

(** A preference set without its excluded categories. *)
Definition without_exclusions (p : preference_set) : preference_set :=
  {| pref_days := pref_days p; pref_times := pref_times p;
     pref_committees := pref_committees p; pref_excluded := [] |}.

(** Preferences written in capitals, for the examples. *)
Definition shouted_preferences : preference_set :=
  {| pref_days := [py "SATURDAY"]; pref_times := [py "Evening"];
     pref_committees := [py "PRODUCE"]; pref_excluded := [] |}.

Definition plain_preferences : preference_set :=
  {| pref_days := [py "saturday"]; pref_times := [py "evening"];
     pref_committees := [py "Produce"]; pref_excluded := [] |}.

(** Seven ranked committees, the last of which is the one of [late_shift]. *)
Definition long_ranking : preference_set :=
  {| pref_days := []; pref_times := [];
     pref_committees := map py ["Receiving"; "Stocking"; "Produce"; "Maintenance";
                                "Office"; "Childcare"; "Checkout"];
     pref_excluded := [] |}.

(** ** Header keywords

    The key a header text stands for: the first of day, time, committee,
    slots and description that has a keyword occurring in the text. *)
Definition header_key (txt : str) : option string :=
  if any_in ["day"; "date"] txt then Some "day"
  else if any_in ["time"; "hour"; "when"] txt then Some "time"
  else if any_in ["committee"; "squad"; "dept"; "area"; "job"] txt then Some "committee"
  else if any_in ["slot"; "open"; "avail"; "remain"] txt then Some "slots"
  else if any_in ["desc"; "detail"; "note"; "info"] txt then Some "description"
  else None.

(** Column [i] of the header row stands for [key], and no later column
    does. *)
Definition last_column_of (key : string) (header_row : list cell) (i : nat) : Prop :=
  (∃ c, header_row !! i = Some c ∧ header_key (lower (cell_text c)) = Some key)
  ∧ ∀ j c, i < j → header_row !! j = Some c →
           header_key (lower (cell_text c)) ≠ Some key.

(** The three-letter day names [_is_day_name] looks for. *)
Definition DAY_ABBREVIATIONS : list str :=
  map py ["mon"; "tue"; "wed"; "thu"; "fri"; "sat"; "sun"].

(** A header row for the examples. *)
Definition example_header : list cell :=
  [ {| cell_text := py "Day"; cell_href := None |};
    {| cell_text := py "Start time"; cell_href := None |};
    {| cell_text := py "Date/Time"; cell_href := None |};
    {| cell_text := py "Squad"; cell_href := None |} ].

(** ** Records of the two strategies *)

(** The values [_extract_shift] has before it scans the cells: the day
    carried from a section row, else the cell of the day column; the cells of
    the time, committee and slots columns. *)
Definition header_values (texts : list str) (hmap : gmap string nat)
    (current_day : option str) : scan :=
  if bool_decide (hmap ≠ ∅) then
    {| scan_day := if otruthy current_day then current_day
                   else _safe_idx texts (hmap !! "day");
       scan_time_raw := or_str (default [] (_safe_idx texts (hmap !! "time"))) [];
       scan_committee := or_str (default [] (_safe_idx texts (hmap !! "committee"))) [];
       scan_slots := or_str (default [] (_safe_idx texts (hmap !! "slots"))) [] |}
  else
    {| scan_day := current_day; scan_time_raw := [];
       scan_committee := []; scan_slots := [] |}.

(** The record [parse_link] appends for a link, given the day and date of
    the column, the count of records so far plus one, and the bucket of the
    time. *)
Definition link_shift (day_v date_v : str) (link : shift_link) (counter : nat)
    (slot : str) : shift :=
  let classes := link_classes link in
  let is_unavail := bool_decide (py "unavail" ∈ classes) in
  let has_worker := bool_decide (py "worker" ∈ classes) in
  let is_carrot_v := bool_decide (py "carrot" ∈ classes) in
  let time_raw_v := default [] (link_bold link) in
  let href := strip (default [] (link_href link)) in
  {| shift_id := Some (py "shift_" ++ fmt_03d counter);
     day := Some day_v;
     date := Some date_v;
     time_raw := Some time_raw_v;
     time_slot := Some slot;
     committee := Some (or_str (committee_of_link (link_text link) time_raw_v)
                          (py "General"));
     description := Some (join [32%N; 8212%N; 32%N]
       ((if is_carrot_v then [py "Carrot shift (extra credit)"] else [])
        ++ (if is_unavail then [py "Currently unavailable"] else [])
        ++ (if has_worker then [py "Worker assigned"] else [])));
     signup_url := Some (if truthy href
                         then (if startswith href (py "http") then href else BASE ++ href)
                         else []);
     slots := Some (if is_unavail then py "0" else if has_worker then py "0" else py "1");
     status := Some (if is_unavail then py "unavailable"
                     else if has_worker then py "filled" else py "available");
     is_carrot := Some is_carrot_v;
     source_table := Some FromGrid;
     source_row := Some counter |}.

(** [sh] is the record of a link, given with the header text of its
    column. *)
Definition record_of (hl : str * shift_link) (sh : shift) : Prop :=
  ∃ n slot, _classify_time (default [] (link_bold hl.2)) = Ok slot ∧ slot ∈ TIME_SLOTS
            ∧ sh = link_shift (parse_header hl.1).1 (parse_header hl.1).2 hl.2 n slot.

(** What every record of an extraction satisfies: the bucket is the one
    [_classify_time] gives for the time text; day, committee and slots are
    not empty; the description has at most 200 characters; the signup URL is
    empty or begins with http. *)
Definition well_formed_record (sh : shift) : Prop :=
  ∃ d tr ts c desc url sl,
    day sh = Some d ∧ d ≠ []
    ∧ time_raw sh = Some tr ∧ time_slot sh = Some ts
    ∧ _classify_time tr = Ok ts ∧ ts ∈ TIME_SLOTS
    ∧ committee sh = Some c ∧ c ≠ []
    ∧ description sh = Some desc ∧ length desc ≤ 200
    ∧ signup_url sh = Some url ∧ (url = [] ∨ startswith url (py "http") = true)
    ∧ slots sh = Some sl ∧ sl ≠ [].

(** The record of a link follows the flags of the link: unavailable before
    worker-assigned before available. *)
Definition follows_flags (link : shift_link) (sh : shift) : Prop :=
  let classes := link_classes link in
  (py "unavail" ∈ classes →
     status sh = Some (py "unavailable") ∧ slots sh = Some (py "0"))
  ∧ (py "unavail" ∉ classes → py "worker" ∈ classes →
     status sh = Some (py "filled") ∧ slots sh = Some (py "0"))
  ∧ (py "unavail" ∉ classes → py "worker" ∉ classes →
     status sh = Some (py "available") ∧ slots sh = Some (py "1"))
  ∧ is_carrot sh = Some (bool_decide (py "carrot" ∈ classes))
  ∧ (∀ part, part ∈ [py "Carrot shift (extra credit)"; py "Currently unavailable";
                     py "Worker assigned"] →
       (substring part (default [] (description sh)) ↔
        (part = py "Carrot shift (extra credit)" ∧ py "carrot" ∈ classes)
        ∨ (part = py "Currently unavailable" ∧ py "unavail" ∈ classes)
        ∨ (part = py "Worker assigned" ∧ py "worker" ∈ classes))).

(** A header row, a section row and two data rows, for the examples. *)
Definition text_cell (s : string) : cell := {| cell_text := py s; cell_href := None |}.

Definition example_table : list (list cell) :=
  [ [text_cell "Day"; text_cell "Time"; text_cell "Committee"; text_cell "Slots"];
    [text_cell "Tuesday"];
    [text_cell "Friday"; text_cell "5:00PM"; text_cell "Checkout"; text_cell "4"];
    [text_cell "Friday"; text_cell "soon"; text_cell "Office"; text_cell "many"] ].

(** The slots term of the record of a link: 5 off when the link is
    available, nothing otherwise. *)
Definition grid_slots_term (sh : shift) : Prop :=
  (status sh = Some (py "available")
   ∧ ∀ t, slots_step sh t = note (-5) "slots" (py "Only 1 slot left (-5%)") t)
  ∨ (status sh ≠ Some (py "available")
     ∧ ∀ t, slots_step sh t = note 0 "slots" (py "0 slots available") t).

(** A text has no glyph of the ranges the grid strategy removes, and no
    whitespace at either end. *)
Definition clean_label (s : str) : Prop :=
  Forall (fun c => is_emoji c = false) s
  ∧ match s with c :: _ => is_space c = false | [] => True end
  ∧ match rev s with c :: _ => is_space c = false | [] => True end.

(** A link with a glyph, a training marker and a worker, for the examples. *)
Definition decorated_link : shift_link :=
  {| link_classes := [py "shift"; py "worker"; py "carrot"];
     link_bold := Some (py "6:30pm");
     link_text := py "6:30pm" ++ py "** Bathroom " ++ [128701%N; carrot];
     link_href := Some (py "/services/shift_claim/9/") |}.

Definition decorated_columns : list column :=
  [ {| col_header := Some (py "Sat 2/14/2026"); col_links := [decorated_link; a_link] |} ].

(** ** Mock data *)










(** ** Texts beyond ASCII, for the examples *)

(** "9:45pm" written with Arabic-Indic digits. *)
Definition arabic_time : str := [1641; 58; 1636; 1637; 112; 109]%N.

(** "Sat 2/14/2026" with the date in Arabic-Indic digits. *)
Definition arabic_date : str := [1634; 47; 1633; 1636; 47; 1634; 1632; 1634; 1638]%N.

(** "CAFE" and "Cafe" with an acute accent on the last letter. *)
Definition cafe_capitals : str := [67; 65; 70; 201]%N.
Definition cafe : str := [67; 97; 102; 233]%N.

(** "STOCKING" with the Kelvin sign for its K. *)
Definition kelvin_stocking : str := [83; 84; 79; 67; 8490; 73; 78; 71]%N.

Definition cafe_shift : shift :=
  {| shift_id := Some (py "shift_003"); day := Some (py "Monday"); date := None;
     time_raw := Some arabic_time; time_slot := Some (py "Overnight");
     committee := Some cafe; description := Some [];
     signup_url := Some []; slots := Some [65301%N]; status := None;
     is_carrot := None; source_table := Some (FromTable 0); source_row := Some 3 |}.

Definition cafe_excluded : preference_set :=
  {| pref_days := []; pref_times := []; pref_committees := [];
     pref_excluded := [cafe_capitals] |}.

Definition cafe_ranked : preference_set :=
  {| pref_days := []; pref_times := []; pref_committees := [cafe_capitals];
     pref_excluded := [] |}.

(** * Properties *)

(** ** Text *)

Lemma startswith_spec s w : startswith s w = true ↔ ∃ r, s = w ++ r.
Proof.
  revert s. induction w as [|a w IH]; intros s; simpl.
  - split; [intros _; by exists s | done].
  - destruct s as [|b s]; simpl.
    + split; [done | intros [r Hr]; discriminate].
    + rewrite andb_true_iff, N.eqb_eq, IH. split.
      * intros [-> [r ->]]. eauto.
      * intros [r Hr]. injection Hr as -> ->. eauto.
Qed.

Lemma startswith_app s w : startswith (w ++ s) w = true.
Proof. apply startswith_spec. eauto. Qed.

Lemma startswith_drop s w : startswith s w = true → s = w ++ drop (length w) s.
Proof.
  intros [r ->]%startswith_spec. by rewrite drop_app_length.
Qed.

Lemma contains_spec w s : contains w s = true ↔ substring w s.
Proof.
  unfold substring. induction s as [|c s IH]; simpl.
  - rewrite orb_false_r, startswith_spec. split.
    + intros [r Hr]. exists [], r. done.
    + intros (a & b & Hab). destruct a; simpl in Hab; [eauto | discriminate].
  - rewrite orb_true_iff, startswith_spec, IH. split.
    + intros [[r Hr] | (a & b & ->)].
      * exists [], r. done.
      * exists (c :: a), b. done.
    + intros (a & b & Hab). destruct a as [|x a]; simpl in Hab.
      * left. eauto.
      * right. injection Hab as -> ->. eauto.
Qed.

Lemma contains_nil s : contains [] s = true.
Proof. apply contains_spec. exists [], s. done. Qed.

(** *** The tables *)

Lemma in_ranges_spec rs c :
  in_ranges rs c = true ↔ ∃ r, r ∈ rs ∧ (r.1 ≤ c ≤ r.2)%N.
Proof.
  unfold in_ranges, in_range. rewrite existsb_exists. split.
  - intros (r & Hin & H). exists r. split; [by apply list_elem_of_In|].
    apply andb_true_iff in H as [H1 H2]. apply N.leb_le in H1, H2. lia.
  - intros (r & Hin & H). exists r. split; [by apply list_elem_of_In|].
    apply andb_true_iff. split; apply N.leb_le; lia.
Qed.

Lemma digit_value_spec c :
  is_digit c = true →
  ∃ z, z ∈ DECIMAL_ZEROS ∧ (z ≤ c ≤ z + 9)%N ∧ digit_value c = Z.of_N (c - z).
Proof.
  unfold is_digit, digit_value.
  destruct (find _ DECIMAL_ZEROS) as [z|] eqn:Hf; [|done]. intros _.
  apply find_some in Hf as [Hin H]. exists z. split; [by apply list_elem_of_In|].
  unfold in_range in H. apply andb_true_iff in H as [H1 H2].
  apply N.leb_le in H1, H2. done.
Qed.

Lemma digit_value_range c : is_digit c = true → (0 ≤ digit_value c ≤ 9)%Z.
Proof. intros (z & _ & Hc & ->)%digit_value_spec. lia. Qed.

(** The ASCII digits keep their value. *)
Lemma digit_value_ascii c : in_range 48 57 c = true → digit_value c = Z.of_N (c - 48).
Proof.
  unfold in_range. intros [H1 H2]%andb_true_iff. apply N.leb_le in H1, H2.
  unfold digit_value.
  change DECIMAL_ZEROS with (48%N :: tail DECIMAL_ZEROS). cbn [find].
  replace (in_range 48 (48 + 9) c) with true; [done|].
  symmetry. unfold in_range. apply andb_true_iff. split; apply N.leb_le; lia.
Qed.

Lemma is_digit_ascii c : in_range 48 57 c = true → is_digit c = true.
Proof.
  intros H. unfold is_digit. rewrite (digit_value_ascii c H). apply Z.leb_le. lia.
Qed.

(** Below 128 the decimal digits are 0 to 9. *)
Lemma is_digit_below_128 c : (c < 128)%N → is_digit c = in_range 48 57 c.
Proof.
  intros Hc. destruct (in_range 48 57 c) eqn:Hr; [by apply is_digit_ascii|].
  destruct (is_digit c) eqn:Hd; [|done]. exfalso.
  apply digit_value_spec in Hd as (z & Hz & Hzc & _).
  assert (forallb (fun z => (z =? 48) || (128 <=? z))%N DECIMAL_ZEROS = true) as Hall
    by (vm_compute; reflexivity).
  rewrite forallb_forall in Hall. apply list_elem_of_In in Hz.
  apply Hall, orb_true_iff in Hz as [->%N.eqb_eq | Hbig%N.leb_le]; [|lia].
  unfold in_range in Hr. apply andb_false_iff in Hr as [Hr|Hr]; apply N.leb_gt in Hr; lia.
Qed.

Lemma lower_nil : lower [] = [].
Proof. done. Qed.

(** No capital letter of ASCII is left in a lower-cased text. *)
Lemma lower_full_no_capital c :
  Forall (fun x => in_range 65 90 x = false) (lower_full c).
Proof.
  unfold lower_full, case_map.
  destruct (find _ LOWER_SPECIAL) as [e|] eqn:Hs.
  - apply find_some in Hs as [Hin _].
    assert (forallb (fun e => forallb (fun x => negb (in_range 65 90 x)) e.2)
              LOWER_SPECIAL = true) as Hall by (vm_compute; reflexivity).
    rewrite forallb_forall in Hall. specialize (Hall e Hin).
    rewrite forallb_forall in Hall. apply Forall_forall. intros x Hx.
    apply negb_true_iff, Hall. by apply list_elem_of_In.
  - destruct (find (in_run c) LOWER_RUNS) as [[[[lo hi] step] delta]|] eqn:Hr.
    + apply find_some in Hr as [Hin Hc].
      assert (forallb (fun r : N * N * N * Z =>
                let '(lo, hi, _, delta) := r in
                (90 <? Z.of_N lo + delta)%Z
                || ((0 <=? Z.of_N lo + delta)%Z && (Z.of_N hi + delta <? 65)%Z))
                LOWER_RUNS = true) as Hall by (vm_compute; reflexivity).
      rewrite forallb_forall in Hall. specialize (Hall _ Hin). cbn beta iota in Hall.
      unfold in_run, in_range in Hc.
      apply andb_true_iff in Hc as [[H1 H2]%andb_true_iff _]. apply N.leb_le in H1, H2.
      constructor; [|constructor]. unfold in_range.
      apply orb_true_iff in Hall as [Hall|[Hl Hh]%andb_true_iff].
      * apply Z.ltb_lt in Hall. apply andb_false_iff. right. apply N.leb_gt. lia.
      * apply Z.leb_le in Hl. apply Z.ltb_lt in Hh.
        apply andb_false_iff. left. apply N.leb_gt. lia.
    + constructor; [|constructor].
      destruct (in_range 65 90 c) eqn:Hc; [|done].
      assert (In (65, 90, 1, 32%Z)%N LOWER_RUNS) as Hin by (vm_compute; tauto).
      pose proof (find_none _ _ Hr _ Hin) as Hno. unfold in_run in Hno.
      rewrite Hc, N.mod_1_r in Hno. done.
Qed.

Lemma lower_from_no_capital b s :
  Forall (fun x => in_range 65 90 x = false) (lower_from b s).
Proof.
  revert b. induction s as [|c s IH]; intros b; [constructor|].
  cbn [lower_from]. apply Forall_app. split; [|apply IH].
  unfold lower_at. destruct (c =? 931)%N; [|apply lower_full_no_capital].
  by destruct (b && no_cased_ahead s); repeat constructor.
Qed.

(** On ASCII [lower] moves the capital letters and nothing else. *)
Lemma lower_from_ascii b s :
  Forall (fun c => (c < 128)%N) s →
  lower_from b s = map (fun c => if in_range 65 90 c then (c + 32)%N else c) s.
Proof.
  intros H. revert b. induction H as [|c s Hc _ IH]; intros b; [done|].
  cbn [lower_from map]. rewrite IH.
  assert (forallb (fun n => bool_decide
            (lower_at b (N.of_nat n) s
             = [if in_range 65 90 (N.of_nat n) then (N.of_nat n + 32)%N else N.of_nat n]))
            (seq 0 128) = true) as Hall.
  { unfold lower_at. apply forallb_forall. intros n Hn. apply in_seq in Hn.
    replace (N.of_nat n =? 931)%N with false by (symmetry; apply N.eqb_neq; lia).
    revert n Hn. 
    assert (forallb (fun n => bool_decide
              (lower_full (N.of_nat n)
               = [if in_range 65 90 (N.of_nat n) then (N.of_nat n + 32)%N else N.of_nat n]))
              (seq 0 128) = true) as Hfull by (vm_compute; reflexivity).
    rewrite forallb_forall in Hfull. intros n Hn. apply Hfull, in_seq. done. }
  rewrite forallb_forall in Hall. specialize (Hall (N.to_nat c)).
  rewrite N2Nat.id in Hall. apply bool_decide_eq_true in Hall; [by rewrite Hall|].
  apply in_seq. lia.
Qed.

Lemma lstrip_blanks s : blanks s → lstrip s = [].
Proof.
  induction 1 as [|c s Hc _ IH]; simpl; [done|]. by rewrite Hc.
Qed.

Lemma strip_blanks s : blanks s → strip s = [].
Proof. intros H. unfold strip. by rewrite (lstrip_blanks s H). Qed.

(** ** Numbers as text *)

Lemma digits_value_uint d acc :
  fold_left (fun a c => (10 * a + digit_value c)%Z) (uint_chars d) (Z.of_nat acc)
  = Z.of_nat (Nat.of_uint_acc d acc).
Proof.
  revert acc. induction d; intros acc; simpl; try done;
    rewrite <- IHd; f_equal; rewrite Nat.tail_mul_spec; unfold digit_value; simpl; lia.
Qed.

Lemma digits_value_str_of_nat n : digits_value (str_of_nat n) = Z.of_nat n.
Proof.
  unfold digits_value, str_of_nat.
  change 0%Z with (Z.of_nat 0). rewrite digits_value_uint.
  change (Nat.of_uint_acc (Nat.to_uint n) 0) with (Nat.of_uint (Nat.to_uint n)).
  by rewrite Unsigned.of_to.
Qed.

Lemma digits_value_zeros k s : digits_value (replicate k 48%N ++ s) = digits_value s.
Proof.
  unfold digits_value. rewrite fold_left_app. f_equal.
  induction k as [|k IH]; simpl; [done|]. exact IH.
Qed.

Lemma digits_value_fmt_03d n : digits_value (fmt_03d n) = Z.of_nat n.
Proof. unfold fmt_03d. by rewrite digits_value_zeros, digits_value_str_of_nat. Qed.

Lemma fmt_03d_inj n m : fmt_03d n = fmt_03d m → n = m.
Proof.
  intros H. apply Nat2Z.inj. by rewrite <- !digits_value_fmt_03d, H.
Qed.

(** ** The matcher *)

Lemma span_bound p k s : span p (Some k) s ≤ k.
Proof.
  revert s. induction k as [|k IH]; intros [|c s]; simpl; try lia.
  destruct (p c); [|lia]. simpl. specialize (IH s). lia.
Qed.

Lemma span_prefix p hi s m :
  m ≤ span p hi s → length (take m s) = m ∧ Forall (fun c => p c = true) (take m s).
Proof.
  revert hi s. induction m as [|m IH]; intros hi s Hm.
  - rewrite take_0. split; [done | constructor].
  - destruct s as [|c s].
    + destruct hi as [[|k]|]; simpl in Hm; lia.
    + assert (p c = true ∧ ∃ hi', m ≤ span p hi' s) as [Hc [hi' Hs]].
      { destruct hi as [[|k]|]; simpl in Hm; try lia;
          destruct (p c); try lia; split; try done; eexists; apply le_S_n, Hm. }
      destruct (IH hi' s Hs) as [Hl Hf]. simpl. split; [by rewrite Hl | by constructor].
Qed.

Lemma span_blanks p ws rest :
  Forall (fun c => p c = true) ws →
  match rest with c :: _ => p c = false | [] => True end →
  span p None (ws ++ rest) = length ws.
Proof.
  intros Hws Hrest. induction Hws as [|c ws Hc _ IH]; simpl.
  - destruct rest; simpl; [done|]. by rewrite Hrest.
  - by rewrite Hc, IH.
Qed.

Lemma span_exact p k s rest :
  length s = k → Forall (fun c => p c = true) s → span p (Some k) (s ++ rest) = k.
Proof.
  intros <- Hs. induction Hs as [|c s Hc _ IH]; simpl; [by destruct rest|].
  by rewrite Hc, IH.
Qed.

Lemma backtrack_Some {A} (f : nat → option A) lo n r :
  backtrack f lo n = Some r → ∃ m, lo ≤ m ≤ n ∧ f m = Some r.
Proof.
  induction n as [|n IH]; simpl.
  - destruct (Nat.eqb_spec lo 0); [|done]. intros. exists 0. split; [lia | done].
  - destruct (Nat.ltb_spec (S n) lo); [done|].
    destruct (f (S n)) eqn:Hf.
    + intros [= ->]. exists (S n). split; [lia | done].
    + intros (m & Hm & Hfm)%IH. exists m. split; [lia | done].
Qed.

Lemma backtrack_first {A} (f : nat → option A) lo n m r :
  lo ≤ m ≤ n → f m = Some r → (∀ m', m < m' ≤ n → f m' = None) →
  backtrack f lo n = Some r.
Proof.
  induction n as [|n IH]; intros Hm Hr Hnone; simpl.
  - assert (m = 0) as -> by lia. destruct (Nat.eqb_spec lo 0); [done | lia].
  - destruct (Nat.ltb_spec (S n) lo); [lia|].
    destruct (decide (m = S n)) as [->|Hne].
    + by rewrite Hr.
    + rewrite (Hnone (S n)) by lia. apply IH; [lia | done |]. intros; apply Hnone; lia.
Qed.

Lemma backtrack_None {A} (f : nat → option A) lo n :
  (∀ m, lo ≤ m ≤ n → f m = None) → backtrack f lo n = None.
Proof.
  induction n as [|n IH]; intros Hnone; simpl.
  - destruct (Nat.eqb_spec lo 0); [apply Hnone; lia | done].
  - destruct (Nat.ltb_spec (S n) lo); [done|].
    rewrite (Hnone (S n)) by lia. apply IH. intros; apply Hnone; lia.
Qed.

Lemma re_search_Some p s m :
  re_search p s = Some m ↔
  ∃ n, n ≤ length s ∧ re_match p (drop n s) = Some m
       ∧ ∀ n', n' < n → re_match p (drop n' s) = None.
Proof.
  induction s as [|c s IH]; simpl.
  - destruct (re_match p []) eqn:Hm.
    + split.
      * intros [= ->]. exists 0. split; [done|]. split; [done | intros; lia].
      * intros (n & Hn & Hr & _). assert (n = 0) as -> by lia. simpl in Hr. congruence.
    + split; [done|]. intros (n & Hn & Hr & _).
      assert (n = 0) as -> by lia. simpl in Hr. congruence.
  - destruct (re_match p (c :: s)) eqn:Hm.
    + split.
      * intros [= ->]. exists 0. split; [lia|]. split; [done | intros; lia].
      * intros (n & Hn & Hr & Hfirst). destruct n as [|n]; [simpl in Hr; congruence|].
        specialize (Hfirst 0 ltac:(lia)). simpl in Hfirst. congruence.
    + rewrite IH. split.
      * intros (n & Hn & Hr & Hfirst). exists (S n). split; [lia|]. split; [done|].
        intros [|n'] Hn'; [done|]. apply Hfirst. lia.
      * intros (n & Hn & Hr & Hfirst). destruct n as [|n]; [simpl in Hr; congruence|].
        exists n. split; [lia|]. split; [done|].
        intros n' Hn'. apply (Hfirst (S n')). lia.
Qed.

Lemma re_search_None p s :
  re_search p s = None ↔ ∀ n, n ≤ length s → re_match p (drop n s) = None.
Proof.
  induction s as [|c s IH]; simpl.
  - destruct (re_match p []) eqn:Hm.
    + split; [done|]. intros H. specialize (H 0 ltac:(lia)). simpl in H. congruence.
    + split; [|done]. intros _ n Hn. assert (n = 0) as -> by lia. done.
  - destruct (re_match p (c :: s)) eqn:Hm.
    + split; [done|]. intros H. specialize (H 0 ltac:(lia)). simpl in H. congruence.
    + rewrite IH. split.
      * intros H [|n] Hn; [done|]. apply H. lia.
      * intros H n Hn. apply (H (S n)). lia.
Qed.

Lemma run_Rep_Some c lo hi k s st r :
  run (Rep c lo hi :: k) s st = Some r →
  ∃ m, lo ≤ m ∧ (∀ h, hi = Some h → m ≤ h) ∧ length (take m s) = m
       ∧ Forall (fun x => c x = true) (take m s)
       ∧ run k (drop m s) (eat (take m s) st) = Some r.
Proof.
  simpl. intros (m & [Hlo Hm] & Hr)%backtrack_Some.
  destruct (span_prefix c hi s m Hm) as [Hl Hf].
  exists m. split; [done|]. split; [|done].
  intros h ->. pose proof (span_bound c h s). lia.
Qed.

Lemma run_Lit_Some w k s st r :
  run (Lit w :: k) s st = Some r →
  ∃ s', s = w ++ s' ∧ run k s' (eat w st) = Some r.
Proof.
  simpl. destruct (startswith s w) eqn:Hw; [|done].
  intros Hr. exists (drop (length w) s). split; [by apply startswith_drop | done].
Qed.

Lemma run_Cls_Some c k s st r :
  run (Cls c :: k) s st = Some r →
  ∃ x s', s = x :: s' ∧ c x = true ∧ run k s' (eat [x] st) = Some r.
Proof.
  simpl. destruct s as [|x s']; [done|]. destruct (c x) eqn:Hc; [|done].
  intros Hr. by exists x, s'.
Qed.

(** Literals of the source are evaluated before a proof looks at them. *)
Ltac py_eval :=
  repeat match goal with
  | |- context [py ?s] =>
      let v := eval vm_compute in (py s) in change (py s) with v
  | H : context [py ?s] |- _ =>
      let v := eval vm_compute in (py s) in change (py s) with v in H
  end.

Lemma one_of_spec cs a : one_of cs a = true ↔ a ∈ cs.
Proof.
  unfold one_of. induction cs as [|c cs IH]; simpl.
  - split; [done | by intros ?%elem_of_nil].
  - rewrite orb_true_iff, N.eqb_eq, IH, elem_of_cons. done.
Qed.

Ltac one_of_cases H :=
  apply one_of_spec in H; py_eval;
  repeat (apply elem_of_cons in H as [->|H]); [..| by apply elem_of_nil in H].

Lemma letter_not_space a : one_of (py "APap") a = true → is_space a = false.
Proof. intros H. one_of_cases H; done. Qed.

Lemma letter_not_digit a : one_of (py "APap") a = true → is_digit a = false.
Proof. intros H. one_of_cases H; done. Qed.

Lemma length_1 {A} (l : list A) : length l = 1 → ∃ x, l = [x].
Proof. destruct l as [|x [|y l]]; try done. eauto. Qed.

Lemma length_2 {A} (l : list A) : length l = 2 → ∃ x y, l = [x; y].
Proof. destruct l as [|x [|y [|z l]]]; try done. eauto. Qed.

Lemma run_Open k s st :
  run (Open :: k) s st = run k s {| caps := caps st; cur := Some [] |}.
Proof. done. Qed.

Lemma run_Close k s st :
  run (Close :: k) s st
  = run k s {| caps := caps st ++ [default [] (cur st)]; cur := None |}.
Proof. done. Qed.

(** A match of [time_re] at the start of [s] is a decomposition of [s]. *)
Lemma time_re_sound s m rest :
  run time_re s mstate0 = Some (m, rest) →
  ∃ h mm ws a z,
    (length h = 1 ∨ length h = 2) ∧ digits h ∧ length mm = 2 ∧ digits mm ∧ blanks ws
    ∧ one_of (py "APap") a = true ∧ one_of (py "Mm") z = true
    ∧ s = h ++ py ":" ++ mm ++ ws ++ [a; z] ++ rest
    ∧ m = [h; mm; [a; z]].
Proof.
  unfold time_re. rewrite run_Open. intros H.
  apply run_Rep_Some in H as (n1 & Hlo1 & Hhi1 & Hl1 & Hd1 & H).
  rewrite run_Close in H.
  apply run_Lit_Some in H as (s1 & Hs1 & H). rewrite run_Open in H.
  apply run_Rep_Some in H as (n2 & Hlo2 & Hhi2 & Hl2 & Hd2 & H).
  rewrite run_Close in H.
  apply run_Rep_Some in H as (n3 & _ & _ & Hl3 & Hd3 & H).
  rewrite run_Open in H.
  apply run_Cls_Some in H as (a & s2 & Hs2 & Ha & H).
  apply run_Cls_Some in H as (z & s3 & Hs3 & Hz & H).
  rewrite run_Close in H. simpl in H. injection H as <- <-.
  specialize (Hhi1 2 eq_refl). specialize (Hhi2 2 eq_refl).
  exists (take n1 s), (take n2 s1), (take n3 (drop n2 s1)), a, z.
  split; [lia|]. split; [done|]. split; [lia|]. split; [done|]. split; [done|].
  split; [done|]. split; [done|]. split; [|done].
  rewrite <- (take_drop n1 s) at 1. f_equal. rewrite Hs1. f_equal.
  rewrite <- (take_drop n2 s1) at 1. f_equal.
  rewrite <- (take_drop n3 (drop n2 s1)) at 1. f_equal.
  rewrite Hs2, Hs3. done.
Qed.

Lemma span_stop p hi u rest :
  Forall (fun c => p c = true) u →
  (∀ k, hi = Some k → length u ≤ k) →
  match rest with c :: _ => p c = false | [] => True end →
  span p hi (u ++ rest) = length u.
Proof.
  intros Hu. revert hi. induction Hu as [|c u Hc _ IH]; intros hi Hhi Hrest; simpl.
  - destruct rest as [|x rest]; simpl; [by destruct hi as [[|?]|] |].
    rewrite Hrest. by destruct hi as [[|?]|].
  - destruct hi as [[|k]|]; simpl.
    + specialize (Hhi 0 eq_refl). simpl in Hhi. lia.
    + rewrite Hc. f_equal. apply IH; [|done].
      intros k' [= <-]. specialize (Hhi (S k) eq_refl). simpl in Hhi. lia.
    + rewrite Hc. f_equal. by apply IH.
Qed.

Lemma run_Rep_greedy c lo hi k u rest st r :
  lo ≤ length u → span c hi (u ++ rest) = length u →
  run k rest (eat u st) = Some r →
  run (Rep c lo hi :: k) (u ++ rest) st = Some r.
Proof.
  intros Hlo Hspan Hr. simpl. rewrite Hspan.
  apply (backtrack_first _ lo _ (length u)); [lia | | intros; lia].
  by rewrite drop_app_length, take_app_length.
Qed.

Lemma run_Lit_app w k s st : run (Lit w :: k) (w ++ s) st = run k s (eat w st).
Proof. simpl. by rewrite startswith_app, drop_app_length. Qed.

Lemma run_Cls_cons c k x s st :
  c x = true → run (Cls c :: k) (x :: s) st = run k s (eat [x] st).
Proof. simpl. by intros ->. Qed.

(** Conversely a decomposition of that shape is matched, with these groups. *)
Lemma time_re_complete h mm ws a z rest :
  (length h = 1 ∨ length h = 2) → digits h → length mm = 2 → digits mm → blanks ws →
  one_of (py "APap") a = true → one_of (py "Mm") z = true →
  run time_re (h ++ py ":" ++ mm ++ ws ++ [a; z] ++ rest) mstate0
  = Some ([h; mm; [a; z]], rest).
Proof.
  intros Hh Hdh Hmm Hdm Hws Ha Hz.
  unfold time_re. rewrite run_Open.
  apply run_Rep_greedy.
  { lia. }
  { apply span_stop; [done | intros k [= <-]; lia | done]. }
  rewrite run_Close, run_Lit_app, run_Open.
  apply run_Rep_greedy.
  { lia. }
  { rewrite <- Hmm at 1. by rewrite (span_exact _ (length mm)). }
  rewrite run_Close. apply run_Rep_greedy.
  { lia. }
  { apply span_stop; [done | done |]. by apply letter_not_space. }
  rewrite run_Open. simpl app.
  rewrite run_Cls_cons by done. rewrite run_Cls_cons by done.
  rewrite run_Close. simpl. done.
Qed.

Lemma lstrip_id s :
  match s with c :: _ => is_space c = false | [] => True end → lstrip s = s.
Proof. destruct s as [|c s]; simpl; [done|]. by intros ->. Qed.

Lemma strip_id s : Forall (fun c => is_space c = false) s → strip s = s.
Proof.
  intros H. unfold strip. rewrite (lstrip_id s) by (by destruct H).
  rewrite lstrip_id; [apply rev_involutive|].
  apply Forall_rev in H. by destruct H.
Qed.

Lemma digit_not_space c : is_digit c = true → is_space c = false.
Proof.
  intros (z & Hz & Hc & _)%digit_value_spec.
  assert (forallb (fun z : N => forallb (fun i => negb (is_space (z + N.of_nat i)%N)) (seq 0 10))
            DECIMAL_ZEROS = true) as Hall by (vm_compute; reflexivity).
  rewrite forallb_forall in Hall. apply list_elem_of_In in Hz.
  specialize (Hall z Hz). rewrite forallb_forall in Hall.
  specialize (Hall (N.to_nat (c - z))). rewrite N2Nat.id in Hall.
  replace (z + (c - z))%N with c in Hall by lia.
  apply negb_true_iff, Hall, in_seq. lia.
Qed.

(** The ASCII digits of the same values. *)
Lemma to_ascii_digits s :
  digits s → to_ascii s = map (fun c => Z.to_N (48 + digit_value c)) s.
Proof.
  intros Hd. unfold to_ascii.
  destruct (forallb (fun c => (c <? 128)%N) s) eqn:Hall.
  - rewrite forallb_forall in Hall. symmetry. rewrite <- (map_id s) at 2.
    apply map_ext_in. intros c Hin.
    pose proof (Hall c Hin) as Hc. apply N.ltb_lt in Hc.
    unfold digits in Hd. rewrite Forall_forall in Hd.
    pose proof (Hd c ltac:(by apply list_elem_of_In)) as Hdc.
    rewrite is_digit_below_128 in Hdc by done. rewrite digit_value_ascii by done.
    unfold in_range in Hdc. apply andb_true_iff in Hdc as [H1 H2].
    apply N.leb_le in H1, H2. lia.
  - clear Hall. induction Hd as [|c s Hc _ IH]; [done|]. cbn [transform_decimal_and_space map].
    destruct (N.ltb_spec c 127) as [Hlt|Hge].
    + rewrite IH. f_equal.
      rewrite is_digit_below_128 in Hc by lia. rewrite digit_value_ascii by done.
      unfold in_range in Hc. apply andb_true_iff in Hc as [H1 H2].
      apply N.leb_le in H1, H2. lia.
    + by rewrite (digit_not_space c Hc), Hc, IH.
Qed.

Lemma int_body_digits s acc count prev :
  digits s → (s ≠ [] ∨ prev ≠ 95%N) →
  int_body acc count prev (map (fun c => Z.to_N (48 + digit_value c)) s)
  = Some (fold_left (fun a c => (10 * a + digit_value c)%Z) s acc, count + length s, []).
Proof.
  intros H. revert acc count prev.
  induction H as [|c s Hc _ IH]; intros acc count prev Hne.
  - cbn [map int_body fold_left length]. destruct Hne as [Hne|Hne]; [done|].
    apply N.eqb_neq in Hne. rewrite Hne. by rewrite Nat.add_0_r.
  - pose proof (digit_value_range c Hc) as Hv.
    cbn [map int_body fold_left length].
    replace (in_range 48 57 (Z.to_N (48 + digit_value c))) with true.
    2:{ symmetry. unfold in_range. apply andb_true_iff. split; apply N.leb_le; lia. }
    rewrite IH by (right; lia).
    replace (Z.of_N (Z.to_N (48 + digit_value c) - 48)) with (digit_value c) by lia.
    by replace (S count + length s) with (count + S (length s)) by lia.
Qed.

(** [int()] reads a run of digits as its decimal value. *)
Lemma int_of_str_digits s :
  digits s → s ≠ [] → length s ≤ MAX_STR_DIGITS → int_of_str s = Some (digits_value s).
Proof.
  intros Hd Hne Hlen. unfold int_of_str. rewrite (to_ascii_digits s Hd).
  destruct s as [|c s]; [done|].
  assert (is_digit c = true) as Hc by (by inversion Hd).
  pose proof (digit_value_range c Hc) as Hv.
  set (t := map _ (c :: s)).
  assert (∃ x t', t = x :: t' ∧ (48 ≤ x ≤ 57)%N) as (x & t' & Ht & Hx).
  { eexists _, _. split; [done|]. lia. }
  assert (int_body 0 0 0%N t = Some (digits_value (c :: s), length (c :: s), [])) as Hbody.
  { unfold t. rewrite int_body_digits; [done | done | by left]. }
  rewrite Ht in *. cbn [skip_c_spaces].
  replace (is_c_space x) with false.
  2:{ symmetry. unfold is_c_space, in_range. apply orb_false_iff. split.
      - apply andb_false_iff. right. apply N.leb_gt. lia.
      - apply N.eqb_neq. lia. }
  replace (x =? 43)%N with false by (symmetry; apply N.eqb_neq; lia).
  replace (x =? 45)%N with false by (symmetry; apply N.eqb_neq; lia).
  replace (x =? 95)%N with false by (symmetry; apply N.eqb_neq; lia).
  rewrite Hbody. cbn [length] in *.
  replace (S (length s) =? 0) with false by done.
  replace (MAX_STR_DIGITS <? S (length s)) with false; [done|].
  symmetry. apply Nat.ltb_ge. done.
Qed.

Lemma hour_group_nonempty (h : str) : length h = 1 ∨ length h = 2 → h ≠ [].
Proof. intros [H|H] ->; done. Qed.

(** The hour of [_classify_time] is the conversion the specification
    describes. *)
Lemma slot_hour_spec h mm a z :
  (length h = 1 ∨ length h = 2) → digits h →
  one_of (py "APap") a = true → one_of (py "Mm") z = true →
  slot_hour [h; mm; [a; z]] = Ok (hour24 (digits_value h) a).
Proof.
  intros Hl Hd Ha Hz. unfold slot_hour, int_group.
  change (group [h; mm; [a; z]] 1) with h. change (group [h; mm; [a; z]] 3) with [a; z].
  rewrite int_of_str_digits;
    [| done | by apply hour_group_nonempty | unfold MAX_STR_DIGITS; lia].
  unfold hour24. simpl bind. generalize (digits_value h). intros v.
  one_of_cases Ha; one_of_cases Hz;
    repeat match goal with
    | |- context [str_eqb ?x ?y] =>
        let r := eval vm_compute in (str_eqb x y) in change (str_eqb x y) with r
    | |- context [one_of ?x ?y] =>
        let r := eval vm_compute in (one_of x y) in change (one_of x y) with r
    end;
    simpl; destruct (Z.eqb_spec v 12) as [->|E]; done.
Qed.

Lemma bucket_in_slots hour : bucket hour ∈ TIME_SLOTS.
Proof.
  unfold bucket, TIME_SLOTS.
  destruct (hour <? 12)%Z; [|destruct (hour <? 17)%Z; [|destruct (hour <? 21)%Z]];
    simpl; set_solver.
Qed.

Lemma classify_bucket t m hour :
  re_search time_re t = Some m → slot_hour m = Ok hour →
  _classify_time t = Ok (bucket hour).
Proof.
  intros Hm Hh. unfold _classify_time, bucket. rewrite Hm, Hh. simpl.
  by destruct (hour <? 12)%Z, (hour <? 17)%Z, (hour <? 21)%Z.
Qed.

(** What a successful search of [time_re] found. *)
Lemma time_search_found t m :
  re_search time_re t = Some m →
  ∃ n h mm a z, time_at n h a t ∧ m = [h; mm; [a; z]]
    ∧ (length h = 1 ∨ length h = 2) ∧ digits h
    ∧ one_of (py "APap") a = true ∧ one_of (py "Mm") z = true.
Proof.
  intros (n & Hn & Hr & _)%re_search_Some. unfold re_match in Hr.
  destruct (run time_re (drop n t) mstate0) as [[m' rest]|] eqn:Hrun; [|done].
  simpl in Hr. injection Hr as ->.
  apply time_re_sound in Hrun
    as (h & mm & ws & a & z & Hl & Hd & Hlm & Hdm & Hws & Ha & Hz & Ht & ->).
  exists n, h, mm, a, z. split; [|done].
  exists (h ++ py ":" ++ mm ++ ws ++ [a; z]), (take n t), rest.
  split; [|split].
  - split; [done|]. split; [done|]. by exists mm, ws, z.
  - rewrite <- (take_drop n t) at 1. rewrite Ht. by rewrite <- !app_assoc.
  - rewrite length_take. lia.
Qed.

Lemma time_at_match n h a t :
  time_at n h a t →
  ∃ mm z, re_match time_re (drop n t) = Some [h; mm; [a; z]]
          ∧ (length h = 1 ∨ length h = 2) ∧ digits h
          ∧ one_of (py "APap") a = true ∧ one_of (py "Mm") z = true ∧ n ≤ length t.
Proof.
  intros (u & pre & post & (Hl & Hd & mm & ws & z & Hlm & Hdm & Hws & Ha & Hz & ->) & -> & <-).
  exists mm, z. rewrite drop_app_length. unfold re_match.
  rewrite <- !app_assoc.
  rewrite (time_re_complete h mm ws a z post) by done.
  repeat split; try done. rewrite length_app. lia.
Qed.

(** The search finds the first substring of the shape. *)
Lemma first_time_search t h a :
  first_time t h a →
  ∃ mm z, re_search time_re t = Some [h; mm; [a; z]]
          ∧ (length h = 1 ∨ length h = 2) ∧ digits h
          ∧ one_of (py "APap") a = true ∧ one_of (py "Mm") z = true.
Proof.
  intros (n & Hat & Hfirst).
  destruct (time_at_match n h a t Hat) as (mm & z & Hm & Hl & Hd & Ha & Hz & Hn).
  exists mm, z. split; [|done].
  apply re_search_Some. exists n. split; [done|]. split; [done|].
  intros n' Hn'. destruct (re_match time_re (drop n' t)) as [m'|] eqn:Hm'; [|done].
  exfalso. unfold re_match in Hm'.
  destruct (run time_re (drop n' t) mstate0) as [[m2 rest]|] eqn:Hrun; [|done].
  apply time_re_sound in Hrun
    as (h' & mm' & ws' & a' & z' & Hl' & Hd' & Hlm' & Hdm' & Hws' & Ha' & Hz' & Ht' & _).
  assert (time_at n' h' a' t) as Hat'.
  { exists (h' ++ py ":" ++ mm' ++ ws' ++ [a'; z']), (take n' t), rest.
    split; [|split].
    - split; [done|]. split; [done|]. by exists mm', ws', z'.
    - rewrite <- (take_drop n' t) at 1. rewrite Ht'. by rewrite <- !app_assoc.
    - rewrite length_take. lia. }
  specialize (Hfirst n' h' a' Hat'). lia.
Qed.

Lemma classify_total t : ∃ v, v ∈ TIME_SLOTS ∧ _classify_time t = Ok v.
Proof.
  destruct (re_search time_re t) as [m|] eqn:Hm.
  - destruct (time_search_found _ _ Hm) as (n & h & mm & a & z & _ & -> & Hl & Hd & Ha & Hz).
    exists (bucket (hour24 (digits_value h) a)). split; [apply bucket_in_slots|].
    eapply classify_bucket; [done|]. by apply slot_hour_spec.
  - exists (py "Morning"). split; [unfold TIME_SLOTS; simpl; set_solver|].
    unfold _classify_time. by rewrite Hm.
Qed.

(** C1. For every string, [_classify_time] returns one of Morning,
    Afternoon, Evening and Overnight; it returns Morning when no substring
    has the shape H:MM followed by AM/PM; otherwise, with H the hour digits
    and A/P the letter of the first such substring, it returns the bucket of
    the 24-hour hour (PM other than 12 gains 12, 12PM stays 12, 12AM becomes
    0): Morning below 12, Afternoon below 17, Evening below 21, else
    Overnight. *)
Theorem classify_time_spec (time_raw : str) :
  (∃ v, v ∈ TIME_SLOTS ∧ _classify_time time_raw = Ok v)
  ∧ ((∀ n h a, ¬ time_at n h a time_raw) → _classify_time time_raw = Ok (py "Morning"))
  ∧ (∀ h a, first_time time_raw h a →
       _classify_time time_raw = Ok (bucket (hour24 (digits_value h) a))).
Proof.
  split; [|split].
  - apply classify_total.
  - intros Hnone. unfold _classify_time.
    destruct (re_search time_re time_raw) as [m|] eqn:Hm; [|done].
    destruct (time_search_found _ _ Hm) as (n & h & mm & a & z & Hat & _).
    by destruct (Hnone n h a).
  - intros h a (mm & z & Hm & Hl & Hd & Ha & Hz)%first_time_search.
    eapply classify_bucket; [done|]. by apply slot_hour_spec.
Qed.

(** The match found by the search is the first substring of the shape. *)
Lemma search_first_time t m :
  re_search time_re t = Some m →
  ∃ h mm a z, m = [h; mm; [a; z]] ∧ first_time t h a
    ∧ (length h = 1 ∨ length h = 2) ∧ digits h
    ∧ one_of (py "APap") a = true ∧ one_of (py "Mm") z = true.
Proof.
  intros Hm. destruct (time_search_found t m Hm)
    as (n0 & h & mm & a & z & _ & -> & Hl & Hd & Ha & Hz).
  exists h, mm, a, z. split; [done|]. split; [|done].
  apply re_search_Some in Hm as (n & Hn & Hr & Hfirst).
  exists n. split.
  - unfold re_match in Hr.
    destruct (run time_re (drop n t) mstate0) as [[m' rest]|] eqn:Hrun; [|done].
    simpl in Hr. injection Hr as ->.
    apply time_re_sound in Hrun
      as (h' & mm' & ws & a' & z' & Hl' & Hd' & Hlm & Hdm & Hws & Ha' & Hz' & Ht & [= -> -> -> ->]).
    exists (h' ++ py ":" ++ mm' ++ ws ++ [a'; z']), (take n t), rest.
    split; [|split].
    + split; [done|]. split; [done|]. by exists mm', ws, z'.
    + rewrite <- (take_drop n t) at 1. rewrite Ht. by rewrite <- !app_assoc.
    + rewrite length_take. lia.
  - intros n' h' a' Hat. destruct (time_at_match _ _ _ _ Hat) as (mm' & z' & Hm' & _).
    destruct (decide (n ≤ n')); [done|].
    rewrite Hfirst in Hm' by lia. done.
Qed.

(** The hour of the late-evening check: as in [_classify_time], but an AM
    hour is left as it is. *)
Lemma late_hour_spec h mm a z :
  (length h = 1 ∨ length h = 2) → digits h →
  one_of (py "APap") a = true → one_of (py "Mm") z = true →
  late_hour [h; mm; [a; z]]
  = Ok (if one_of (py "Pp") a
        then (if (digits_value h =? 12)%Z then 12 else digits_value h + 12)%Z
        else digits_value h).
Proof.
  intros Hl Hd Ha Hz. unfold late_hour, int_group.
  change (group [h; mm; [a; z]] 1) with h. change (group [h; mm; [a; z]] 3) with [a; z].
  rewrite int_of_str_digits;
    [| done | by apply hour_group_nonempty | unfold MAX_STR_DIGITS; lia].
  simpl bind. generalize (digits_value h). intros v.
  one_of_cases Ha; one_of_cases Hz;
    repeat match goal with
    | |- context [str_eqb ?x ?y] =>
        let r := eval vm_compute in (str_eqb x y) in change (str_eqb x y) with r
    | |- context [one_of ?x ?y] =>
        let r := eval vm_compute in (one_of x y) in change (one_of x y) with r
    end;
    simpl; destruct (Z.eqb_spec v 12) as [->|E]; done.
Qed.

(** The two hours differ at 12AM only, and never on which side of 21 they
    lie. *)
Lemma late_hour_slot_hour m t :
  re_search time_re t = Some m →
  ∃ hl hs, late_hour m = Ok hl ∧ slot_hour m = Ok hs
    ∧ (hl ≠ hs → hl = 12 ∧ hs = 0)%Z ∧ ((21 ≤ hl)%Z ↔ (21 ≤ hs)%Z).
Proof.
  intros (h & mm & a & z & -> & _ & Hl & Hd & Ha & Hz)%search_first_time.
  rewrite late_hour_spec, slot_hour_spec by done. unfold hour24.
  eexists _, _. split; [done|]. split; [done|].
  destruct (one_of (py "Pp") a); [split; [done | done]|].
  destruct (Z.eqb_spec (digits_value h) 12) as [->|E]; [|split; [done | done]].
  split; [done | lia].
Qed.

Lemma dict_get_set key key' v d :
  dict_get key' (dict_set key v d)
  = if String.eqb key key' then Some v else dict_get key' d.
Proof.
  induction d as [|[k x] d IH]; simpl.
  - rewrite String.eqb_sym. done.
  - destruct (String.eqb_spec k key) as [->|Hk]; simpl.
    + destruct (String.eqb_spec key key'); done.
    + rewrite IH. destruct (String.eqb_spec k key') as [->|Hk'].
      * destruct (String.eqb_spec key key'); [congruence | done].
      * done.
Qed.

(** [score] is its five steps, then the clamp. *)
Lemma score_steps self sh r :
  score self sh = Ok r ↔
  ∃ t1 t5,
    committee_step self sh tally0 = Ok t1
    ∧ late_step sh (slots_step sh (time_step self sh (day_step self sh t1))) = Ok t5
    ∧ r = {| scored_shift := sh; scored_score := Z.max 0 (Z.min 120 (base t5));
             scored_breakdown := breakdown t5 |}.
Proof.
  unfold score. fold tally0.
  destruct (committee_step self sh tally0) as [t1|e]; simpl.
  - destruct (late_step sh _) as [t5|e] eqn:H5; simpl.
    + split.
      * intros [= <-]. exists t1, t5. by rewrite H5.
      * intros (t1' & t5' & [= <-] & H5' & ->). rewrite H5 in H5'. by injection H5' as <-.
    + split; [done|]. intros (t1' & t5' & [= <-] & H5' & _). congruence.
  - split; [done|]. intros (? & ? & ? & _). done.
Qed.

Lemma committee_step_breakdown self sh t t1 key :
  committee_step self sh t = Ok t1 → key ≠ "committee" →
  dict_get key (breakdown t1) = dict_get key (breakdown t).
Proof.
  unfold committee_step. intros H Hk.
  assert (∀ d x, dict_get key (breakdown (note d "committee" x t)) = dict_get key (breakdown t)) as Hn.
  { intros d x. simpl. rewrite dict_get_set. destruct (String.eqb_spec "committee" key); congruence. }
  destruct (lowered (committees self)) as [[|c l]|]; simpl in H; [| |done].
  - injection H as <-. apply Hn.
  - repeat case_match; injection H as <-; apply Hn.
Qed.

Lemma day_step_breakdown self sh t key :
  key ≠ "day" → dict_get key (breakdown (day_step self sh t)) = dict_get key (breakdown t).
Proof.
  intros Hk. unfold day_step.
  repeat case_match; simpl; rewrite dict_get_set;
    destruct (String.eqb_spec "day" key); congruence.
Qed.

Lemma time_step_breakdown self sh t key :
  key ≠ "time" → dict_get key (breakdown (time_step self sh t)) = dict_get key (breakdown t).
Proof.
  intros Hk. unfold time_step.
  repeat case_match; simpl; rewrite dict_get_set;
    destruct (String.eqb_spec "time" key); congruence.
Qed.

Lemma slots_step_breakdown sh t key :
  key ≠ "slots" → dict_get key (breakdown (slots_step sh t)) = dict_get key (breakdown t).
Proof.
  intros Hk. unfold slots_step.
  repeat case_match; simpl; rewrite dict_get_set;
    destruct (String.eqb_spec "slots" key); congruence.
Qed.

Lemma late_step_breakdown sh t t' key :
  late_step sh t = Ok t' → key ≠ "late" →
  dict_get key (breakdown t') = dict_get key (breakdown t).
Proof.
  unfold late_step. intros H Hk.
  destruct (re_search time_re _); [|by injection H as <-].
  destruct (late_hour l); simpl in H; [|done].
  destruct (a >=? 21)%Z; injection H as <-; [|done].
  simpl. rewrite dict_get_set. destruct (String.eqb_spec "late" key); congruence.
Qed.

(** The late-evening check in terms of the first time of the text. *)
Lemma late_step_cases sh t :
  let raw := default [] (time_raw sh) in
  ((∃ h a, first_time raw h a ∧ (21 ≤ hour24 (digits_value h) a)%Z)
   ∧ late_step sh t = Ok (note (-10) "late" (py "Late evening shift (-10%)") t))
  ∨ (¬ (∃ h a, first_time raw h a ∧ (21 ≤ hour24 (digits_value h) a)%Z)
     ∧ late_step sh t = Ok t).
Proof.
  intros raw. unfold late_step. fold raw.
  destruct (re_search time_re raw) as [m|] eqn:Hm.
  - destruct (late_hour_slot_hour m raw Hm) as (hl & hs & Hl & Hs & _ & Hiff).
    destruct (search_first_time raw m Hm) as (h & mm & a & z & -> & Hfirst & Hlen & Hd & Ha & Hz).
    rewrite slot_hour_spec in Hs by done. injection Hs as <-.
    rewrite Hl. simpl. destruct (Z.geb_spec hl 21) as [Hge|Hlt].
    + left. split; [|done]. exists h, a. split; [done|]. apply Hiff. lia.
    + right. split; [|done]. intros (h' & a' & Hfirst' & Hge).
      destruct (first_time_search raw h' a' Hfirst') as (mm' & z' & Hm' & _).
      rewrite Hm in Hm'. injection Hm' as <- _ <- _. lia.
  - right. split; [|done]. intros (h & a & Hfirst & _).
    destruct (first_time_search raw h a Hfirst) as (mm & z & Hm' & _). congruence.
Qed.

(** At 12AM the hour of the late-evening check is not the hour of
    [_classify_time]. *)
Lemma late_hour_differs_at_midnight :
  ∃ m, re_search time_re (py "12:00AM") = Some m
       ∧ slot_hour m = Ok 0%Z ∧ late_hour m = Ok 12%Z
       ∧ late_hour m ≠ slot_hour m.
Proof. eexists. repeat split; [vm_compute; reflexivity.. | done]. Qed.

(** C5, as amended. The late-evening check converts the hour as
    [_classify_time] does, except that it leaves 12AM at 12 where
    [_classify_time] gives 0; the two hours are equal otherwise and are on
    the same side of 21 always. The check subtracts 10 and writes the entry
    "late" when a time is found whose 24-hour hour is 21 or more, and only
    then; otherwise it leaves the tally as it is, and the breakdown of the
    score has no entry "late". *)
Theorem lateness_term (sh : shift) (t : tally) :
  let raw := default [] (time_raw sh) in
  (∀ m, re_search time_re raw = Some m →
        ∃ hl hs, late_hour m = Ok hl ∧ slot_hour m = Ok hs
                 ∧ (hl ≠ hs → hl = 12 ∧ hs = 0)%Z ∧ ((21 ≤ hl)%Z ↔ (21 ≤ hs)%Z))
  ∧ (is_late raw →
       late_step sh t = Ok {| base := base t - 10;
                              breakdown := dict_set "late" (py "Late evening shift (-10%)")
                                             (breakdown t) |})
  ∧ (¬ is_late raw → late_step sh t = Ok t)
  ∧ (∀ self r, score self sh = Ok r →
       (is_late raw →
          dict_get "late" (scored_breakdown r) = Some (py "Late evening shift (-10%)"))
       ∧ (¬ is_late raw → dict_get "late" (scored_breakdown r) = None)).
Proof.
  intros raw. split; [|split; [|split]].
  - intros m Hm. by apply late_hour_slot_hour with raw.
  - intros Hlate. destruct (late_step_cases sh t) as [[_ H]|[Hn _]]; [exact H | done].
  - intros Hn. destruct (late_step_cases sh t) as [[Hlate _]|[_ H]]; [done | exact H].
  - intros self r (t1 & t5 & H1 & H5 & ->)%score_steps. simpl.
    set (t4 := slots_step sh (time_step self sh (day_step self sh t1))) in *.
    assert (dict_get "late" (breakdown t4) = None) as H4.
    { unfold t4. rewrite slots_step_breakdown, time_step_breakdown, day_step_breakdown by done.
      by rewrite (committee_step_breakdown self sh tally0 t1). }
    destruct (late_step_cases sh t4) as [[Hlate H]|[Hn H]];
      rewrite H in H5; injection H5 as <-.
    + split; [|done]. intros _. simpl. by rewrite dict_get_set.
    + split; [done|]. by intros _.
Qed.

(** Without the key "slots" the entry reads "0 slots available". *)
Lemma slots_missing_not_unknown :
  slots blank = None
  ∧ dict_get "slots" (breakdown (slots_step blank tally0)) = Some (py "0 slots available")
  ∧ dict_get "slots" (breakdown (slots_step blank tally0)) ≠ Some (py "Slots unknown").
Proof. split; [done|]. split; [vm_compute; reflexivity | vm_compute; discriminate]. Qed.

Lemma slots_step_entry sh t t' :
  dict_get "slots" (breakdown (slots_step sh t))
  = dict_get "slots" (breakdown (slots_step sh t')).
Proof.
  unfold slots_step. repeat case_match; simpl; by rewrite !dict_get_set.
Qed.

(** C7, as amended. A value of [slots] that [int()] does not read gives the
    entry "Slots unknown" and adds 0; an absent [slots] counts as 0 and gives
    the entry "0 slots available", adding 0; a value above 3 adds 5, the
    value 1 subtracts 5, any other value adds 0. The entry of the step is the
    entry "slots" of the score. *)
Theorem slots_term (sh : shift) (t : tally) :
  (slots sh = None →
     slots_step sh t = note 0 "slots" (py "0 slots available") t)
  ∧ (∀ s, slots sh = Some s → int_of_str s = None →
       slots_step sh t = note 0 "slots" (py "Slots unknown") t)
  ∧ (∀ s n, slots sh = Some s → int_of_str s = Some n →
       ((3 < n)%Z →
          slots_step sh t = note 5 "slots" (str_of_Z n ++ py " slots available (+5%)") t)
       ∧ (n = 1%Z →
          slots_step sh t = note (-5) "slots" (py "Only 1 slot left (-5%)") t)
       ∧ ((n ≤ 3)%Z → n ≠ 1%Z →
          slots_step sh t = note 0 "slots" (str_of_Z n ++ py " slots available") t))
  ∧ (∀ d text, base (note d "slots" text t) = (base t + d)%Z)
  ∧ (∀ self r, score self sh = Ok r →
       dict_get "slots" (scored_breakdown r)
       = dict_get "slots" (breakdown (slots_step sh t))).
Proof.
  split; [|split; [|split; [|split]]].
  - intros H. unfold slots_step, slots_int. by rewrite H.
  - intros s H Hs. unfold slots_step, slots_int. by rewrite H, Hs.
  - intros s n H Hs. unfold slots_step, slots_int. rewrite H, Hs.
    split; [|split].
    + intros Hn. by destruct (Z.gtb_spec n 3); [|lia].
    + by intros ->.
    + intros Hn Hne. destruct (Z.gtb_spec n 3); [lia|].
      by destruct (Z.eqb_spec n 1).
  - done.
  - intros self r (t1 & t5 & H1 & H5 & ->)%score_steps. simpl.
    rewrite (late_step_breakdown _ _ _ "slots" H5) by done. apply slots_step_entry.
Qed.

(** ** Preference sets *)

Lemma lowered_names l : lowered (names l) = Ok (lower <$> l).
Proof.
  unfold lowered, names. simpl.
  induction l as [|x l IH]; [done|].
  rewrite !fmap_cons. simpl. by rewrite IH.
Qed.

Lemma init_preferences_of p : init (preferences_of p) = Ok (matcher_of p).
Proof.
  unfold init, pref, preferences_of.
  rewrite lookup_insert_eq. simpl. rewrite lowered_names. simpl.
  rewrite lookup_insert_ne, lookup_insert_eq by done. simpl. rewrite lowered_names. simpl.
  do 3 rewrite lookup_insert_ne by done. rewrite lookup_insert_eq. simpl.
  rewrite lowered_names. simpl.
  do 2 rewrite lookup_insert_ne by done. rewrite lookup_insert_eq. done.
Qed.

Lemma committee_step_total p sh t :
  ∃ t', committee_step (matcher_of p) sh t = Ok t'.
Proof.
  unfold committee_step. simpl. rewrite lowered_names. simpl.
  repeat case_match; eauto.
Qed.

Lemma late_step_total sh t : ∃ t', late_step sh t = Ok t'.
Proof. destruct (late_step_cases sh t) as [[_ H]|[_ H]]; eauto. Qed.

Lemma score_total p sh : ∃ r, score (matcher_of p) sh = Ok r.
Proof.
  destruct (committee_step_total p sh tally0) as [t1 H1].
  destruct (late_step_total sh
              (slots_step sh (time_step (matcher_of p) sh (day_step (matcher_of p) sh t1))))
    as [t5 H5].
  eexists. apply score_steps. by exists t1, t5.
Qed.

(** C2. On a canonical record and a preference set the scorer returns, two
    evaluations return the same score and breakdown, the result carries the
    record it was given, and the score lies between 0 and 120. The scorer
    reads no random draw and returns nothing but its result. *)
Theorem score_deterministic_bounded (p : preference_set) (sh : shift) :
  ∃ self r,
    init (preferences_of p) = Ok self
    ∧ score self sh = Ok r
    ∧ (∀ r1 r2, score self sh = Ok r1 → score self sh = Ok r2 →
         scored_score r1 = scored_score r2
         ∧ scored_breakdown r1 = scored_breakdown r2)
    ∧ scored_shift r = sh
    ∧ (0 ≤ scored_score r ≤ 120)%Z.
Proof.
  destruct (score_total p sh) as [r Hr].
  exists (matcher_of p), r. split; [apply init_preferences_of|]. split; [done|].
  split; [intros r1 r2 H1 H2; rewrite H1 in H2; by injection H2 as ->|].
  apply score_steps in Hr as (t1 & t5 & _ & _ & ->). simpl. split; [done | lia].
Qed.

(** ** The ranker *)

Lemma kept_spec p s : kept (matcher_of p) s = true ↔ ¬ excluded_category p s.
Proof.
  unfold kept, excluded_category. rewrite bool_decide_eq_true. simpl.
  rewrite list_elem_of_fmap, Exists_exists. unfold same_ignoring_case.
  split; intros H (e & He1 & He2); apply H; exists e; done.
Qed.

Lemma score_all_total p l : ∃ rs, score_all (matcher_of p) l = Ok rs.
Proof.
  induction l as [|s l [rs IH]]; simpl; [eauto|].
  destruct (score_total p s) as [r ->]. simpl. rewrite IH. simpl. eauto.
Qed.

Lemma score_all_each self l rs :
  score_all self l = Ok rs → Forall2 (fun s r => score self s = Ok r) l rs.
Proof.
  revert rs. induction l as [|s l IH]; simpl; intros rs H.
  - injection H as <-. constructor.
  - destruct (score self s) as [r|] eqn:Hr; simpl in H; [|done].
    destruct (score_all self l) as [rs'|]; simpl in H; [|done].
    injection H as <-. constructor; [done | by apply IH].
Qed.

Lemma insert_scored_perm x l : insert_scored x l ≡ₚ x :: l.
Proof.
  induction l as [|y l IH]; simpl; [done|].
  destruct (scored_score x <? scored_score y)%Z; [|done].
  rewrite IH. apply Permutation_swap.
Qed.

Lemma sort_by_score_perm l : sort_by_score l ≡ₚ l.
Proof.
  induction l as [|x l IH]; simpl; [done|].
  rewrite insert_scored_perm. by rewrite IH.
Qed.

Lemma insert_scored_sorted x l :
  StronglySorted ge_score l → StronglySorted ge_score (insert_scored x l).
Proof.
  induction 1 as [|y l Hs IH Hy]; simpl.
  - repeat constructor.
  - destruct (Z.ltb_spec (scored_score x) (scored_score y)).
    + constructor; [done|]. rewrite insert_scored_perm. constructor; [|done].
      unfold ge_score. lia.
    + constructor; [by constructor|]. constructor; [unfold ge_score; lia|].
      eapply Forall_impl; [exact Hy|]. unfold ge_score. intros; simpl in *; lia.
Qed.

Lemma sort_by_score_sorted l : StronglySorted ge_score (sort_by_score l).
Proof.
  induction l as [|x l IH]; simpl; [constructor | by apply insert_scored_sorted].
Qed.

Lemma sorted_descending l : StronglySorted ge_score l → descending l.
Proof.
  intros Hs. induction Hs as [|y l Hs IH Hy]; intros i j a b Hij Ha Hb.
  - done.
  - destruct j as [|j]; [lia|]. simpl in Hb. destruct i as [|i]; simpl in Ha.
    + injection Ha as <-. rewrite Forall_forall in Hy.
      apply Hy. by eapply list_elem_of_lookup_2.
    + apply (IH i j); [lia | done | done].
Qed.

Lemma insert_scored_ties x l v :
  filter (fun r => scored_score r = v) (insert_scored x l)
  = filter (fun r => scored_score r = v) (x :: l).
Proof.
  induction l as [|y l IH]; simpl; [done|].
  destruct (Z.ltb_spec (scored_score x) (scored_score y)); [|done].
  rewrite !filter_cons in *.
  destruct (decide (scored_score y = v)), (decide (scored_score x = v)); try lia;
    rewrite IH; done.
Qed.

Lemma sort_by_score_ties l : ties_in_order (sort_by_score l) l.
Proof.
  intros v. induction l as [|x l IH]; simpl; [done|].
  rewrite insert_scored_ties, !filter_cons, IH. done.
Qed.

(** C3. [rank] drops the records whose category equals, up to case, an entry
    of the excluded categories, and only those; it scores the others; it
    returns the results by non-increasing score, results of equal score in
    the order their records had in the input. No record of an excluded
    category is in the output. *)
Theorem rank_spec (p : preference_set) (shifts_v : list shift) :
  ∃ self survivors results out,
    init (preferences_of p) = Ok self
    ∧ rank self shifts_v = Ok out
    ∧ survivors = filter (fun s => ¬ excluded_category p s) shifts_v
    ∧ Forall2 (fun s r => score self s = Ok r) survivors results
    ∧ out ≡ₚ results
    ∧ descending out
    ∧ ties_in_order out results
    ∧ (∀ r, r ∈ out → ¬ excluded_category p (scored_shift r)).
Proof.
  set (survivors := filter (fun s => ¬ excluded_category p s) shifts_v).
  assert (filter (fun s => kept (matcher_of p) s = true) shifts_v = survivors) as Hf.
  { apply list_filter_iff. exact (kept_spec p). }
  destruct (score_all_total p survivors) as [results Hres].
  exists (matcher_of p), survivors, results, (sort_by_score results).
  split; [apply init_preferences_of|].
  split; [unfold rank; by rewrite Hf, Hres|].
  split; [done|].
  pose proof (score_all_each _ _ _ Hres) as Heach.
  split; [done|].
  split; [apply sort_by_score_perm|].
  split; [apply sorted_descending, sort_by_score_sorted|].
  split; [apply sort_by_score_ties|].
  intros r Hr. rewrite sort_by_score_perm in Hr.
  apply list_elem_of_lookup in Hr as [i Hi].
  destruct (Forall2_lookup_r _ _ _ _ _ Heach Hi) as (s & Hs & Hsr).
  apply score_steps in Hsr as (t1 & t5 & _ & _ & Hreq). rewrite Hreq. simpl.
  apply list_elem_of_lookup_2 in Hs. unfold survivors in Hs.
  by apply list_elem_of_filter in Hs as [Hs _].
Qed.

(** ** The strategies *)

Lemma sequential_ids_snoc l sh :
  sequential_ids l → shift_id sh = Some (py "shift_" ++ fmt_03d (S (length l))) →
  sequential_ids (l ++ [sh]).
Proof.
  intros Hl Hsh k x Hk. destruct (decide (k < length l)) as [Hlt|Hge].
  - rewrite lookup_app_l in Hk by done. by apply Hl.
  - rewrite lookup_app_r in Hk by lia.
    destruct (k - length l) as [|d] eqn:Hd; simpl in Hk; [|done].
    injection Hk as <-. by replace k with (length l) by lia.
Qed.

Lemma sequential_ids_NoDup l : sequential_ids l → NoDup (shift_id <$> l).
Proof.
  intros Hl. apply NoDup_alt. intros i j x Hi Hj.
  rewrite list_lookup_fmap in Hi, Hj.
  destruct (l !! i) as [a|] eqn:Ha; [|done]. destruct (l !! j) as [b|] eqn:Hb; [|done].
  simpl in Hi, Hj. rewrite (Hl i a Ha) in Hi. rewrite (Hl j b Hb) in Hj.
  rewrite <- Hj in Hi.
  assert (py "shift_" ++ fmt_03d (S i) = py "shift_" ++ fmt_03d (S j)) as Hij
    by congruence.
  apply app_inv_head in Hij. apply fmt_03d_inj in Hij. lia.
Qed.

Lemma extract_shift_total cells texts hmap cur tbl row g :
  ∃ r g', _extract_shift cells texts hmap cur tbl row g = Ok (r, g')
          ∧ ∀ sh, r = Some sh → shift_id sh = None.
Proof.
  unfold _extract_shift.
  match goal with |- context [scan_cells texts ?v0] => set (v := scan_cells texts v0) end.
  destruct (negb _).
  - eexists _, _. split; [done | done].
  - destruct (classify_total (scan_time_raw v)) as (slot & _ & ->). simpl.
    destruct (truthy (scan_slots v)); [|destruct (randint 1 6 g)];
      (eexists _, _; split; [done | by intros sh [= <-]]).
Qed.

Lemma parse_row_counted hmap tbl row cells st :
  counted st → ∃ st', parse_row hmap tbl row cells st = Ok st' ∧ counted st'.
Proof.
  intros Hst. pose proof Hst as [Hlen Hids]. unfold parse_row.
  destruct (Nat.eqb_spec (length cells) 1) as [H1|H1].
  - destruct cells as [|c [|c' cells]]; try done. simpl.
    destruct (_is_day_name (cell_text c)); simpl.
    + eexists. split; [done|]. by split.
    + eexists. split; [done|]. by split.
  - simpl. destruct (Nat.ltb_spec (length cells) 2); [by eauto|].
    destruct (extract_shift_total cells (cell_text <$> cells) hmap (current_day st) tbl row (gen st))
      as (r & g' & Hr & Hid).
    change (map cell_text cells) with (cell_text <$> cells). rewrite Hr. simpl.
    destruct r as [sh|]; eexists; (split; [done|]); [|by split].
    split; simpl.
    + rewrite length_app. simpl. lia.
    + apply sequential_ids_snoc; [done|]. simpl. by rewrite Hlen.
Qed.

Lemma parse_rows_counted hmap tbl row rows st :
  counted st → ∃ st', parse_rows hmap tbl row rows st = Ok st' ∧ counted st'.
Proof.
  revert row st. induction rows as [|r rows IH]; intros row st Hst; simpl; [by eauto|].
  destruct (parse_row_counted hmap tbl row r st Hst) as (st1 & -> & H1). simpl.
  by apply IH.
Qed.

Lemma parse_tables_counted idx tables st :
  counted st → ∃ st', parse_tables idx tables st = Ok st' ∧ counted st'.
Proof.
  revert idx st. induction tables as [|t tables IH]; intros idx st Hst; simpl; [by eauto|].
  assert (∃ st1, parse_table idx t st = Ok st1 ∧ counted st1) as (st1 & -> & H1).
  { unfold parse_table. destruct t as [|header data]; [by eauto|].
    apply parse_rows_counted. exact Hst. }
  simpl. by apply IH.
Qed.

(** The table strategy returns, with records numbered in order. *)
Lemma parse_shifts_total tables g :
  ∃ l g', _parse_shifts tables g = Ok (l, g') ∧ sequential_ids l.
Proof.
  unfold _parse_shifts.
  destruct (parse_tables_counted 0 tables
              {| shifts := []; counter := 0; current_day := None; gen := g |})
    as (st & -> & _ & Hids).
  - split; [done|]. by intros k sh Hk.
  - simpl. by eexists _, _.
Qed.

Lemma parse_link_emits day_v date_v link st :
  ∃ sh, parse_link day_v date_v link st
        = Ok {| g_shifts := g_shifts st ++ [sh]; g_counter := S (g_counter st) |}
        ∧ shift_id sh = Some (py "shift_" ++ fmt_03d (S (g_counter st)))
        ∧ day sh = Some day_v ∧ date sh = Some date_v
        ∧ time_raw sh = Some (default [] (link_bold link))
        ∧ source_table sh = Some FromGrid.
Proof.
  unfold parse_link.
  destruct (classify_total (default [] (link_bold link))) as (slot & _ & ->). simpl.
  destruct (bool_decide (py "unavail" ∈ link_classes link));
    [|destruct (bool_decide (py "worker" ∈ link_classes link))];
    (eexists; split; [done|]; done).
Qed.

(** The links of a column with header [h] are emitted one by one. *)
Lemma parse_links_emits h links st :
  gcounted st →
  ∃ out, parse_links (parse_header h).1 (parse_header h).2 links st
         = Ok {| g_shifts := g_shifts st ++ out;
                 g_counter := g_counter st + length out |}
         ∧ gcounted {| g_shifts := g_shifts st ++ out;
                       g_counter := g_counter st + length out |}
         ∧ Forall2 emitted_for ((fun l => (h, l)) <$> links) out.
Proof.
  revert st. induction links as [|link links IH]; intros st Hst; simpl.
  - exists []. rewrite app_nil_r, Nat.add_0_r. destruct st as [l c]; simpl in *.
    split; [done|]. split; [done | constructor].
  - destruct (parse_link_emits (parse_header h).1 (parse_header h).2 link st)
      as (sh & -> & Hid & Hday & Hdate & Htime & Hsrc). simpl.
    destruct Hst as [Hlen Hids].
    destruct (IH {| g_shifts := g_shifts st ++ [sh]; g_counter := S (g_counter st) |})
      as (out & -> & Hc & Hall).
    { split; simpl; [rewrite length_app; simpl; lia|].
      apply sequential_ids_snoc; [done|]. by rewrite Hlen. }
    exists (sh :: out). simpl in *. rewrite <- !app_assoc in *. simpl in *.
    replace (g_counter st + S (length out)) with (S (g_counter st + length out)) by lia.
    split; [done|]. split; [done|]. constructor; [|done].
    split; [done|]. split; [done|]. simpl. unfold parse_header in Hday, Hdate.
    by destruct (re_match day_date_re h).
Qed.

Lemma headed_links_cons col columns :
  headed_links (col :: columns)
  = match col_header col with
    | Some h => (fun l => (h, l)) <$> col_links col
    | None => []
    end ++ headed_links columns.
Proof. done. Qed.

Lemma parse_columns_emits columns st :
  gcounted st →
  ∃ out, parse_columns columns st
         = Ok {| g_shifts := g_shifts st ++ out;
                 g_counter := g_counter st + length out |}
         ∧ gcounted {| g_shifts := g_shifts st ++ out;
                       g_counter := g_counter st + length out |}
         ∧ Forall2 emitted_for (headed_links columns) out.
Proof.
  revert st. induction columns as [|col columns IH]; intros st Hst.
  - exists []. rewrite app_nil_r, Nat.add_0_r. destruct st as [l c]; simpl in *.
    split; [done|]. split; [done | constructor].
  - rewrite headed_links_cons. simpl parse_columns. unfold parse_column.
    destruct (col_header col) as [h|].
    + destruct (parse_header h) as [d dt] eqn:Hh.
      destruct (parse_links_emits h (col_links col) st Hst) as (out1 & H1 & Hc1 & Hall1).
      rewrite Hh in H1. simpl in H1. rewrite H1. simpl.
      destruct (IH _ Hc1) as (out2 & -> & Hc2 & Hall2). simpl in *.
      exists (out1 ++ out2). rewrite length_app, !app_assoc, Nat.add_assoc in *.
      split; [done|]. split; [done|]. by apply Forall2_app.
    + simpl. by apply IH.
Qed.

(** The grid strategy returns, with records numbered in order, one for each
    link of a column that has a header. *)
Lemma parse_column_layout_total page :
  ∃ l, _parse_column_layout page = Ok l ∧ sequential_ids l
       ∧ Forall2 emitted_for (headed_links (default [] (page_grid page))) l.
Proof.
  unfold _parse_column_layout. destruct (page_grid page) as [columns|]; simpl.
  - destruct (parse_columns_emits columns {| g_shifts := []; g_counter := 0 |})
      as (out & -> & [_ Hids] & Hall).
    + split; [done|]. by intros k sh Hk.
    + simpl in *. by exists out.
  - exists []. split; [done|]. split; [by intros k sh Hk | constructor].
Qed.

(** ** The coordinator *)

(** [get_shifts] returns the records of the table strategy when there are
    some, and those of the grid strategy otherwise. *)
Lemma get_shifts_cases page debug_info g :
  ∃ from_tables g',
    _parse_shifts (page_tables page) g = Ok (from_tables, g')
    ∧ sequential_ids from_tables
    ∧ ((from_tables ≠ []
        ∧ get_shifts page debug_info g
          = Ok ({| success := true; parsed_shifts := from_tables; message := py "OK";
                   debug := debug_info ++ [tables_entry from_tables] |}, g'))
       ∨ (from_tables = []
          ∧ ∃ from_grid,
              _parse_column_layout page = Ok from_grid
              ∧ sequential_ids from_grid
              ∧ get_shifts page debug_info g
                = Ok ({| success := true; parsed_shifts := from_grid; message := py "OK";
                         debug := debug_info ++ [tables_entry []; grid_entry from_grid] |},
                      g'))).
Proof.
  destruct (parse_shifts_total (page_tables page) g) as (l & g' & Ht & Hids).
  exists l, g'. split; [done|]. split; [done|].
  unfold get_shifts. rewrite Ht. simpl.
  destruct l as [|sh l].
  - right. split; [done|].
    destruct (parse_column_layout_total page) as (lg & Hg & Hgids & _).
    exists lg. split; [done|]. split; [done|]. rewrite Hg. simpl.
    by rewrite <- app_assoc.
  - left. split; [done|]. done.
Qed.

(** C4. The coordinator runs the table strategy, and runs the grid strategy
    when and only when the table strategy gave no record, as its log shows;
    it returns the records of the one or of the other; it does not raise;
    when both strategies give nothing, as when there is no grid container,
    its result holds no record, which the caller reads as no shifts found. *)
Theorem coordinator_fallback (page : soup) (debug_info : list str) (g : rng) :
  ∃ from_tables g' r,
    _parse_shifts (page_tables page) g = Ok (from_tables, g')
    ∧ get_shifts page debug_info g = Ok (r, g')
    ∧ success r = true
    ∧ (from_tables ≠ [] →
         parsed_shifts r = from_tables
         ∧ debug r = debug_info ++ [tables_entry from_tables])
    ∧ (from_tables = [] →
         ∃ from_grid,
           _parse_column_layout page = Ok from_grid
           ∧ parsed_shifts r = from_grid
           ∧ debug r = debug_info ++ [tables_entry []; grid_entry from_grid]
           ∧ (page_grid page = None → from_grid = [])
           ∧ (from_grid = [] → parsed_shifts r = [] ∧ daily_outcome r = NoShiftsFound)).
Proof.
  destruct (get_shifts_cases page debug_info g)
    as (l & g' & Ht & _ & [[Hne Hr] | [-> (lg & Hg & _ & Hr)]]).
  - eexists l, g', _. split; [done|]. split; [exact Hr|]. split; [done|].
    split; [done|]. by intros ->.
  - eexists [], g', _. split; [done|]. split; [exact Hr|]. split; [done|].
    split; [done|]. intros _. exists lg. split; [done|]. split; [done|]. split; [done|].
    split.
    + intros Hnone. unfold _parse_column_layout in Hg. rewrite Hnone in Hg. by injection Hg.
    + intros ->. done.
Qed.

(** C9. The records of one extraction, from whichever strategy, carry the
    identifiers shift_001, shift_002, ... in emission order: the counter
    behind them grows by one with each record, and no two records share an
    identifier. *)
Theorem ids_sequential (page : soup) (debug_info : list str) (g : rng) :
  (∃ r g', get_shifts page debug_info g = Ok (r, g')
           ∧ sequential_ids (parsed_shifts r)
           ∧ NoDup (shift_id <$> parsed_shifts r))
  ∧ (∃ l g', _parse_shifts (page_tables page) g = Ok (l, g')
             ∧ sequential_ids l ∧ NoDup (shift_id <$> l))
  ∧ (∃ l, _parse_column_layout page = Ok l
          ∧ sequential_ids l ∧ NoDup (shift_id <$> l)).
Proof.
  split; [|split].
  - destruct (get_shifts_cases page debug_info g)
      as (l & g' & _ & Hids & [[_ Hr] | [_ (lg & _ & Hgids & Hr)]]).
    + eexists _, _. split; [exact Hr|]. simpl. split; [done | by apply sequential_ids_NoDup].
    + eexists _, _. split; [exact Hr|]. simpl. split; [done | by apply sequential_ids_NoDup].
  - destruct (parse_shifts_total (page_tables page) g) as (l & g' & Ht & Hids).
    exists l, g'. split; [done|]. split; [done | by apply sequential_ids_NoDup].
  - destruct (parse_column_layout_total page) as (l & Hl & Hids & _).
    exists l. split; [done|]. split; [done | by apply sequential_ids_NoDup].
Qed.

(** A column without a header is passed over with its links. *)
Lemma headless_column_dropped :
  page_grid headless_page = Some headless_columns
  ∧ all_links headless_columns = [a_link]
  ∧ _parse_column_layout headless_page = Ok []
  ∧ ¬ (∃ out, _parse_column_layout headless_page = Ok out
              ∧ length out = length (all_links headless_columns)).
Proof.
  split; [done|]. split; [done|]. split; [done|].
  intros (out & Hout & Hlen). vm_compute in Hout. injection Hout as <-. done.
Qed.

(** C6, as amended. In the grid strategy each link of each column that has
    a header element gives one record, in document order, and no link of such
    a column is rejected; the record takes its time from the link; its day
    and date are read from the header, and are "Unknown" and the empty string
    when the header is not a day followed by a date. A column without a
    header element is passed over. *)
Theorem grid_one_record_per_link (tables : list (list (list cell))) (columns : list column) :
  ∃ out,
    _parse_column_layout {| page_tables := tables; page_grid := Some columns |} = Ok out
    ∧ Forall2 emitted_for (headed_links columns) out
    ∧ length out = length (headed_links columns)
    ∧ (∀ k h l sh, headed_links columns !! k = Some (h, l) → out !! k = Some sh →
         re_match day_date_re h = None →
         day sh = Some (py "Unknown") ∧ date sh = Some []).
Proof.
  destruct (parse_column_layout_total {| page_tables := tables; page_grid := Some columns |})
    as (out & Hout & _ & Hall). simpl in Hall.
  exists out. split; [done|]. split; [done|].
  split; [symmetry; by eapply Forall2_length|].
  intros k h l sh Hk Hsh Hno.
  destruct (Forall2_lookup_lr _ _ _ _ _ _ Hall Hk Hsh) as (_ & _ & Hday).
  simpl in Hday. by rewrite Hno in Hday.
Qed.

(** ** The fuzzy matcher in the cell scan *)

Lemma fuzzy_blank text : blanks text → _fuzzy_committee text = Some (py "Receiving").
Proof. intros H. unfold _fuzzy_committee. by rewrite strip_blanks. Qed.

(** The catalog is written in ASCII. *)
Lemma catalog_ascii c : c ∈ KNOWN_COMMITTEES → Forall (fun x => (x < 128)%N) c.
Proof.
  assert (forallb (forallb (fun x => (x <? 128)%N)) KNOWN_COMMITTEES = true) as Hall
    by (vm_compute; reflexivity).
  rewrite forallb_forall in Hall. intros Hc%list_elem_of_In.
  specialize (Hall c Hc). rewrite forallb_forall in Hall.
  apply Forall_forall. intros x Hx. apply N.ltb_lt, Hall. by apply list_elem_of_In.
Qed.

(** A lower-cased text found in an ASCII text is found in its lower case. *)
Lemma substring_lower t s :
  Forall (fun x => (x < 128)%N) s → substring (lower t) s → substring (lower t) (lower s).
Proof.
  intros Hs (a & b & Hab). unfold lower at 2. rewrite (lower_from_ascii _ _ Hs).
  rewrite Hab, !map_app. exists (map (fun c => if in_range 65 90 c then (c + 32)%N else c) a),
    (map (fun c => if in_range 65 90 c then (c + 32)%N else c) b).
  f_equal. f_equal.
  pose proof (lower_from_no_capital false t) as Hno. fold (lower t) in Hno.
  revert Hno. generalize (lower t). intros w Hno.
  induction Hno as [|c w Hc _ IH]; [done|]. cbn [map]. by rewrite Hc, IH.
Qed.

Lemma fuzzy_found text c :
  c ∈ KNOWN_COMMITTEES → substring (lower (strip text)) (lower c) →
  ∃ c', c' ∈ KNOWN_COMMITTEES ∧ _fuzzy_committee text = Some c'.
Proof.
  intros Hc Hsub. unfold _fuzzy_committee.
  destruct (find _ KNOWN_COMMITTEES) as [c'|] eqn:Hfind.
  - exists c'. split; [|done]. apply find_some in Hfind as [Hin _].
    by apply list_elem_of_In.
  - exfalso. apply list_elem_of_In in Hc.
    pose proof (find_none _ _ Hfind c Hc) as Hfalse.
    apply contains_spec in Hsub. simpl in Hfalse. rewrite Hsub, orb_true_r in Hfalse. done.
Qed.

Lemma scan_committee_keep texts v :
  truthy (scan_committee v) = true →
  scan_committee (scan_cells texts v) = scan_committee v.
Proof.
  revert v. induction texts as [|txt texts IH]; intros v Hv; [done|].
  unfold scan_cells in *. simpl.
  assert (scan_committee (scan_cell txt v) = scan_committee v) as Hstep.
  { unfold scan_cell. simpl. by rewrite Hv. }
  rewrite IH; [done|]. by rewrite Hstep.
Qed.

(** The scan takes "Receiving" from the first empty cell when no cell before
    it names a committee. *)
Lemma scan_committee_empty_cell texts v i :
  scan_committee v = [] → texts !! i = Some [] →
  (∀ j txt, j < i → texts !! j = Some txt → _fuzzy_committee txt = None) →
  scan_committee (scan_cells texts v) = py "Receiving".
Proof.
  revert v i. induction texts as [|txt texts IH]; intros v i Hv Hi Hbefore; [done|].
  unfold scan_cells in *. simpl. destruct i as [|i]; simpl in Hi.
  - injection Hi as ->.
    assert (scan_committee (scan_cell [] v) = py "Receiving") as Hstep.
    { unfold scan_cell. simpl. by rewrite Hv. }
    rewrite <- Hstep. apply scan_committee_keep. by rewrite Hstep.
  - apply (IH _ i); [|done|].
    + unfold scan_cell. simpl. rewrite Hv. simpl.
      by rewrite (Hbefore 0 txt ltac:(lia) eq_refl).
    + intros j t Hj Ht. apply (Hbefore (S j) t); [lia | done].
Qed.

(** C10. The fuzzy matcher returns an entry of the catalog whenever the
    stripped, lower-cased text is a substring of a catalog name, taken as
    written or lower-cased; for the empty string and for a string of
    whitespace it returns the first entry, "Receiving". So a data row of the
    table strategy that has an empty cell, no committee from its header
    column and no committee in the cells before the empty one, is given
    "Receiving" and is not rejected. *)
Theorem fuzzy_empty_is_receiving :
  (∀ text c, c ∈ KNOWN_COMMITTEES →
     substring (lower (strip text)) (lower c) ∨ substring (lower (strip text)) c →
     ∃ c', c' ∈ KNOWN_COMMITTEES ∧ _fuzzy_committee text = Some c')
  ∧ (∀ text, blanks text → _fuzzy_committee text = Some (py "Receiving"))
  ∧ (∀ cells hmap cur tbl row g i,
       (cell_text <$> cells) !! i = Some [] →
       default [] (_safe_idx (cell_text <$> cells) (hmap !! "committee")) = [] →
       (∀ j txt, j < i → (cell_text <$> cells) !! j = Some txt →
                 _fuzzy_committee txt = None) →
       ∃ sh g', _extract_shift cells (cell_text <$> cells) hmap cur tbl row g
                = Ok (Some sh, g')
                ∧ committee sh = Some (py "Receiving")).
Proof.
  split; [|split].
  - intros text c Hc [Hsub | Hsub]; [by apply fuzzy_found with c|].
    apply fuzzy_found with c; [done|].
    apply substring_lower; [by apply catalog_ascii | done].
  - apply fuzzy_blank.
  - intros cells hmap cur tbl row g i Hi Hhdr Hbefore.
    unfold _extract_shift.
    match goal with |- context [scan_cells _ ?v0] => set (v := v0) end.
    assert (scan_committee (scan_cells (cell_text <$> cells) v) = py "Receiving") as Hc.
    { apply scan_committee_empty_cell with i; [|done|done].
      unfold v. destruct (bool_decide (hmap ≠ ∅)); [|done]. simpl. by rewrite Hhdr. }
    rewrite Hc. rewrite orb_true_r. simpl negb. cbv iota.
    destruct (classify_total (scan_time_raw (scan_cells (cell_text <$> cells) v)))
      as (slot & _ & ->). simpl.
    destruct (truthy (scan_slots _)); [|destruct (randint 1 6 g)];
      (eexists _, _; split; [done | done]).
Qed.

(** ** Malformed preferences *)

(** A number under [days] makes the constructor raise; a string under [days]
    is read as its characters and is a preference. *)
Lemma malformed_days_not_empty :
  init days_number = Raise TypeError
  ∧ (∃ self, init days_string = Ok self
             ∧ days self = [py "s"; py "a"; py "t"]
             ∧ day_step self saturday_shift tally0
               = note (-20) "day" (py "Saturday is not preferred (-20%)") tally0).
Proof.
  split; [vm_compute; reflexivity|].
  eexists. split; [vm_compute; reflexivity|]. split; vm_compute; reflexivity.
Qed.

Lemma lower_items_chars s :
  lower_items (map (fun c => JStr [c]) s) = Ok ((fun c => lower [c]) <$> s).
Proof.
  induction s as [|c s IH]; [done|].
  change (lower_items (map (fun c => JStr [c]) (c :: s)))
    with (let* r := lower_items (map (fun c => JStr [c]) s) in Ok (lower [c] :: r)).
  by rewrite IH.
Qed.

(** C8, as amended. A preference key that is absent is read as the empty
    list, and an empty list takes the branch "no preference set". A value
    that is not a list is not replaced by the empty list: null, a boolean or
    a number raises TypeError where it is iterated, in the constructor for
    days, times and excludedCommittees and in [score] for committees; a
    string is read as the list of its characters. *)
Theorem malformed_preferences (preferences : gmap string json) :
  (∀ key, preferences !! key = None → lowered (pref preferences key) = Ok [])
  ∧ (∀ key l, preferences !! key = Some (names l) →
       lowered (pref preferences key) = Ok (lower <$> l))
  ∧ (∀ key v, preferences !! key = Some v →
       v = JNull ∨ (∃ b, v = JBool b) ∨ (∃ n, v = JNum n) →
       lowered (pref preferences key) = Raise TypeError)
  ∧ (∀ key s, preferences !! key = Some (JStr s) →
       lowered (pref preferences key) = Ok ((fun c => lower [c]) <$> s))
  ∧ (∀ e, lowered (pref preferences "days") = Raise e → init preferences = Raise e)
  ∧ (∀ d e, lowered (pref preferences "days") = Ok d →
       lowered (pref preferences "times") = Raise e → init preferences = Raise e)
  ∧ (∀ d t e, lowered (pref preferences "days") = Ok d →
       lowered (pref preferences "times") = Ok t →
       lowered (pref preferences "excludedCommittees") = Raise e →
       init preferences = Raise e)
  ∧ (∀ d t x, lowered (pref preferences "days") = Ok d →
       lowered (pref preferences "times") = Ok t →
       lowered (pref preferences "excludedCommittees") = Ok x →
       init preferences
       = Ok {| days := d; times := t; committees := pref preferences "committees";
               excluded := x |})
  ∧ (∀ self sh e, lowered (committees self) = Raise e → score self sh = Raise e)
  ∧ (∀ self sh t,
       (lowered (committees self) = Ok [] →
          committee_step self sh t
          = Ok (note 0 "committee" (py "No committee preference set") t))
       ∧ (days self = [] → day_step self sh t = note 0 "day" (py "No day preference set") t)
       ∧ (times self = [] →
          time_step self sh t = note 0 "time" (py "No time preference set") t)).
Proof.
  repeat split.
  - intros key H. unfold pref. by rewrite H.
  - intros key l H. unfold pref. rewrite H. apply lowered_names.
  - intros key v H Hv. unfold pref. rewrite H.
    by destruct Hv as [->|[[b ->]|[n ->]]].
  - intros key s H. unfold pref. rewrite H. apply lower_items_chars.
  - intros e H. unfold init. by rewrite H.
  - intros d e Hd H. unfold init. by rewrite Hd, H.
  - intros d t e Hd Ht H. unfold init. by rewrite Hd, Ht, H.
  - intros d t x Hd Ht Hx. unfold init. by rewrite Hd, Ht, Hx.
  - intros self sh e H. unfold score, committee_step. by rewrite H.
  - intros H. unfold committee_step. by rewrite H.
  - intros H. unfold day_step. by rewrite H.
  - intros H. unfold time_step. by rewrite H.
Qed.

(** ** Examples of the specification *)

Example example_1 :
  ∃ self r, init example_preferences = Ok self ∧ score self saturday_shift = Ok r
            ∧ scored_score r = 105%Z
            ∧ dict_get "committee" (scored_breakdown r) = Some (py "Top choice: Produce (+10%)")
            ∧ dict_get "slots" (scored_breakdown r) = Some (py "Only 1 slot left (-5%)")
            ∧ dict_get "late" (scored_breakdown r) = None.
Proof. eexists _, _. repeat split; vm_compute; reflexivity. Qed.

Example example_2 :
  ∃ self r, init example_preferences = Ok self ∧ score self late_shift = Ok r
            ∧ scored_score r = 30%Z
            ∧ dict_get "late" (scored_breakdown r) = Some (py "Late evening shift (-10%)").
Proof. eexists _, _. repeat split; vm_compute; reflexivity. Qed.

Example example_4 :
  parse_header (py "Sat 2/14/2026") = (py "Saturday", py "2/14/2026")
  ∧ ∃ sh, _parse_column_layout unavailable_page = Ok [sh]
          ∧ status sh = Some (py "unavailable") ∧ slots sh = Some (py "0")
          ∧ description sh = Some (py "Currently unavailable")
          ∧ shift_id sh = Some (py "shift_001").
Proof. split; [vm_compute; reflexivity|]. eexists. repeat split; vm_compute; reflexivity. Qed.

Example classify_examples :
  _classify_time (py "6:30pm") = Ok (py "Evening")
  ∧ _classify_time (py "9:30PM - 12:15AM") = Ok (py "Overnight")
  ∧ _classify_time (py "12:05 am") = Ok (py "Morning")
  ∧ _classify_time (py "12:00PM") = Ok (py "Afternoon")
  ∧ _classify_time (py "123:45pm") = Ok (py "Overnight")
  ∧ _classify_time [] = Ok (py "Morning").
Proof. repeat split; vm_compute; reflexivity. Qed.

Example int_examples :
  int_of_str (py " 1_000 ") = Some 1000%Z
  ∧ int_of_str (py "-5") = Some (-5)%Z
  ∧ int_of_str (py "1__0") = None
  ∧ int_of_str (py "many") = None
  ∧ int_of_str [] = None.
Proof. repeat split; vm_compute; reflexivity. Qed.

Example ranked_example :
  ∃ self out, init example_preferences = Ok self
    ∧ rank self [late_shift; saturday_shift; late_shift] = Ok out
    ∧ scored_shift <$> out = [saturday_shift; late_shift; late_shift]
    ∧ scored_score <$> out = [105; 30; 30]%Z.
Proof. eexists _, _. repeat split; vm_compute; reflexivity. Qed.

(** ** The properties at concrete inputs *)

Lemma first_time_945pm : first_time (py "9:45pm") (py "9") 112%N.
Proof.
  assert (re_search time_re (py "9:45pm") = Some [py "9"; py "45"; py "pm"]) as H
    by (vm_compute; reflexivity).
  destruct (search_first_time _ _ H) as (h & mm & a & z & Heq & Hf & _).
  injection Heq as <- _ <- _. exact Hf.
Qed.

Lemma classify_time_spec_witness :
  first_time (py "9:45pm") (py "9") 112%N
  ∧ _classify_time (py "9:45pm") = Ok (py "Overnight").
Proof.
  split; [exact first_time_945pm|].
  exact (proj2 (proj2 (classify_time_spec (py "9:45pm"))) _ _ first_time_945pm).
Defined.

Lemma lateness_term_witness :
  is_late (py "9:45pm")
  ∧ late_step late_shift tally0
    = Ok {| base := 90;
            breakdown := [("late", py "Late evening shift (-10%)")] |}.
Proof.
  assert (is_late (py "9:45pm")) as H.
  { exists (py "9"), 112%N. split; [exact first_time_945pm | vm_compute; discriminate]. }
  split; [exact H|].
  exact (proj1 (proj2 (lateness_term late_shift tally0)) H).
Defined.

Lemma slots_term_witness :
  slots many_slots_shift = Some (py "many") ∧ int_of_str (py "many") = None
  ∧ slots_step many_slots_shift tally0 = note 0 "slots" (py "Slots unknown") tally0.
Proof.
  split; [reflexivity|]. split; [vm_compute; reflexivity|].
  apply (proj1 (proj2 (slots_term many_slots_shift tally0)) (py "many")).
  - reflexivity.
  - vm_compute; reflexivity.
Defined.

Lemma coordinator_fallback_witness :
  ∃ r g', get_shifts empty_page [] rng0 = Ok (r, g')
          ∧ parsed_shifts r = [] ∧ daily_outcome r = NoShiftsFound.
Proof.
  destruct (coordinator_fallback empty_page [] rng0)
    as (ft & g' & r & Ht & Hr & _ & _ & He).
  assert (ft = []) as -> by (vm_compute in Ht; congruence).
  destruct (He eq_refl) as (fg & _ & _ & _ & Hnone & Hempty).
  exists r, g'. split; [exact Hr|]. apply Hempty, Hnone. reflexivity.
Defined.

Lemma grid_one_record_per_link_witness :
  ∃ sh, _parse_column_layout {| page_tables := []; page_grid := Some odd_header_columns |}
        = Ok [sh]
        ∧ day sh = Some (py "Unknown") ∧ date sh = Some [].
Proof.
  destruct (grid_one_record_per_link [] odd_header_columns)
    as (out & Hout & _ & Hlen & Hday).
  destruct out as [|sh [|sh' out]]; try discriminate Hlen.
  exists sh. split; [exact Hout|].
  apply (Hday 0 (py "Next week") a_link sh); reflexivity.
Defined.

Lemma malformed_preferences_witness :
  days_number !! "days" = Some (JNum 5) ∧ init days_number = Raise TypeError.
Proof.
  split; [reflexivity|].
  destruct (malformed_preferences days_number) as (_ & _ & Hbad & _ & Hdays & _).
  apply Hdays. apply (Hbad "days" (JNum 5)); [reflexivity|].
  right. right. by exists 5%Z.
Defined.

Lemma fuzzy_empty_is_receiving_witness :
  ∃ sh g', _extract_shift row_with_empty_cell (cell_text <$> row_with_empty_cell)
             ∅ None 0 1 rng0 = Ok (Some sh, g')
           ∧ committee sh = Some (py "Receiving").
Proof.
  apply (proj2 (proj2 fuzzy_empty_is_receiving) row_with_empty_cell ∅ None 0 1 rng0 1).
  - reflexivity.
  - reflexivity.
  - intros j txt Hj Hlook. assert (j = 0) as -> by lia.
    vm_compute in Hlook. injection Hlook as <-. vm_compute. reflexivity.
Defined.

(** * Further properties of the scorer and the ranker *)

Lemma dict_set_fresh key v d :
  key ∉ d.*1 → dict_set key v d = d ++ [(key, v)].
Proof.
  induction d as [|[k x] d IH]; simpl; [done|].
  intros Hk. apply not_elem_of_cons in Hk as [Hne Hk].
  destruct (String.eqb_spec k key); [congruence|]. by rewrite IH.
Qed.

Lemma committee_step_note self sh t t' :
  committee_step self sh t = Ok t' →
  ∃ comm_lower text,
    lowered (committees self) = Ok comm_lower
    ∧ t' = note (committee_delta comm_lower (lower (default [] (committee sh))))
             "committee" text t.
Proof.
  unfold committee_step. intros H.
  destruct (lowered (committees self)) as [[|c l]|] eqn:Hl; simpl in H; [| |done].
  - injection H as <-. eexists [], _. split; reflexivity.
  - exists (c :: l). unfold committee_delta.
    destruct (bool_decide _); [destruct (_ =? 0)%nat|];
      injection H as <-; eexists; split; reflexivity.
Qed.

Lemma day_step_note self sh t :
  ∃ text, day_step self sh t
          = note (preferred_delta (-20) (days self) (lower (default [] (day sh))))
              "day" text t.
Proof.
  unfold day_step, preferred_delta.
  destruct (days self); [by eexists|]. destruct (bool_decide _); by eexists.
Qed.

Lemma time_step_note self sh t :
  ∃ text, time_step self sh t
          = note (preferred_delta (-15) (times self) (lower (default [] (time_slot sh))))
              "time" text t.
Proof.
  unfold time_step, preferred_delta.
  destruct (times self); [by eexists|]. destruct (bool_decide _); by eexists.
Qed.

Lemma slots_step_note sh t :
  ∃ text, slots_step sh t = note (slots_delta sh) "slots" text t.
Proof.
  unfold slots_step, slots_delta. destruct (slots_int sh) as [n|]; [|by eexists].
  destruct (n >? 3)%Z; [by eexists|]. destruct (n =? 1)%Z; by eexists.
Qed.

Lemma late_step_note sh t t' :
  late_step sh t = Ok t' →
  (is_late (default [] (time_raw sh))
   ∧ t' = note (-10) "late" (py "Late evening shift (-10%)") t)
  ∨ (¬ is_late (default [] (time_raw sh)) ∧ t' = t).
Proof.
  intros H. destruct (late_step_cases sh t) as [[Hl H']|[Hl H']];
    rewrite H' in H; injection H as <-; [by left | by right].
Qed.

(** The tally [score] ends with. *)
Lemma score_tally self sh r :
  score self sh = Ok r →
  ∃ comm_lower c d t s late_text,
    lowered (committees self) = Ok comm_lower
    ∧ scored_shift r = sh
    ∧ scored_score r
      = Z.max 0 (Z.min 120
          (100 + committee_delta comm_lower (lower (default [] (committee sh)))
           + preferred_delta (-20) (days self) (lower (default [] (day sh)))
           + preferred_delta (-15) (times self) (lower (default [] (time_slot sh)))
           + slots_delta sh
           + (if late_text is Some _ then -10 else 0)))
    ∧ scored_breakdown r
      = [("committee", c); ("day", d); ("time", t); ("slots", s)]
        ++ (if late_text is Some l then [("late", l)] else [])
    ∧ (late_text = Some (py "Late evening shift (-10%)")
       ∧ is_late (default [] (time_raw sh))
       ∨ late_text = None ∧ ¬ is_late (default [] (time_raw sh))).
Proof.
  intros (t1 & t5 & H1 & H5 & ->)%score_steps.
  apply committee_step_note in H1 as (comm_lower & c & Hl & ->).
  destruct (day_step_note self sh
              (note (committee_delta comm_lower (lower (default [] (committee sh))))
                 "committee" c tally0)) as [d Hd].
  rewrite Hd in H5.
  match type of H5 with context [time_step self sh ?t] =>
    destruct (time_step_note self sh t) as [tt Ht] end.
  rewrite Ht in H5.
  match type of H5 with context [slots_step sh ?t] =>
    destruct (slots_step_note sh t) as [s Hs] end.
  rewrite Hs in H5.
  apply late_step_note in H5 as [[Hlate ->]|[Hlate ->]].
  - exists comm_lower, c, d, tt, s, (Some (py "Late evening shift (-10%)")).
    split; [done|]. split; [done|]. simpl. split; [f_equal; f_equal; lia|].
    split; [done|]. by left.
  - exists comm_lower, c, d, tt, s, None.
    split; [done|]. split; [done|]. simpl. split; [f_equal; f_equal; lia|].
    split; [done|]. by right.
Qed.

(** X1. The breakdown of a score holds the entries committee, day, time and
    slots in this order, followed by the entry late when, and only when, the
    late-evening penalty is due. *)
Theorem score_breakdown_keys (self : ShiftMatcher) (sh : shift) (r : scored) :
  score self sh = Ok r →
  (is_late (default [] (time_raw sh))
   ∧ (scored_breakdown r).*1 = ["committee"; "day"; "time"; "slots"; "late"])
  ∨ (¬ is_late (default [] (time_raw sh))
     ∧ (scored_breakdown r).*1 = ["committee"; "day"; "time"; "slots"]).
Proof.
  intros (cl & c & d & t & s & lt & _ & _ & _ & -> & [[-> Hl]|[-> Hl]])%score_tally.
  - by left.
  - by right.
Qed.

Lemma score_breakdown_keys_witness :
  ∃ r, score (matcher_of plain_preferences) late_shift = Ok r
       ∧ (scored_breakdown r).*1 = ["committee"; "day"; "time"; "slots"; "late"].
Proof.
  assert (∃ r, score (matcher_of plain_preferences) late_shift = Ok r) as [r Hr]
    by (eexists; vm_compute; reflexivity).
  exists r. split; [exact Hr|].
  destruct (score_breakdown_keys _ _ _ Hr) as [[_ H]|[_ H]]; [exact H|].
  exfalso. vm_compute in Hr. injection Hr as <-. vm_compute in H. discriminate.
Defined.

Lemma committee_delta_le cl c : (committee_delta cl c ≤ 10)%Z.
Proof.
  unfold committee_delta. destruct cl; [lia|].
  destruct (bool_decide _); [destruct (_ =? 0)%nat|]; lia.
Qed.

Lemma preferred_delta_le pen l v : (pen ≤ 0)%Z → (preferred_delta pen l v ≤ 0)%Z.
Proof.
  intros. unfold preferred_delta. destruct l; [lia|]. destruct (bool_decide _); lia.
Qed.

Lemma slots_delta_le sh : (slots_delta sh ≤ 5)%Z.
Proof.
  unfold slots_delta. destruct (slots_int sh) as [n|]; [|lia].
  destruct (n >? 3)%Z; [lia|]. destruct (n =? 1)%Z; lia.
Qed.

(** X2. A score is 100 plus the committee, day, time, slots and lateness
    terms, raised to 0 when the sum is negative. It never exceeds 115: the
    upper limit of 120 that [score] applies is never reached. *)
Theorem score_is_sum_at_most_115 (self : ShiftMatcher) (sh : shift) (r : scored) :
  score self sh = Ok r →
  ∃ comm_lower late,
    lowered (committees self) = Ok comm_lower
    ∧ (late = (-10)%Z ∧ is_late (default [] (time_raw sh))
       ∨ late = 0%Z ∧ ¬ is_late (default [] (time_raw sh)))
    ∧ scored_score r
      = Z.max 0 (100 + committee_delta comm_lower (lower (default [] (committee sh)))
                 + preferred_delta (-20) (days self) (lower (default [] (day sh)))
                 + preferred_delta (-15) (times self) (lower (default [] (time_slot sh)))
                 + slots_delta sh + late)
    ∧ (0 ≤ scored_score r ≤ 115)%Z.
Proof.
  intros (cl & c & d & t & s & lt & Hcl & _ & Hs & _ & Hlate)%score_tally.
  pose proof (committee_delta_le cl (lower (default [] (committee sh)))).
  pose proof (preferred_delta_le (-20) (days self) (lower (default [] (day sh))) ltac:(lia)).
  pose proof (preferred_delta_le (-15) (times self) (lower (default [] (time_slot sh))) ltac:(lia)).
  pose proof (slots_delta_le sh).
  exists cl, (if lt is Some _ then -10 else 0)%Z. split; [done|]. split.
  - destruct Hlate as [[-> Hl]|[-> Hl]]; [by left | by right].
  - rewrite Hs. destruct lt; split; lia.
Qed.

Lemma score_is_sum_at_most_115_witness :
  ∃ r, score (matcher_of plain_preferences) saturday_shift = Ok r
       ∧ (0 ≤ scored_score r ≤ 115)%Z.
Proof.
  assert (∃ r, score (matcher_of plain_preferences) saturday_shift = Ok r) as [r Hr]
    by (eexists; vm_compute; reflexivity).
  exists r. split; [exact Hr|].
  destruct (score_is_sum_at_most_115 _ _ _ Hr) as (cl & late & _ & _ & _ & H). exact H.
Defined.

Lemma index_of_first_at x l r : first_at x l r → index_of x l = r ∧ x ∈ l.
Proof.
  revert r. induction l as [|y l IH]; intros r [Hr Hfirst]; [done|].
  simpl. unfold str_eqb. destruct (decide (y = x)) as [->|Hne].
  - rewrite bool_decide_eq_true_2 by done. split; [|by left].
    destruct r as [|r]; [done|]. by destruct (Hfirst 0 ltac:(lia)).
  - rewrite bool_decide_eq_false_2 by done.
    destruct r as [|r]; [simpl in Hr; congruence|].
    destruct (IH r) as [-> Hin].
    + split; [done|]. intros j Hj. apply (Hfirst (S j)). lia.
    + split; [done | by right].
Qed.

(** X3. The committee term. With no ranked committee it is 0. Otherwise the
    committee of the record is compared, up to case, with the ranked list: at
    the head of the list it adds 10, first found at position r > 0 it
    subtracts 5 r, found nowhere it subtracts 25. A committee ranked at
    position 6 or later therefore loses more than one that is not ranked at
    all. *)
Theorem committee_term (p : preference_set) (sh : shift) (t : tally) :
  ∃ t', committee_step (matcher_of p) sh t = Ok t'
    ∧ (pref_committees p = [] → base t' = base t)
    ∧ (pref_committees p ≠ [] →
       ¬ Exists (same_ignoring_case (default [] (committee sh))) (pref_committees p) →
       base t' = (base t - 25)%Z)
    ∧ (∀ r, first_at (lower (default [] (committee sh))) (lower <$> pref_committees p) r →
         (r = 0 → base t' = (base t + 10)%Z)
         ∧ (0 < r → base t' = (base t - 5 * Z.of_nat r)%Z)
         ∧ (5 < r → (base t' < base t - 25)%Z)).
Proof.
  destruct (committee_step_total p sh t) as [t' Ht']. exists t'. split; [done|].
  apply committee_step_note in Ht' as (cl & text & Hcl & ->).
  simpl in Hcl. rewrite lowered_names in Hcl. injection Hcl as <-.
  simpl base. unfold committee_delta. split; [intros ->; simpl; lia|]. split.
  - intros Hne Hnot. destruct (pref_committees p) as [|c0 l0] eqn:Hp; [done|].
    rewrite fmap_cons. rewrite <- fmap_cons.
    rewrite bool_decide_eq_false_2; [simpl; lia|].
    intros (e & He1 & He2)%list_elem_of_fmap. apply Hnot, Exists_exists.
    exists e. split; [done | exact He1].
  - intros r Hr. destruct (index_of_first_at _ _ _ Hr) as [Hidx Hin].
    destruct (lower <$> pref_committees p) as [|c0 l0] eqn:Hl;
      [by apply elem_of_nil in Hin|].
    rewrite bool_decide_eq_true_2 by done. rewrite Hidx.
    destruct r as [|r]; simpl; repeat split; intros; lia.
Qed.

Lemma committee_term_witness :
  first_at (lower (py "Checkout")) (lower <$> pref_committees long_ranking) 6
  ∧ ∃ t', committee_step (matcher_of long_ranking) late_shift tally0 = Ok t'
          ∧ (base t' < 75)%Z.
Proof.
  assert (first_at (lower (py "Checkout")) (lower <$> pref_committees long_ranking) 6) as H.
  { split; [reflexivity|]. intros j Hj.
    do 6 (destruct j as [|j]; [vm_compute; discriminate|]). lia. }
  split; [exact H|].
  destruct (committee_term long_ranking late_shift tally0) as (t' & Ht' & _ & _ & Hr).
  exists t'. split; [exact Ht'|].
  destruct (Hr 6 H) as (_ & _ & Hlt). apply Hlt. lia.
Defined.

Lemma lowered_member (v : str) (l : list str) :
  lower v ∈ lower <$> l ↔ Exists (same_ignoring_case v) l.
Proof.
  rewrite list_elem_of_fmap, Exists_exists. unfold same_ignoring_case.
  split; intros (e & H1 & H2); by exists e.
Qed.

(** X4. The day and time terms. With no preferred day the day term is 0;
    otherwise it is 0 when the day of the record equals a preferred day up to
    case, and -20 when it does not. The time term is the same with the
    time-of-day bucket and -15. A record without the field is compared as the
    empty text. *)
Theorem day_and_time_terms (p : preference_set) (sh : shift) (t : tally) :
  (pref_days p = [] → base (day_step (matcher_of p) sh t) = base t)
  ∧ (Exists (same_ignoring_case (default [] (day sh))) (pref_days p) →
     base (day_step (matcher_of p) sh t) = base t)
  ∧ (pref_days p ≠ [] →
     ¬ Exists (same_ignoring_case (default [] (day sh))) (pref_days p) →
     base (day_step (matcher_of p) sh t) = (base t - 20)%Z)
  ∧ (pref_times p = [] → base (time_step (matcher_of p) sh t) = base t)
  ∧ (Exists (same_ignoring_case (default [] (time_slot sh))) (pref_times p) →
     base (time_step (matcher_of p) sh t) = base t)
  ∧ (pref_times p ≠ [] →
     ¬ Exists (same_ignoring_case (default [] (time_slot sh))) (pref_times p) →
     base (time_step (matcher_of p) sh t) = (base t - 15)%Z).
Proof.
  destruct (day_step_note (matcher_of p) sh t) as [d ->].
  destruct (time_step_note (matcher_of p) sh t) as [tt ->].
  simpl. unfold preferred_delta.
  pose proof (lowered_member (default [] (day sh)) (pref_days p)) as Hd.
  pose proof (lowered_member (default [] (time_slot sh)) (pref_times p)) as Ht.
  repeat split.
  - intros ->. simpl. lia.
  - intros H%Hd. destruct (lower <$> pref_days p); [lia|].
    rewrite bool_decide_eq_true_2 by done. lia.
  - intros Hne H. destruct (pref_days p) as [|x l] eqn:E; [done|].
    rewrite fmap_cons, <- fmap_cons, bool_decide_eq_false_2; [lia|]. by rewrite Hd.
  - intros ->. simpl. lia.
  - intros H%Ht. destruct (lower <$> pref_times p); [lia|].
    rewrite bool_decide_eq_true_2 by done. lia.
  - intros Hne H. destruct (pref_times p) as [|x l] eqn:E; [done|].
    rewrite fmap_cons, <- fmap_cons, bool_decide_eq_false_2; [lia|]. by rewrite Ht.
Qed.

Lemma day_and_time_terms_witness :
  Exists (same_ignoring_case (default [] (day saturday_shift))) (pref_days shouted_preferences)
  ∧ base (day_step (matcher_of shouted_preferences) saturday_shift tally0) = 100%Z.
Proof.
  assert (Exists (same_ignoring_case (default [] (day saturday_shift)))
            (pref_days shouted_preferences)) as H.
  { apply Exists_cons_hd. vm_compute. reflexivity. }
  split; [exact H|].
  exact (proj1 (proj2 (day_and_time_terms shouted_preferences saturday_shift tally0)) H).
Defined.

Lemma slots_delta_ext sh sh' : slots sh = slots sh' → slots_delta sh = slots_delta sh'.
Proof. unfold slots_delta, slots_int. by intros ->. Qed.

(** X5. The score does not depend on the case of the preferences or of the
    record: two preference sets whose days, times and ranked committees are
    equal up to case, and two records whose committee, day and time-of-day
    bucket are equal up to case and whose slots and time text are the same,
    get the same score. The excluded categories play no part in it. *)
Theorem score_ignores_case (p p' : preference_set) (sh sh' : shift) :
  lower <$> pref_days p = lower <$> pref_days p' →
  lower <$> pref_times p = lower <$> pref_times p' →
  lower <$> pref_committees p = lower <$> pref_committees p' →
  same_ignoring_case (default [] (committee sh)) (default [] (committee sh')) →
  same_ignoring_case (default [] (day sh)) (default [] (day sh')) →
  same_ignoring_case (default [] (time_slot sh)) (default [] (time_slot sh')) →
  slots sh = slots sh' → time_raw sh = time_raw sh' →
  ∃ r r', score (matcher_of p) sh = Ok r ∧ score (matcher_of p') sh' = Ok r'
          ∧ scored_score r = scored_score r'.
Proof.
  intros Hd Ht Hc Hsc Hsd Hst Hsl Htr.
  destruct (score_total p sh) as [r Hr]. destruct (score_total p' sh') as [r' Hr'].
  exists r, r'. split; [done|]. split; [done|].
  apply score_tally in Hr as (cl & _ & _ & _ & _ & lt & Hcl & _ & -> & _ & Hl).
  apply score_tally in Hr' as (cl' & _ & _ & _ & _ & lt' & Hcl' & _ & -> & _ & Hl').
  simpl in Hcl, Hcl'. rewrite lowered_names in Hcl, Hcl'.
  injection Hcl as <-. injection Hcl' as <-.
  unfold same_ignoring_case in *. simpl days. simpl times.
  rewrite Hd, Ht, Hc, Hsc, Hsd, Hst, (slots_delta_ext sh sh' Hsl).
  rewrite Htr in Hl.
  assert ((if lt is Some _ then -10 else 0)%Z = (if lt' is Some _ then -10 else 0)%Z) as ->;
    [|done].
  destruct Hl as [[-> Hl]|[-> Hl]], Hl' as [[-> Hl']|[-> Hl']]; done.
Qed.

Lemma score_ignores_case_witness :
  ∃ r r', score (matcher_of plain_preferences) saturday_shift = Ok r
          ∧ score (matcher_of shouted_preferences) saturday_shift = Ok r'
          ∧ scored_score r = scored_score r'.
Proof.
  apply (score_ignores_case plain_preferences shouted_preferences
           saturday_shift saturday_shift); reflexivity.
Defined.

Lemma bucket_overnight hour : bucket hour = py "Overnight" ↔ (21 ≤ hour)%Z.
Proof.
  unfold bucket.
  destruct (Z.ltb_spec hour 12); [split; [by vm_compute | lia]|].
  destruct (Z.ltb_spec hour 17); [split; [by vm_compute | lia]|].
  destruct (Z.ltb_spec hour 21); [split; [by vm_compute | lia]|].
  split; [lia | done].
Qed.

Lemma is_late_overnight raw : is_late raw ↔ _classify_time raw = Ok (py "Overnight").
Proof.
  split.
  - intros (h & a & Hfirst & Hge).
    destruct (first_time_search raw h a Hfirst) as (mm & z & Hm & Hl & Hd & Ha & Hz).
    rewrite (classify_bucket raw _ _ Hm (slot_hour_spec h mm a z Hl Hd Ha Hz)).
    f_equal. by apply bucket_overnight.
  - intros Hc. destruct (re_search time_re raw) as [m|] eqn:Hm.
    + destruct (search_first_time raw m Hm) as (h & mm & a & z & -> & Hfirst & Hl & Hd & Ha & Hz).
      rewrite (classify_bucket raw _ _ Hm (slot_hour_spec h mm a z Hl Hd Ha Hz)) in Hc.
      exists h, a. split; [done|]. apply bucket_overnight. congruence.
    + unfold _classify_time in Hc. rewrite Hm in Hc. vm_compute in Hc. discriminate.
Qed.

(** X6. The late-evening penalty and the bucket Overnight go together: the
    score of a record has the entry late exactly when [_classify_time] puts
    its time text in the bucket Overnight. *)
Theorem late_iff_overnight (self : ShiftMatcher) (sh : shift) (r : scored) :
  score self sh = Ok r →
  (dict_get "late" (scored_breakdown r) = Some (py "Late evening shift (-10%)")
   ↔ _classify_time (default [] (time_raw sh)) = Ok (py "Overnight"))
  ∧ (dict_get "late" (scored_breakdown r) = None
     ↔ _classify_time (default [] (time_raw sh)) ≠ Ok (py "Overnight")).
Proof.
  intros (cl & c & d & t & s & lt & _ & _ & _ & -> & Hl)%score_tally.
  rewrite <- is_late_overnight.
  destruct Hl as [[-> Hl]|[-> Hl]]; simpl; split; split; done.
Qed.

Lemma late_iff_overnight_witness :
  ∃ r, score (matcher_of plain_preferences) late_shift = Ok r
       ∧ _classify_time (default [] (time_raw late_shift)) = Ok (py "Overnight")
       ∧ dict_get "late" (scored_breakdown r) = Some (py "Late evening shift (-10%)").
Proof.
  assert (∃ r, score (matcher_of plain_preferences) late_shift = Ok r) as [r Hr]
    by (eexists; vm_compute; reflexivity).
  exists r. split; [exact Hr|]. split; [vm_compute; reflexivity|].
  apply (proj1 (late_iff_overnight _ _ _ Hr)). vm_compute. reflexivity.
Defined.

(** ** The ranker, continued *)

Lemma insert_scored_head x l :
  Forall (ge_score x) l → insert_scored x l = x :: l.
Proof.
  intros H. destruct H as [|y l Hy _]; simpl; [done|].
  unfold ge_score in Hy. destruct (Z.ltb_spec (scored_score x) (scored_score y)); [lia | done].
Qed.

Lemma sort_by_score_sorted_id l : StronglySorted ge_score l → sort_by_score l = l.
Proof.
  induction 1 as [|x l Hs IH Hx]; simpl; [done|].
  rewrite IH. by apply insert_scored_head.
Qed.

Lemma score_all_fixed self out :
  Forall (fun r => score self (scored_shift r) = Ok r) out →
  score_all self (scored_shift <$> out) = Ok out.
Proof.
  induction 1 as [|r out Hr _ IH]; [done|].
  rewrite fmap_cons. simpl. rewrite Hr. simpl. by rewrite IH.
Qed.

Lemma score_carries_shift self s r : score self s = Ok r → scored_shift r = s.
Proof. by intros (? & ? & ? & ? & ? & ? & _ & H & _)%score_tally. Qed.

(** What [rank] computes on a preference set. *)
Lemma rank_unfold p shifts_v :
  ∃ results,
    score_all (matcher_of p) (filter (fun s => ¬ excluded_category p s) shifts_v) = Ok results
    ∧ rank (matcher_of p) shifts_v = Ok (sort_by_score results)
    ∧ scored_shift <$> results = filter (fun s => ¬ excluded_category p s) shifts_v
    ∧ Forall (fun r => score (matcher_of p) (scored_shift r) = Ok r) results.
Proof.
  assert (filter (fun s => kept (matcher_of p) s = true) shifts_v
          = filter (fun s => ¬ excluded_category p s) shifts_v) as Hf.
  { apply list_filter_iff. exact (kept_spec p). }
  destruct (score_all_total p (filter (fun s => ¬ excluded_category p s) shifts_v))
    as [results Hres].
  exists results. split; [done|]. split; [unfold rank; by rewrite Hf, Hres|].
  apply score_all_each in Hres. clear Hf.
  induction Hres as [|s r l rs Hsr _ IH]; [split; [done | constructor]|].
  destruct IH as [IH1 IH2]. pose proof (score_carries_shift _ _ _ Hsr) as Heq.
  split.
  - rewrite fmap_cons. by rewrite IH1, Heq.
  - constructor; [by rewrite Heq | done].
Qed.

(** X7. Ranking is stable under repetition: ranking again the records of a
    ranked list, with the same preferences, returns that list, in the same
    order and with the same scores and breakdowns. *)
Theorem rank_again_same (p : preference_set) (shifts_v : list shift) :
  ∃ out, rank (matcher_of p) shifts_v = Ok out
         ∧ rank (matcher_of p) (scored_shift <$> out) = Ok out.
Proof.
  destruct (rank_unfold p shifts_v) as (results & _ & Hrank & Hshifts & Hfixed).
  exists (sort_by_score results). split; [done|].
  assert (Forall (fun r => score (matcher_of p) (scored_shift r) = Ok r)
            (sort_by_score results)) as Hfixed'.
  { apply Forall_forall. intros r Hr. rewrite sort_by_score_perm in Hr.
    rewrite Forall_forall in Hfixed. by apply Hfixed. }
  assert (Forall (fun s => kept (matcher_of p) s = true)
            (scored_shift <$> sort_by_score results)) as Hkept.
  { apply Forall_forall. intros s Hs. rewrite sort_by_score_perm, Hshifts in Hs.
    apply list_elem_of_filter in Hs as [Hs _]. by apply kept_spec. }
  unfold rank.
  replace (filter (fun s => kept (matcher_of p) s = true)
             (scored_shift <$> sort_by_score results))
    with (scored_shift <$> sort_by_score results).
  - rewrite (score_all_fixed _ _ Hfixed'). simpl. f_equal.
    apply sort_by_score_sorted_id, sort_by_score_sorted.
  - symmetry. clear -Hkept.
    induction Hkept as [|s l Hs _ IH]; [done|].
    rewrite filter_cons_True by done. by rewrite IH.
Qed.

Lemma filter_insert_scored (P : scored → Prop) `{!∀ r, Decision (P r)} x l :
  StronglySorted ge_score l →
  filter P (insert_scored x l)
  = if decide (P x) then insert_scored x (filter P l) else filter P l.
Proof.
  induction 1 as [|y l Hs IH Hy]; simpl.
  - rewrite filter_cons, filter_nil. by destruct (decide (P x)).
  - destruct (Z.ltb_spec (scored_score x) (scored_score y)) as [Hlt|Hge].
    + rewrite !filter_cons, IH. destruct (decide (P y)), (decide (P x)); try done.
      simpl. by destruct (Z.ltb_spec (scored_score x) (scored_score y)); [|lia].
    + rewrite filter_cons. destruct (decide (P x)); [|done].
      symmetry. apply insert_scored_head.
      apply Forall_forall. intros z [_ Hz]%list_elem_of_filter.
      unfold ge_score in *. apply elem_of_cons in Hz as [->|Hz]; [lia|].
      rewrite Forall_forall in Hy. specialize (Hy z Hz). simpl in Hy. lia.
Qed.

Lemma filter_sort_by_score (P : scored → Prop) `{!∀ r, Decision (P r)} l :
  filter P (sort_by_score l) = sort_by_score (filter P l).
Proof.
  induction l as [|x l IH]; [done|]. simpl.
  rewrite filter_insert_scored by apply sort_by_score_sorted.
  rewrite filter_cons, IH. by destruct (decide (P x)).
Qed.

Lemma score_all_filter self (Q : shift → Prop) `{!∀ s, Decision (Q s)} l rs :
  score_all self l = Ok rs →
  score_all self (filter Q l) = Ok (filter (fun r => Q (scored_shift r)) rs).
Proof.
  revert rs. induction l as [|s l IH]; simpl; intros rs Hrs.
  - by injection Hrs as <-.
  - destruct (score self s) as [r|] eqn:Hr; simpl in Hrs; [|done].
    destruct (score_all self l) as [rs'|]; simpl in Hrs; [|done].
    injection Hrs as <-. pose proof (score_carries_shift _ _ _ Hr) as Heq.
    rewrite !filter_cons, Heq. destruct (decide (Q s)).
    + simpl. rewrite Hr. simpl. by rewrite (IH rs').
    + by apply IH.
Qed.

Lemma score_without_exclusions p sh :
  score (matcher_of (without_exclusions p)) sh = score (matcher_of p) sh.
Proof. reflexivity. Qed.

Lemma score_all_without_exclusions p l :
  score_all (matcher_of (without_exclusions p)) l = score_all (matcher_of p) l.
Proof.
  induction l as [|s l IH]; [done|]. simpl.
  by rewrite score_without_exclusions, IH.
Qed.

(** X8. Exclusion only removes: ranking with excluded categories gives the
    list that ranking without any exclusion gives, less the results whose
    record has an excluded category; the results that remain keep their
    scores and their order. *)
Theorem rank_exclusion_only_removes (p : preference_set) (shifts_v : list shift) :
  ∃ out every,
    rank (matcher_of p) shifts_v = Ok out
    ∧ rank (matcher_of (without_exclusions p)) shifts_v = Ok every
    ∧ out = filter (fun r => ¬ excluded_category p (scored_shift r)) every.
Proof.
  destruct (rank_unfold (without_exclusions p) shifts_v) as (every & Hall & Hrank0 & _ & _).
  assert (filter (fun s => ¬ excluded_category (without_exclusions p) s) shifts_v = shifts_v)
    as Hid.
  { clear. induction shifts_v as [|s l IH]; [done|].
    rewrite filter_cons_True; [by rewrite IH|].
    unfold excluded_category. simpl. by intros ?%Exists_nil. }
  rewrite Hid, score_all_without_exclusions in Hall.
  destruct (rank_unfold p shifts_v) as (results & Hres & Hrank & _ & _).
  rewrite (score_all_filter _ (fun s => ¬ excluded_category p s) _ _ Hall) in Hres.
  injection Hres as <-.
  eexists _, _. split; [exact Hrank|]. split; [exact Hrank0|].
  by rewrite filter_sort_by_score.
Qed.

Lemma slice_to_take {A} (n : Z) (l : list A) :
  ∃ k, slice_to n l = take k l ∧ k ≤ length l
       ∧ ((0 ≤ n)%Z → k = Z.to_nat n `min` length l)
       ∧ ((n < 0)%Z → k = length l - Z.to_nat (- n)).
Proof.
  unfold slice_to. destruct (Z.ltb_spec n 0) as [Hn|Hn].
  - exists (length l - Z.to_nat (- n)). split; [done|]. split; [lia|]. split; [lia | done].
  - exists (Z.to_nat n `min` length l). split; [|split; [lia|split; [done | lia]]].
    destruct (decide (Z.to_nat n ≤ length l)) as [Hle|Hgt].
    + by rewrite Nat.min_l.
    + rewrite Nat.min_r by lia. rewrite firstn_all. apply take_ge. lia.
Qed.

(** X9. [top] returns a prefix of the ranking: its first n results when n is
    not negative (all of them when there are fewer than n), and all but the
    last -n when n is negative. No result left out scores higher than one
    that is returned, and the ranking holds one result for each record whose
    category is not excluded. *)
Theorem top_takes_the_best (p : preference_set) (shifts_v : list shift) (n : Z) :
  ∃ ranked k,
    rank (matcher_of p) shifts_v = Ok ranked
    ∧ top (matcher_of p) shifts_v n = Ok (take k ranked)
    ∧ length (take k ranked) = k
    ∧ ((0 ≤ n)%Z → k = Z.to_nat n `min` length ranked)
    ∧ ((n < 0)%Z → k = length ranked - Z.to_nat (- n))
    ∧ length ranked = length (filter (fun s => ¬ excluded_category p s) shifts_v)
    ∧ (∀ a b, a ∈ take k ranked → b ∈ drop k ranked →
              (scored_score b ≤ scored_score a)%Z).
Proof.
  destruct (rank_unfold p shifts_v) as (results & _ & Hrank & Hshifts & _).
  destruct (slice_to_take n (sort_by_score results)) as (k & Hk & Hle & Hpos & Hneg).
  exists (sort_by_score results), k. split; [done|].
  split; [unfold top; by rewrite Hrank, <- Hk|].
  split; [rewrite length_take; lia|]. split; [done|]. split; [done|]. split.
  - rewrite sort_by_score_perm, <- Hshifts. by rewrite length_fmap.
  - intros a b [i Hi]%list_elem_of_lookup [j Hj]%list_elem_of_lookup.
    pose proof (sorted_descending _ (sort_by_score_sorted results)) as Hdesc.
    apply lookup_take_Some in Hi as [Hi Hin]. rewrite lookup_drop in Hj.
    apply (Hdesc i (k + j)); [lia | done | done].
Qed.

(** * Further properties of the text classifiers *)

Lemma first_some_Some {A B} (f : A → option B) l r :
  first_some f l = Some r → ∃ a, a ∈ l ∧ f a = Some r.
Proof.
  induction l as [|a l IH]; simpl; [done|].
  destruct (f a) eqn:Hf.
  - intros [= ->]. exists a. split; [by left | done].
  - intros (b & Hb & Hfb)%IH. exists b. split; [by right | done].
Qed.

Lemma run_Alt ws k s st :
  run (Alt ws :: k) s st
  = first_some
      (fun w => if startswith s w then run k (drop (length w) s) (eat w st) else None) ws.
Proof. done. Qed.

Lemma is_day_name_prefix text :
  _is_day_name text = true →
  ∃ w, w ∈ DAY_ABBREVIATIONS ∧ take 3 (lower (strip text)) = w.
Proof.
  unfold _is_day_name. rewrite bool_decide_eq_true. intros [m Hm].
  unfold re_match, day_prefix_re in Hm. rewrite run_Open, run_Alt in Hm.
  fold DAY_ABBREVIATIONS in Hm.
  destruct (first_some _ _) as [[m' rest]|] eqn:Hrun; [|done].
  apply first_some_Some in Hrun as (w & Hw & Hrun).
  destruct (startswith (lower (strip text)) w) eqn:Hs; [|done].
  apply startswith_spec in Hs as [r Hr]. exists w. split; [done|].
  rewrite Hr. unfold DAY_ABBREVIATIONS in Hw.
  cbn [map] in Hw.
  repeat (apply elem_of_cons in Hw as [->|Hw]; [reflexivity|]).
  by apply elem_of_nil in Hw.
Qed.

(** X10. On a text that [_is_day_name] accepts, [_normalize_day] returns one
    of the seven day names, the one that begins, up to case, with the first
    three letters of the stripped text; the title-cased fallback is not
    taken. Both callers test [_is_day_name] or a day abbreviation first. *)
Theorem normalize_day_of_day_name (text : str) :
  _is_day_name text = true →
  _normalize_day text ∈ DAY_NAMES
  ∧ take 3 (lower (_normalize_day text)) = take 3 (lower (strip text)).
Proof.
  intros (w & Hw & Ht)%is_day_name_prefix. unfold _normalize_day. rewrite Ht.
  unfold DAY_ABBREVIATIONS in Hw. cbn [map] in Hw.
  repeat (apply elem_of_cons in Hw as [->|Hw];
          [split; [vm_compute; set_solver | vm_compute; reflexivity]|]).
  by apply elem_of_nil in Hw.
Qed.

Lemma normalize_day_of_day_name_witness :
  _is_day_name (py "  TUESDAY evening") = true
  ∧ _normalize_day (py "  TUESDAY evening") ∈ DAY_NAMES.
Proof.
  split; [vm_compute; reflexivity|].
  apply (normalize_day_of_day_name (py "  TUESDAY evening")). vm_compute. reflexivity.
Defined.

(** X11. [_fuzzy_committee] returns only names of the catalog, and a catalog
    name is matched to itself whatever its case and the whitespace around
    it: no earlier entry of the catalog takes it. *)
Theorem fuzzy_committee_catalog :
  (∀ text c, _fuzzy_committee text = Some c → c ∈ KNOWN_COMMITTEES)
  ∧ (∀ text c, c ∈ KNOWN_COMMITTEES → lower (strip text) = lower c →
               _fuzzy_committee text = Some c).
Proof.
  split.
  - intros text c [H _]%find_some. by apply list_elem_of_In.
  - intros text c Hc Ht. unfold _fuzzy_committee. rewrite Ht.
    unfold KNOWN_COMMITTEES in Hc. cbn [map] in Hc.
    repeat (apply elem_of_cons in Hc as [->|Hc]; [vm_compute; reflexivity|]).
    by apply elem_of_nil in Hc.
Qed.

Lemma fuzzy_committee_catalog_witness :
  py "Food Processing" ∈ KNOWN_COMMITTEES
  ∧ _fuzzy_committee (py " FOOD processing ") = Some (py "Food Processing").
Proof.
  assert (py "Food Processing" ∈ KNOWN_COMMITTEES) as H
    by (unfold KNOWN_COMMITTEES; simpl; set_solver).
  split; [exact H|].
  apply (proj2 fuzzy_committee_catalog (py " FOOD processing ") _ H).
  vm_compute. reflexivity.
Defined.

Lemma detect_header_key mapping idx c :
  detect_header mapping idx c
  = match header_key (lower (cell_text c)) with
    | Some k => <[k := idx]> mapping
    | None => mapping
    end.
Proof.
  unfold detect_header, header_key.
  repeat (match goal with |- context [if ?b then _ else _] => destruct b end; try done).
Qed.

Lemma detect_from_lookup key cells :
  ∀ idx (mapping : gmap string nat) i,
    detect_from idx cells mapping !! key = Some i ↔
    (∃ j, i = idx + j ∧ last_column_of key cells j)
    ∨ (mapping !! key = Some i
       ∧ ∀ j c, cells !! j = Some c → header_key (lower (cell_text c)) ≠ Some key).
Proof.
  induction cells as [|c cells IH]; intros idx mapping i; simpl.
  - split.
    + intros H. right. split; [done|]. intros j c Hj. done.
    + intros [(j & _ & (c & Hc & _) & _)|[H _]]; [done | done].
  - rewrite IH, detect_header_key. clear IH. split.
    + intros [(j & -> & (c' & Hc' & Hk') & Hlast)|[Hm Hnone]].
      * left. exists (S j). split; [lia|]. split; [by exists c'|].
        intros [|j'] c'' Hj Hc''; [lia|]. apply (Hlast j' c''); [lia | done].
      * destruct (header_key (lower (cell_text c))) as [k|] eqn:Hk.
        -- destruct (decide (k = key)) as [->|Hne].
           ++ rewrite lookup_insert_eq in Hm. injection Hm as <-.
              left. exists 0. split; [lia|]. split; [by exists c|].
              intros [|j'] c'' Hj Hc''; [lia|]. by apply (Hnone j' c'').
           ++ rewrite lookup_insert_ne in Hm by done. right. split; [done|].
              intros [|j] c' Hc'; [injection Hc' as <-; congruence | by apply (Hnone j)].
        -- right. split; [done|].
           intros [|j] c' Hc'; [injection Hc' as <-; congruence | by apply (Hnone j)].
    + intros [(j & -> & (c' & Hc' & Hk') & Hlast)|[Hm Hnone]].
      * destruct j as [|j].
        -- injection Hc' as <-. right. rewrite Hk', lookup_insert_eq.
           split; [f_equal; lia|]. intros j c'' Hc''. apply (Hlast (S j) c''); [lia | done].
        -- left. exists j. split; [lia|]. split; [by exists c'|].
           intros j' c'' Hj Hc''. apply (Hlast (S j') c''); [lia | done].
      * right. pose proof (Hnone 0 c eq_refl) as Hc. split.
        -- destruct (header_key (lower (cell_text c))) as [k|]; [|done].
           rewrite lookup_insert_ne; [done | congruence].
        -- intros j c' Hc'. by apply (Hnone (S j) c').
Qed.

(** X12. [_detect_headers] maps a key to a column exactly when that column
    is the last of the header row whose lower-cased text stands for the key;
    the index is a position of the row. A header text stands for one key
    only, the first of day, time, committee, slots and description with a
    keyword in it. *)
Theorem detect_headers_last_column (header_row : list cell) (key : string) (i : nat) :
  (_detect_headers header_row !! key = Some i ↔ last_column_of key header_row i)
  ∧ (_detect_headers header_row !! key = Some i → i < length header_row).
Proof.
  assert (_detect_headers header_row !! key = Some i ↔ last_column_of key header_row i) as H.
  { unfold _detect_headers. rewrite detect_from_lookup. split.
    - intros [(j & -> & Hj)|[Hm _]]; [done | by rewrite lookup_empty in Hm].
    - intros Hi. left. by exists i. }
  split; [exact H|].
  intros [(c & Hc & _) _]%H. by apply lookup_lt_Some in Hc.
Qed.

Lemma detect_headers_last_column_witness :
  _detect_headers example_header !! "day" = Some 2
  ∧ last_column_of "day" example_header 2.
Proof.
  assert (_detect_headers example_header !! "day" = Some 2) as H
    by (vm_compute; reflexivity).
  split; [exact H|].
  exact (proj1 (proj1 (detect_headers_last_column example_header "day" 2)) H).
Defined.

(** * Further properties of the table strategy *)

Lemma startswith_http_BASE href : startswith (BASE ++ href) (py "http") = true.
Proof. reflexivity. Qed.

Lemma find_signup_http cells :
  find_signup cells = [] ∨ startswith (find_signup cells) (py "http") = true.
Proof.
  induction cells as [|c cells IH]; cbn [find_signup]; [by left|].
  destruct (cell_href c) as [href|]; [|done].
  destruct (startswith href (py "http")) eqn:Hh.
  - rewrite !orb_true_r. by right.
  - rewrite orb_false_r. destruct (_ || _); [right; apply startswith_http_BASE | done].
Qed.

Lemma or_str_nonempty a b : b ≠ [] → or_str a b ≠ [].
Proof. unfold or_str. by destruct a. Qed.

Lemma randint_range lo width g :
  0 < width →
  lo ≤ (randint lo width g).1 < lo + width
  ∧ (randint lo width g).2 = {| draws := draws g; drawn := S (drawn g) |}.
Proof.
  intros Hw. unfold randint. simpl. split; [|done].
  pose proof (Nat.mod_upper_bound (draws g (drawn g)) width). lia.
Qed.

Lemma uint_chars_nonempty d : d ≠ Decimal.Nil → uint_chars d ≠ [].
Proof. by destruct d. Qed.

Lemma str_of_nat_nonempty n : str_of_nat n ≠ [].
Proof.
  unfold str_of_nat. apply uint_chars_nonempty.
  intros H. pose proof (Unsigned.of_to n) as Hn. rewrite H in Hn.
  destruct n; [|done]. done.
Qed.

(** What [_extract_shift] returns, field by field. *)
Lemma extract_shift_inv cells texts hmap cur tbl row g sh g' :
  _extract_shift cells texts hmap cur tbl row g = Ok (Some sh, g') →
  let v := scan_cells texts (header_values texts hmap cur) in
  ∃ slot desc,
    truthy (scan_time_raw v) || truthy (scan_committee v) = true
    ∧ _classify_time (scan_time_raw v) = Ok slot ∧ slot ∈ TIME_SLOTS
    ∧ length desc ≤ 200
    ∧ (truthy (scan_slots v) = true ∧ g' = g ∧ slots sh = Some (scan_slots v)
       ∨ truthy (scan_slots v) = false
         ∧ g' = {| draws := draws g; drawn := S (drawn g) |}
         ∧ ∃ n, 1 ≤ n ≤ 6 ∧ slots sh = Some (str_of_nat n))
    ∧ day sh = Some (if otruthy (scan_day v) then default [] (scan_day v)
                     else py "Unknown")
    ∧ time_raw sh = Some (scan_time_raw v) ∧ time_slot sh = Some slot
    ∧ committee sh = Some (or_str (scan_committee v) (py "General"))
    ∧ description sh = Some desc
    ∧ (∀ d, hmap ≠ ∅ → _safe_idx texts (hmap !! "description") = Some d → d ≠ [] →
            desc = take 200 d)
    ∧ signup_url sh = Some (find_signup cells)
    ∧ date sh = None ∧ status sh = None ∧ is_carrot sh = None
    ∧ source_table sh = Some (FromTable tbl) ∧ source_row sh = Some row
    ∧ shift_id sh = None.
Proof.
  intros H v. unfold _extract_shift in H.
  change (scan_cells texts _) with v in H.
  destruct (truthy (scan_time_raw v) || truthy (scan_committee v)) eqn:Hsig;
    cbn [negb] in H; [|done].
  destruct (classify_total (scan_time_raw v)) as (slot & Hslot & Hc).
  rewrite Hc in H. cbn [bind] in H.
  match type of H with context [take 200 ?d] => set (desc := d) in H end.
  exists slot, (take 200 desc). split; [done|]. split; [done|]. split; [done|].
  split; [rewrite length_take; lia|].
  assert (∀ d, hmap ≠ ∅ → _safe_idx texts (hmap !! "description") = Some d → d ≠ [] →
               take 200 desc = take 200 d) as Hdesc.
  { intros d Hne Hd Hd'. unfold desc. rewrite bool_decide_eq_true_2 by done.
    rewrite Hd. cbn [default]. unfold or_str. destruct d; [done|]. by cbn [truthy]. }
  destruct (truthy (scan_slots v)) eqn:Hsl.
  - injection H as <- <-. repeat split; try done. by left.
  - pose proof (randint_range 1 6 g ltac:(lia)) as [Hr Hg].
    destruct (randint 1 6 g) as [n g1]. simpl in Hr, Hg. subst g1.
    injection H as <- <-. repeat split; try done.
    right. split; [done|]. split; [done|]. exists n. split; [lia | done].
Qed.

Lemma scan_time_keep texts v :
  truthy (scan_time_raw v) = true →
  scan_time_raw (scan_cells texts v) = scan_time_raw v.
Proof.
  revert v. induction texts as [|txt texts IH]; intros v Hv; [done|].
  unfold scan_cells in *. simpl.
  assert (scan_time_raw (scan_cell txt v) = scan_time_raw v) as Hstep.
  { unfold scan_cell. simpl. by rewrite Hv. }
  rewrite IH; [done|]. by rewrite Hstep.
Qed.

Lemma scan_slots_keep texts v :
  truthy (scan_slots v) = true →
  scan_slots (scan_cells texts v) = scan_slots v.
Proof.
  revert v. induction texts as [|txt texts IH]; intros v Hv; [done|].
  unfold scan_cells in *. simpl.
  assert (scan_slots (scan_cell txt v) = scan_slots v) as Hstep.
  { unfold scan_cell. simpl. by rewrite Hv. }
  rewrite IH; [done|]. by rewrite Hstep.
Qed.

Lemma scan_day_keep texts v :
  otruthy (scan_day v) = true →
  scan_day (scan_cells texts v) = scan_day v.
Proof.
  revert v. induction texts as [|txt texts IH]; intros v Hv; [done|].
  unfold scan_cells in *. simpl.
  assert (scan_day (scan_cell txt v) = scan_day v) as Hstep.
  { unfold scan_cell. simpl. by rewrite Hv. }
  rewrite IH; [done|]. by rewrite Hstep.
Qed.

Lemma truthy_nonempty (s : str) : s ≠ [] → truthy s = true.
Proof. by destruct s. Qed.

(** X13. In a row of the table strategy the values that come with the table
    are kept: the day carried from a section row stands, even when the row
    has a day column; failing that the cell of the day column stands; the
    non-empty cells of the time, committee, slots and description columns
    stand (the description cut to 200 characters); the scan of the cells
    replaces none of them, and no random draw is made when the slots column
    gives a value. *)
Theorem header_values_stand (cells : list cell) (texts : list str)
    (hmap : gmap string nat) (cur : option str) (tbl row : nat) (g : rng)
    (sh : shift) (g' : rng) :
  _extract_shift cells texts hmap cur tbl row g = Ok (Some sh, g') →
  (otruthy cur = true → day sh = cur)
  ∧ (hmap ≠ ∅ → ∀ v, v ≠ [] →
       (otruthy cur = false → _safe_idx texts (hmap !! "day") = Some v → day sh = Some v)
       ∧ (_safe_idx texts (hmap !! "time") = Some v → time_raw sh = Some v)
       ∧ (_safe_idx texts (hmap !! "committee") = Some v → committee sh = Some v)
       ∧ (_safe_idx texts (hmap !! "slots") = Some v → slots sh = Some v ∧ g' = g)
       ∧ (_safe_idx texts (hmap !! "description") = Some v →
          description sh = Some (take 200 v))).
Proof.
  intros H. apply extract_shift_inv in H. cbv zeta in H.
  destruct H as (slot & desc & _ & _ & _ & _ & Hslots & Hday & Htime & _ & Hcomm
                 & Hdesc & Hdesc' & _).
  split.
  - intros Hcur. rewrite Hday, scan_day_keep.
    + unfold header_values. destruct (bool_decide _); simpl; rewrite ?Hcur;
        destruct cur; simpl in *; done.
    + unfold header_values. destruct (bool_decide _); simpl; by rewrite ?Hcur.
  - intros Hne v Hv. pose proof (truthy_nonempty v Hv) as Htv.
    unfold header_values in *. rewrite bool_decide_eq_true_2 in * by done.
    repeat split.
    + intros Hcur Hd. rewrite Hday, scan_day_keep; simpl; rewrite Hcur, Hd; simpl;
        by rewrite ?Htv.
    + intros Ht. rewrite Htime, scan_time_keep; simpl; rewrite Ht; simpl;
        unfold or_str; by rewrite ?Htv.
    + intros Hc. rewrite Hcomm, scan_committee_keep; simpl; rewrite Hc; simpl;
        unfold or_str; by rewrite ?Htv.
    + destruct Hslots as [(Hs & _ & ->)|(Hs & _)].
      * rewrite scan_slots_keep; simpl; rewrite H; simpl; unfold or_str; by rewrite ?Htv.
      * rewrite scan_slots_keep in Hs; simpl; simpl in Hs; rewrite H in *; simpl in *;
          unfold or_str in *; rewrite ?Htv in *; done.
    + destruct Hslots as [(Hs & -> & _)|(Hs & _)]; [done|].
      rewrite scan_slots_keep in Hs; simpl; simpl in Hs; rewrite H in *; simpl in *;
        unfold or_str in *; rewrite ?Htv in *; done.
    + intros Hd. rewrite Hdesc. f_equal. by apply Hdesc'.
Qed.

Lemma header_values_stand_witness :
  ∃ sh g',
    _extract_shift (default [] (example_table !! 2)) (cell_text <$> default [] (example_table !! 2))
      (_detect_headers (default [] (example_table !! 0))) (Some (py "Tuesday")) 0 2 rng0
    = Ok (Some sh, g')
    ∧ day sh = Some (py "Tuesday") ∧ time_raw sh = Some (py "5:00PM")
    ∧ slots sh = Some (py "4") ∧ g' = rng0.
Proof.
  assert (∃ sh g',
    _extract_shift (default [] (example_table !! 2)) (cell_text <$> default [] (example_table !! 2))
      (_detect_headers (default [] (example_table !! 0))) (Some (py "Tuesday")) 0 2 rng0
    = Ok (Some sh, g')) as (sh & g' & H) by (eexists _, _; vm_compute; reflexivity).
  exists sh, g'. split; [exact H|].
  destruct (header_values_stand _ _ _ _ _ _ _ _ _ H) as [Hday Hcols].
  assert (_detect_headers (default [] (example_table !! 0)) ≠ ∅) as Hne.
  { intros E. apply (f_equal (fun m => m !! "day")) in E. vm_compute in E. discriminate. }
  split; [by apply Hday|].
  split; [apply (Hcols Hne (py "5:00PM")); [done | vm_compute; reflexivity]|].
  apply (Hcols Hne (py "4")); [done | vm_compute; reflexivity].
Defined.

Lemma extract_shift_none cells texts hmap cur tbl row g g' :
  _extract_shift cells texts hmap cur tbl row g = Ok (None, g') → g' = g.
Proof.
  unfold _extract_shift.
  match goal with |- context [scan_cells texts ?v0] => set (v := scan_cells texts v0) end.
  destruct (negb _); [by intros [= <-]|].
  destruct (classify_total (scan_time_raw v)) as (slot & _ & ->). cbn [bind].
  destruct (truthy (scan_slots v)); [|destruct (randint 1 6 g)]; done.
Qed.

(** An invariant of the state of the table strategy that every emitted
    record keeps is kept by the whole run. *)
Lemma parse_tables_invariant (I : pstate → Prop) :
  (∀ st cd, I st →
     I {| shifts := shifts st; counter := counter st; current_day := cd; gen := gen st |}) →
  (∀ hmap tbl row cells st sh g',
     I st → 2 ≤ length cells →
     _extract_shift cells (cell_text <$> cells) hmap (current_day st) tbl row (gen st)
     = Ok (Some sh, g') →
     I {| shifts := shifts st ++ [set_id (py "shift_" ++ fmt_03d (S (counter st))) sh];
          counter := S (counter st); current_day := current_day st; gen := g' |}) →
  ∀ tables idx st st', I st → parse_tables idx tables st = Ok st' → I st'.
Proof.
  intros Hday Hemit.
  assert (∀ hmap tbl row cells st st',
            I st → parse_row hmap tbl row cells st = Ok st' → I st') as Hrow.
  { intros hmap tbl row cells st st' Hst. unfold parse_row.
    destruct (Nat.eqb_spec (length cells) 1) as [H1|H1].
    - destruct cells as [|c [|c' cells]]; try done. cbn [map item lookup list_lookup bind].
      destruct (_is_day_name (cell_text c)); cbn [bind length Nat.ltb Nat.leb].
      + intros [= <-]. by apply Hday.
      + by intros [= <-].
    - cbn [bind]. destruct (Nat.ltb_spec (length cells) 2); [by intros [= <-]|].
      change (map cell_text cells) with (cell_text <$> cells).
      destruct (_extract_shift _ _ _ _ _ _ _) as [[[sh|] g']|] eqn:He; cbn [bind]; [| |done].
      + intros [= <-]. by apply (Hemit hmap tbl row cells).
      + intros [= <-]. apply extract_shift_none in He as ->. by destruct st. }
  assert (∀ hmap tbl rows row st st',
            I st → parse_rows hmap tbl row rows st = Ok st' → I st') as Hrows.
  { intros hmap tbl rows. induction rows as [|r rows IH]; intros row st st' Hst; simpl.
    - by intros [= <-].
    - destruct (parse_row hmap tbl row r st) as [st1|] eqn:H1; cbn [bind]; [|done].
      apply IH. by apply (Hrow hmap tbl row r st). }
  intros tables. induction tables as [|t tables IH]; intros idx st st' Hst; simpl.
  - by intros [= <-].
  - destruct (parse_table idx t st) as [st1|] eqn:H1; cbn [bind]; [|done].
    apply IH. unfold parse_table in H1. destruct t as [|header data].
    + by injection H1 as <-.
    + eapply Hrows; [|exact H1]. by apply Hday.
Qed.

Lemma parse_shifts_Forall (P : shift → Prop) tables g l g' :
  (∀ hmap tbl row cells cur g1 sh g2 v,
     2 ≤ length cells →
     _extract_shift cells (cell_text <$> cells) hmap cur tbl row g1 = Ok (Some sh, g2) →
     P (set_id v sh)) →
  _parse_shifts tables g = Ok (l, g') → Forall P l.
Proof.
  intros HP. unfold _parse_shifts.
  destruct (parse_tables 0 tables _) as [st|] eqn:Hst; cbn [bind]; [|done].
  intros [= <- <-].
  apply (parse_tables_invariant (fun st => Forall P (shifts st))) in Hst; [done| | |].
  - by intros st0 cd.
  - intros hmap tbl row cells st0 sh g2 Hst0 Hlen He. simpl.
    apply Forall_app. split; [done|]. constructor; [|constructor].
    by eapply HP.
  - constructor.
Qed.

Lemma table_record_well_formed cells texts hmap cur tbl row g sh g' v :
  _extract_shift cells texts hmap cur tbl row g = Ok (Some sh, g') →
  well_formed_record (set_id v sh).
Proof.
  intros H. apply extract_shift_inv in H. cbv zeta in H.
  destruct H as (slot & desc & _ & Hc & Hslot & Hlen & Hslots & Hday & Htime & Hts
                 & Hcomm & Hdesc & _ & Hurl & _).
  unfold well_formed_record. simpl.
  destruct Hslots as [(Hs & _ & Hsl)|(_ & _ & n & _ & Hsl)].
  - eexists _, _, _, _, _, _, _. repeat split; try eassumption.
    + destruct (scan_day _) as [[|]|]; done.
    + by apply or_str_nonempty.
    + apply find_signup_http.
    + by destruct (scan_slots _).
  - eexists _, _, _, _, _, _, _. repeat split; try eassumption.
    + destruct (scan_day _) as [[|]|]; done.
    + by apply or_str_nonempty.
    + apply find_signup_http.
    + apply str_of_nat_nonempty.
Qed.

(** One turn of the loop over the rows: a row that emits nothing leaves the
    generator as it was; a row that emits a record advances it by one draw at
    most. *)
Lemma parse_row_draws hmap tbl row cells st st' :
  parse_row hmap tbl row cells st = Ok st' →
  draws (gen st') = draws (gen st)
  ∧ ((shifts st' = shifts st ∧ gen st' = gen st)
     ∨ (∃ sh, shifts st' = shifts st ++ [sh]
              ∧ drawn (gen st) ≤ drawn (gen st') ≤ S (drawn (gen st)))).
Proof.
  unfold parse_row.
  destruct (Nat.eqb_spec (length cells) 1) as [H1|H1].
  - destruct cells as [|c [|c' cells]]; try done. cbn [map item lookup list_lookup bind].
    destruct (_is_day_name (cell_text c)); cbn [bind length Nat.ltb Nat.leb].
    + intros [= <-]. split; [done|]. by left.
    + intros [= <-]. split; [done|]. by left.
  - cbn [bind]. destruct (Nat.ltb_spec (length cells) 2).
    { intros [= <-]. split; [done|]. by left. }
    change (map cell_text cells) with (cell_text <$> cells).
    destruct (_extract_shift _ _ _ _ _ _ _) as [[[sh|] g']|] eqn:He; cbn [bind]; [| |done].
    + intros [= <-]. cbn [shifts gen].
      apply extract_shift_inv in He. cbv zeta in He.
      destruct He as (_ & _ & _ & _ & _ & _ & [(_ & -> & _)|(_ & -> & _)] & _).
      * split; [done|]. right. eexists. split; [done|]. lia.
      * split; [done|]. right. eexists. split; [done|]. simpl. lia.
    + intros [= <-]. cbn [shifts gen]. apply extract_shift_none in He as ->.
      split; [done|]. left. by destruct st.
Qed.

(** X15. The table strategy makes at most one random draw for each record it
    emits and none for the rows it rejects or skips: a turn of its loop over
    the rows that adds no record leaves the generator as it was, and a turn
    that adds a record advances it by one draw at most. So a run over any
    tables advances the generator by no more than the number of records it
    returns; it reads the draws in order and changes none. *)
Theorem table_draws_at_most_one_per_record (tables : list (list (list cell))) (g : rng) :
  (∃ l g', _parse_shifts tables g = Ok (l, g')
           ∧ draws g' = draws g
           ∧ drawn g ≤ drawn g' ≤ drawn g + length l)
  ∧ (∀ hmap tbl row cells st st',
       parse_row hmap tbl row cells st = Ok st' →
       draws (gen st') = draws (gen st)
       ∧ ((shifts st' = shifts st ∧ gen st' = gen st)
          ∨ (∃ sh, shifts st' = shifts st ++ [sh]
                   ∧ drawn (gen st) ≤ drawn (gen st') ≤ S (drawn (gen st))))).
Proof.
  split; [|apply parse_row_draws].
  destruct (parse_shifts_total tables g) as (l & g' & H & _). exists l, g'.
  split; [done|]. unfold _parse_shifts in H.
  destruct (parse_tables 0 tables _) as [st|] eqn:Hst; cbn [bind] in H; [|done].
  injection H as <- <-.
  apply (parse_tables_invariant
           (fun st => draws (gen st) = draws g
                      ∧ drawn g ≤ drawn (gen st) ≤ drawn g + length (shifts st))) in Hst;
    [done| | |].
  - by intros st0 cd.
  - intros hmap tbl row cells st0 sh g2 (Hd & Hn) Hlen He. simpl.
    apply extract_shift_inv in He. cbv zeta in He.
    destruct He as (_ & _ & _ & _ & _ & _ & [(_ & -> & _)|(_ & -> & _)] & _);
      rewrite length_app; simpl; split; try done; lia.
  - simpl. split; [done | lia].
Qed.

Lemma uint_chars_digits d : digits (uint_chars d).
Proof. induction d; simpl; constructor; done. Qed.

(** [int(str(n))] is [n], for the numbers that are not too long for [int()]. *)
Lemma int_of_str_of_nat n :
  length (str_of_nat n) ≤ MAX_STR_DIGITS → int_of_str (str_of_nat n) = Some (Z.of_nat n).
Proof.
  intros Hlen.
  rewrite int_of_str_digits;
    [by rewrite digits_value_str_of_nat | apply uint_chars_digits
    | apply str_of_nat_nonempty | done].
Qed.

Lemma digits_re_nonempty s : is_Some (re_match digits_re s) → s ≠ [].
Proof.
  intros [m Hm]. unfold re_match, digits_re in Hm.
  destruct (run _ _ _) as [r|] eqn:Hrun; [|done].
  apply run_Rep_Some in Hrun as (k & Hk & _ & Hlen & _). intros ->.
  rewrite take_nil in Hlen. simpl in Hlen. lia.
Qed.

Lemma scan_slots_empty texts v :
  scan_slots (scan_cells texts v) = [] ↔
  scan_slots v = [] ∧ Forall (fun txt => re_match digits_re (strip txt) = None) texts.
Proof.
  revert v. induction texts as [|txt texts IH]; intros v.
  - split; [intros H; split; [done | constructor] | by intros [H _]].
  - change (scan_cells (txt :: texts) v) with (scan_cells texts (scan_cell txt v)).
    rewrite IH, Forall_cons. clear IH. unfold scan_cell. cbn [scan_slots].
    destruct (scan_slots v) as [|c s] eqn:Hv; cbn [truthy negb andb].
    + destruct (re_match digits_re (strip txt)) as [m|] eqn:Hm.
      * rewrite bool_decide_eq_true_2 by done. split.
        -- intros [Hs _]. by destruct (digits_re_nonempty (strip txt)); [rewrite Hm|].
        -- by intros (_ & ? & _).
      * rewrite bool_decide_eq_false_2 by (by intros [? ?]).
        split; [by intros [? ?] | by intros (? & ? & ?)].
    + split; by intros [? _].
Qed.

(** X14. When the table strategy finds no slot count for a row, neither in
    the slots column nor in a cell that holds only digits, the record gets
    one of the counts 1 to 6, taken from one random draw, and [int()] reads
    it back, so that [score] never reports it as unknown. When a count is
    found it is kept as found and no draw is made. *)
Theorem placeholder_slots (cells : list cell) (texts : list str)
    (hmap : gmap string nat) (cur : option str) (tbl row : nat) (g : rng)
    (sh : shift) (g' : rng) :
  _extract_shift cells texts hmap cur tbl row g = Ok (Some sh, g') →
  let found := scan_slots (scan_cells texts (header_values texts hmap cur)) in
  (found = [] ↔
     scan_slots (header_values texts hmap cur) = []
     ∧ Forall (fun txt => re_match digits_re (strip txt) = None) texts)
  ∧ (found ≠ [] → slots sh = Some found ∧ g' = g)
  ∧ (found = [] →
       ∃ n, 1 ≤ n ≤ 6 ∧ slots sh = Some (str_of_nat n)
            ∧ slots_int sh = Some (Z.of_nat n)
            ∧ draws g' = draws g ∧ drawn g' = S (drawn g)).
Proof.
  intros H found. split; [apply scan_slots_empty|].
  apply extract_shift_inv in H. cbv zeta in H.
  destruct H as (_ & _ & _ & _ & _ & _ & Hslots & _). fold found in Hslots.
  destruct Hslots as [(Hs & -> & Hsl)|(Hs & -> & n & Hn & Hsl)].
  - split; [done|]. intros E. rewrite E in Hs. done.
  - split; [intros Hne; by destruct found|]. intros _. exists n.
    split; [done|]. split; [done|]. split; [|done].
    unfold slots_int. rewrite Hsl. apply int_of_str_of_nat.
    do 7 (destruct n as [|n]; [vm_compute; lia|]). lia.
Qed.

Lemma placeholder_slots_witness :
  ∃ sh g',
    _extract_shift row_with_empty_cell (cell_text <$> row_with_empty_cell) ∅ None 0 1 rng0
    = Ok (Some sh, g')
    ∧ slots sh = Some (py "1") ∧ drawn g' = 1.
Proof.
  assert (∃ sh g',
    _extract_shift row_with_empty_cell (cell_text <$> row_with_empty_cell) ∅ None 0 1 rng0
    = Ok (Some sh, g')) as (sh & g' & H) by (eexists _, _; vm_compute; reflexivity).
  exists sh, g'. split; [exact H|].
  destruct (placeholder_slots _ _ _ _ _ _ _ _ _ H) as (_ & _ & Hnone).
  destruct (Hnone eq_refl) as (n & _ & _ & _ & _ & Hdrawn).
  split; [|exact Hdrawn].
  vm_compute in H. injection H as <- _. reflexivity.
Defined.

(** * Further properties of the grid strategy *)

Lemma parse_link_exact day_v date_v link st :
  ∃ slot, _classify_time (default [] (link_bold link)) = Ok slot ∧ slot ∈ TIME_SLOTS
    ∧ parse_link day_v date_v link st
      = Ok {| g_shifts := g_shifts st
                          ++ [link_shift day_v date_v link (S (g_counter st)) slot];
              g_counter := S (g_counter st) |}.
Proof.
  destruct (classify_total (default [] (link_bold link))) as (slot & Hslot & Hc).
  exists slot. split; [done|]. split; [done|].
  unfold parse_link, link_shift. rewrite Hc. cbn [bind].
  destruct (bool_decide (py "unavail" ∈ link_classes link));
    [|destruct (bool_decide (py "worker" ∈ link_classes link))]; reflexivity.
Qed.

Lemma parse_links_exact h links st :
  ∃ out, parse_links (parse_header h).1 (parse_header h).2 links st
         = Ok {| g_shifts := g_shifts st ++ out;
                 g_counter := g_counter st + length out |}
         ∧ Forall2 record_of ((fun l => (h, l)) <$> links) out.
Proof.
  revert st. induction links as [|link links IH]; intros st; simpl.
  - exists []. rewrite app_nil_r, Nat.add_0_r. destruct st. split; [done | constructor].
  - destruct (parse_link_exact (parse_header h).1 (parse_header h).2 link st)
      as (slot & Hc & Hslot & ->). cbn [bind].
    destruct (IH {| g_shifts := g_shifts st ++ [link_shift (parse_header h).1
                      (parse_header h).2 link (S (g_counter st)) slot];
                    g_counter := S (g_counter st) |}) as (out & -> & Hall).
    eexists (_ :: out). cbn [g_shifts g_counter length]. rewrite <- app_assoc.
    replace (g_counter st + S (length out)) with (S (g_counter st) + length out) by lia.
    split; [done|]. constructor; [|done]. by eexists _, slot.
Qed.

Lemma parse_columns_exact columns st :
  ∃ out, parse_columns columns st
         = Ok {| g_shifts := g_shifts st ++ out;
                 g_counter := g_counter st + length out |}
         ∧ Forall2 record_of (headed_links columns) out.
Proof.
  revert st. induction columns as [|col columns IH]; intros st.
  - exists []. rewrite app_nil_r, Nat.add_0_r. destruct st. split; [done | constructor].
  - rewrite headed_links_cons. simpl parse_columns. unfold parse_column.
    destruct (col_header col) as [h|].
    + destruct (parse_links_exact h (col_links col) st) as (out1 & H1 & Hall1).
      destruct (parse_header h) as [d dt] eqn:Hh. simpl in H1. rewrite H1. cbn [bind].
      destruct (IH {| g_shifts := g_shifts st ++ out1;
                      g_counter := g_counter st + length out1 |}) as (out2 & -> & Hall2).
      exists (out1 ++ out2). cbn [g_shifts g_counter].
      rewrite length_app, !app_assoc, Nat.add_assoc.
      split; [done|]. by apply Forall2_app.
    + cbn [bind]. simpl. by apply IH.
Qed.

(** The grid strategy returns the records of the links of the columns that
    have a header, in order. *)
Lemma parse_column_layout_exact page :
  ∃ out, _parse_column_layout page = Ok out
         ∧ Forall2 record_of (headed_links (default [] (page_grid page))) out.
Proof.
  unfold _parse_column_layout. destruct (page_grid page) as [columns|]; simpl.
  - destruct (parse_columns_exact columns {| g_shifts := []; g_counter := 0 |})
      as (out & -> & Hall). by exists out.
  - exists []. split; [done | constructor].
Qed.

Lemma link_flags_cases (link : shift_link) (P : bool → bool → bool → Prop) :
  (∀ u w k,
     (u = true ↔ py "unavail" ∈ link_classes link) →
     (w = true ↔ py "worker" ∈ link_classes link) →
     (k = true ↔ py "carrot" ∈ link_classes link) → P u w k) →
  P (bool_decide (py "unavail" ∈ link_classes link))
    (bool_decide (py "worker" ∈ link_classes link))
    (bool_decide (py "carrot" ∈ link_classes link)).
Proof. intros H. apply H; apply bool_decide_eq_true. Qed.

Lemma link_shift_follows_flags d dt link n slot :
  follows_flags link (link_shift d dt link n slot).
Proof.
  unfold follows_flags, link_shift. cbn [status slots is_carrot description default].
  pattern (bool_decide (py "unavail" ∈ link_classes link)),
          (bool_decide (py "worker" ∈ link_classes link)),
          (bool_decide (py "carrot" ∈ link_classes link)).
  apply link_flags_cases. intros u w k Hu Hw Hk.
  split; [intros Hin; apply Hu in Hin as ->; done|].
  split; [intros Hn Hin; apply Hw in Hin as ->; destruct u; [by destruct Hn; apply Hu | done]|].
  split; [intros Hn Hn'; destruct u; [by destruct Hn; apply Hu|];
          destruct w; [by destruct Hn'; apply Hw | done]|].
  split; [done|].
  intros part Hpart. rewrite <- contains_spec.
  rewrite <- Hu, <- Hw, <- Hk.
  repeat (apply elem_of_cons in Hpart as [->|Hpart]);
    [..| by apply elem_of_nil in Hpart];
    destruct u, w, k; vm_compute; split; intros H; try done;
    try (by destruct H as [[? ?]|[[? ?]|[? ?]]]); intuition.
Qed.

(** X16. The record of a grid link follows the flags of the link: an
    unavailable link gives status unavailable and 0 slots, also when a worker
    is assigned; a link with a worker gives filled and 0 slots; any other link
    gives available and 1 slot. The bonus flag is copied, and the description
    names each flag that is set and no other. *)
Theorem grid_records_follow_flags (tables : list (list (list cell)))
    (columns : list column) :
  ∃ out,
    _parse_column_layout {| page_tables := tables; page_grid := Some columns |} = Ok out
    ∧ Forall2 (fun hl sh => follows_flags hl.2 sh) (headed_links columns) out.
Proof.
  destruct (parse_column_layout_exact {| page_tables := tables; page_grid := Some columns |})
    as (out & Hout & Hall). simpl in Hall.
  exists out. split; [done|].
  eapply Forall2_impl; [exact Hall|].
  intros hl sh (n & slot & _ & _ & ->). apply link_shift_follows_flags.
Qed.

Lemma link_shift_slots_term d dt link n slot :
  grid_slots_term (link_shift d dt link n slot).
Proof.
  unfold grid_slots_term, link_shift, slots_step, slots_int. cbn [status slots].
  destruct (bool_decide (py "unavail" ∈ link_classes link));
    [|destruct (bool_decide (py "worker" ∈ link_classes link))].
  - right. split; [done|]. intros t. reflexivity.
  - right. split; [done|]. intros t. reflexivity.
  - left. split; [done|]. intros t. reflexivity.
Qed.

(** X17. Scoring a record of the grid strategy never leaves its slots
    unknown: an available link always loses 5 for having one slot left, and a
    filled or unavailable link gets the entry "0 slots available" with
    nothing added or taken. *)
Theorem grid_records_slots_term (tables : list (list (list cell)))
    (columns : list column) :
  ∃ out,
    _parse_column_layout {| page_tables := tables; page_grid := Some columns |} = Ok out
    ∧ Forall grid_slots_term out.
Proof.
  destruct (parse_column_layout_exact {| page_tables := tables; page_grid := Some columns |})
    as (out & Hout & Hall). simpl in Hall.
  exists out. split; [done|].
  eapply Forall2_Forall_r; [exact Hall|].
  apply Forall_forall. intros hl _ sh (n & slot & _ & _ & ->).
  apply link_shift_slots_term.
Qed.

Lemma grid_records_follow_flags_witness :
  ∃ sh sh', _parse_column_layout {| page_tables := []; page_grid := Some decorated_columns |}
            = Ok [sh; sh']
            ∧ status sh = Some (py "filled") ∧ slots sh = Some (py "0")
            ∧ status sh' = Some (py "available") ∧ slots sh' = Some (py "1").
Proof.
  destruct (grid_records_follow_flags [] decorated_columns) as (out & Hout & Hall).
  destruct out as [|sh [|sh' [|sh3 out]]];
    try (apply Forall2_length in Hall; discriminate Hall).
  exists sh, sh'. split; [exact Hout|].
  change (headed_links decorated_columns)
    with [(py "Sat 2/14/2026", decorated_link); (py "Sat 2/14/2026", a_link)] in Hall.
  apply Forall2_cons in Hall as [(_ & Hw & _) Hall].
  apply Forall2_cons in Hall as [(_ & _ & Ha & _) _].
  cbn [snd] in Hw, Ha.
  assert (status sh = Some (py "filled") ∧ slots sh = Some (py "0")) as [H1 H2]
    by (apply Hw; refine (bool_decide_unpack _ _); vm_compute; exact I).
  assert (status sh' = Some (py "available") ∧ slots sh' = Some (py "1")) as [H3 H4]
    by (apply Ha; refine (bool_decide_unpack _ _); vm_compute; exact I).
  done.
Defined.

(** A match keeps the groups closed before it and reads a prefix of the
    text. *)
Lemma run_extends p :
  ∀ s st m rest, run p s st = Some (m, rest) →
                 (∃ more, m = caps st ++ more) ∧ ∃ read, s = read ++ rest.
Proof.
  induction p as [|t p IH]; intros s st m rest H.
  - injection H as <- <-. split; [exists []; by rewrite app_nil_r | by exists []].
  - destruct t.
    + apply run_Cls_Some in H as (x & s' & -> & _ & H).
      destruct (IH _ _ _ _ H) as [Hc [read ->]]. split; [done | by exists (x :: read)].
    + apply run_Rep_Some in H as (k & _ & _ & _ & _ & H).
      destruct (IH _ _ _ _ H) as [Hc [read Hr]]. split; [done|].
      exists (take k s ++ read). by rewrite <- app_assoc, <- Hr, take_drop.
    + apply run_Lit_Some in H as (s' & -> & H).
      destruct (IH _ _ _ _ H) as [Hc [read ->]]. split; [done|].
      exists (w ++ read). by rewrite <- app_assoc.
    + rewrite run_Alt in H. apply first_some_Some in H as (w & _ & H).
      destruct (startswith s w) eqn:Hw; [|done].
      destruct (IH _ _ _ _ H) as [Hc [read Hr]]. split; [done|].
      exists (w ++ read). rewrite <- app_assoc, <- Hr. by apply startswith_drop.
    + rewrite run_Open in H. by destruct (IH _ _ _ _ H) as [Hc Hr].
    + rewrite run_Close in H. destruct (IH _ _ _ _ H) as [[more ->] Hr].
      split; [|done]. exists ([default [] (cur st)] ++ more).
      cbn [caps]. exact (eq_sym (app_assoc _ _ _)).
    + assert (run p s st = Some (m, rest)) as H'.
      { cbn [run] in H. repeat case_match; try done; by subst. }
      by destruct (IH _ _ _ _ H').
Qed.

(** The day read from the header of a column is one of the seven day names,
    or "Unknown". *)
Lemma parse_header_day h :
  (parse_header h).1 = py "Unknown" ∨ (parse_header h).1 ∈ DAY_NAMES.
Proof.
  unfold parse_header. destruct (re_match day_date_re h) as [m|] eqn:Hm; [|by left].
  right. cbn [fst]. unfold re_match, day_date_re in Hm.
  destruct (run _ _ _) as [[m' rest]|] eqn:Hrun; [|done].
  simpl in Hm. injection Hm as ->.
  rewrite run_Open, run_Alt in Hrun.
  apply first_some_Some in Hrun as (w & Hw & Hrun).
  destruct (startswith h w); [|done]. rewrite run_Close in Hrun.
  apply run_extends in Hrun as [[more ->] _].
  cbn [caps cur eat fmap option_fmap option_map default app group lookup list_lookup
       Nat.sub].
  cbn [map] in Hw.
  repeat (apply elem_of_cons in Hw as [->|Hw]; [vm_compute; set_solver|]).
  by apply elem_of_nil in Hw.
Qed.

Lemma day_names_nonempty d : d ∈ DAY_NAMES → d ≠ [].
Proof.
  unfold DAY_NAMES. cbn [map]. intros H.
  repeat (apply elem_of_cons in H as [->|H]; [done|]). by apply elem_of_nil in H.
Qed.

Lemma link_shift_well_formed h link n slot :
  _classify_time (default [] (link_bold link)) = Ok slot → slot ∈ TIME_SLOTS →
  well_formed_record (link_shift (parse_header h).1 (parse_header h).2 link n slot).
Proof.
  intros Hc Hslot. unfold well_formed_record, link_shift.
  cbn [day time_raw time_slot committee description signup_url slots].
  eexists _, _, _, _, _, _, _.
  split; [done|]. split.
  { destruct (parse_header_day h) as [->|Hd]; [done | by apply day_names_nonempty]. }
  split; [done|]. split; [done|]. split; [exact Hc|]. split; [done|].
  split; [done|]. split; [by apply or_str_nonempty|].
  split; [done|]. split.
  { apply Nat.leb_le.
    destruct (bool_decide (py "carrot" ∈ link_classes link)),
      (bool_decide (py "unavail" ∈ link_classes link)),
      (bool_decide (py "worker" ∈ link_classes link)); vm_compute; reflexivity. }
  split; [done|]. split.
  { destruct (truthy (strip (default [] (link_href link)))); [|by left].
    destruct (startswith (strip (default [] (link_href link))) (py "http")) eqn:Hh;
      right; [done | apply startswith_http_BASE]. }
  split; [done|].
  by destruct (bool_decide (py "unavail" ∈ link_classes link)),
       (bool_decide (py "worker" ∈ link_classes link)).
Qed.

(** X18. Every record an extraction returns, from either strategy, is well
    formed: its bucket is the one [_classify_time] gives for its time text
    and is one of the four buckets; its day, committee and slots are not
    empty; its description has at most 200 characters; its signup URL is
    empty or begins with http. *)
Theorem extracted_records_well_formed (page : soup) (debug_info : list str) (g : rng) :
  ∃ r g', get_shifts page debug_info g = Ok (r, g')
          ∧ Forall well_formed_record (parsed_shifts r).
Proof.
  destruct (get_shifts_cases page debug_info g)
    as (l & g' & Ht & _ & [[_ Hr] | [_ (lg & Hg & _ & Hr)]]).
  - eexists _, _. split; [exact Hr|]. cbn [parsed_shifts].
    eapply parse_shifts_Forall; [|exact Ht].
    intros hmap tbl row cells cur g1 sh g2 v _ He.
    by eapply table_record_well_formed.
  - eexists _, _. split; [exact Hr|]. cbn [parsed_shifts].
    destruct (parse_column_layout_exact page) as (out & Hout & Hall).
    rewrite Hg in Hout. injection Hout as <-.
    eapply Forall2_Forall_r; [exact Hall|].
    apply Forall_forall. intros hl _ sh (n & slot & Hc & Hslot & ->).
    by apply link_shift_well_formed.
Qed.

Lemma fuzzy_truthy txt cm : _fuzzy_committee txt = Some cm → truthy cm = true.
Proof.
  intros [H _]%find_some. apply list_elem_of_In in H.
  unfold KNOWN_COMMITTEES in H. cbn [map] in H.
  repeat (apply elem_of_cons in H as [->|H]; [done|]). by apply elem_of_nil in H.
Qed.

Lemma scan_committee_empty texts v :
  scan_committee (scan_cells texts v) = [] ↔
  scan_committee v = [] ∧ Forall (fun txt => _fuzzy_committee txt = None) texts.
Proof.
  revert v. induction texts as [|txt texts IH]; intros v.
  - split; [intros H; split; [done | constructor] | by intros [H _]].
  - change (scan_cells (txt :: texts) v) with (scan_cells texts (scan_cell txt v)).
    rewrite IH, Forall_cons. clear IH. unfold scan_cell. cbn [scan_committee].
    destruct (scan_committee v) as [|c s] eqn:Hv; cbn [truthy negb].
    + destruct (_fuzzy_committee txt) as [cm|] eqn:Hf.
      * rewrite (fuzzy_truthy _ _ Hf). split.
        -- intros [Hs _]. apply fuzzy_truthy in Hf. by rewrite Hs in Hf.
        -- by intros (_ & ? & _).
      * split; [by intros [? ?] | by intros (? & ? & ?)].
    + split; by intros [? _].
Qed.

Lemma scan_time_empty texts v :
  scan_time_raw (scan_cells texts v) = [] ↔
  scan_time_raw v = [] ∧ Forall (fun txt => re_search clock_re txt = None) texts.
Proof.
  revert v. induction texts as [|txt texts IH]; intros v.
  - split; [intros H; split; [done | constructor] | by intros [H _]].
  - change (scan_cells (txt :: texts) v) with (scan_cells texts (scan_cell txt v)).
    rewrite IH, Forall_cons. clear IH. unfold scan_cell. cbn [scan_time_raw].
    destruct (scan_time_raw v) as [|c s] eqn:Hv; cbn [truthy negb andb].
    + destruct (re_search clock_re txt) as [m|] eqn:Hm.
      * rewrite bool_decide_eq_true_2 by done. split.
        -- intros [-> _]. vm_compute in Hm. discriminate.
        -- by intros (_ & ? & _).
      * rewrite bool_decide_eq_false_2 by (by intros [? ?]).
        split; [by intros [? ?] | by intros (? & ? & ?)].
    + split; by intros [? _].
Qed.

(** X19. The table strategy rejects a data row exactly when it carries no
    time and no committee: the cells of the time and committee columns are
    empty or missing, no cell holds a clock time, and no cell matches a
    committee. As an empty cell matches a committee, a row with a blank cell
    is never rejected. A rejected row uses no random draw. *)
Theorem row_rejected_iff (cells : list cell) (texts : list str)
    (hmap : gmap string nat) (cur : option str) (tbl row : nat) (g : rng) :
  ((∃ g', _extract_shift cells texts hmap cur tbl row g = Ok (None, g')) ↔
   scan_time_raw (header_values texts hmap cur) = []
   ∧ scan_committee (header_values texts hmap cur) = []
   ∧ Forall (fun txt => re_search clock_re txt = None ∧ _fuzzy_committee txt = None) texts)
  ∧ (∀ g', _extract_shift cells texts hmap cur tbl row g = Ok (None, g') → g' = g)
  ∧ (Exists blanks texts →
     ∃ sh g', _extract_shift cells texts hmap cur tbl row g = Ok (Some sh, g')).
Proof.
  assert ((∃ g', _extract_shift cells texts hmap cur tbl row g = Ok (None, g')) ↔
          scan_time_raw (header_values texts hmap cur) = []
          ∧ scan_committee (header_values texts hmap cur) = []
          ∧ Forall (fun txt => re_search clock_re txt = None ∧ _fuzzy_committee txt = None)
              texts) as Hiff.
  { assert ((∃ g', _extract_shift cells texts hmap cur tbl row g = Ok (None, g')) ↔
            scan_time_raw (scan_cells texts (header_values texts hmap cur)) = []
            ∧ scan_committee (scan_cells texts (header_values texts hmap cur)) = []) as H1.
    { destruct (extract_shift_total cells texts hmap cur tbl row g) as (r & g1 & Hr & _).
      split.
      - intros [g' H]. rewrite Hr in H. injection H as -> _.
        unfold _extract_shift in Hr. fold (header_values texts hmap cur) in Hr.
        destruct (truthy (scan_time_raw _) || truthy (scan_committee _)) eqn:Hsig.
        + cbn [negb] in Hr.
          destruct (classify_total
                      (scan_time_raw (scan_cells texts (header_values texts hmap cur))))
            as (slot & _ & Hc).
          rewrite Hc in Hr. cbn [bind] in Hr.
          destruct (truthy (scan_slots _)); [|destruct (randint 1 6 g)]; done.
        + apply orb_false_elim in Hsig as [H1 H2].
          split; [by destruct (scan_time_raw _) | by destruct (scan_committee _)].
      - intros [Ht Hc]. exists g. unfold _extract_shift.
        fold (header_values texts hmap cur). by rewrite Hc, Ht. }
    rewrite H1, scan_time_empty, scan_committee_empty, Forall_and. tauto. }
  split; [exact Hiff|]. split; [apply extract_shift_none|].
  intros Hblank.
  destruct (extract_shift_total cells texts hmap cur tbl row g) as ([sh|] & g1 & Hr & _);
    [by exists sh, g1|].
  exfalso. destruct (proj1 Hiff (ex_intro _ g1 Hr)) as (_ & _ & Hall).
  apply Exists_exists in Hblank as (txt & Hin & Hb).
  rewrite Forall_forall in Hall. destruct (Hall txt Hin) as [_ Hf].
  rewrite fuzzy_blank in Hf by done. discriminate.
Qed.

Lemma row_rejected_iff_witness :
  Exists blanks (cell_text <$> row_with_empty_cell)
  ∧ ∃ sh g', _extract_shift row_with_empty_cell (cell_text <$> row_with_empty_cell)
               ∅ None 0 1 rng0 = Ok (Some sh, g').
Proof.
  assert (Exists blanks (cell_text <$> row_with_empty_cell)) as H.
  { apply Exists_cons_tl, Exists_cons_hd. constructor. }
  split; [exact H|].
  exact (proj2 (proj2 (row_rejected_iff row_with_empty_cell
                         (cell_text <$> row_with_empty_cell) ∅ None 0 1 rng0)) H).
Defined.

(** ** The label of a grid link *)

Lemma lstrip_suffix s : ∃ a, s = a ++ lstrip s.
Proof.
  induction s as [|c s [a IH]]; simpl; [by exists []|].
  destruct (is_space c); [|by exists []].
  exists (c :: a). simpl. by rewrite <- IH.
Qed.

Lemma lstrip_head s :
  match lstrip s with c :: _ => is_space c = false | [] => True end.
Proof.
  induction s as [|c s IH]; simpl; [done|].
  destruct (is_space c) eqn:Hc; [done | by simpl].
Qed.

Lemma strip_part s : ∃ a b, s = a ++ strip s ++ b.
Proof.
  unfold strip. destruct (lstrip_suffix s) as [a Ha].
  destruct (lstrip_suffix (rev (lstrip s))) as [b Hb].
  exists a, (rev b). rewrite <- rev_app_distr, <- Hb, rev_involutive. exact Ha.
Qed.

Lemma strip_Forall (P : char → Prop) s : Forall P s → Forall P (strip s).
Proof.
  destruct (strip_part s) as (a & b & Hs). intros H. rewrite Hs in H.
  by apply Forall_app in H as [_ [H _]%Forall_app].
Qed.

Lemma strip_ends s :
  match strip s with c :: _ => is_space c = false | [] => True end
  ∧ match rev (strip s) with c :: _ => is_space c = false | [] => True end.
Proof.
  unfold strip. rewrite rev_involutive. split; [|apply lstrip_head].
  destruct (lstrip_suffix (rev (lstrip s))) as [a Ha].
  pose proof (lstrip_head s) as Hh.
  apply (f_equal (@rev char)) in Ha. rewrite rev_involutive, rev_app_distr in Ha.
  destruct (rev (lstrip (rev (lstrip s)))) as [|c w]; [done|].
  rewrite Ha in Hh. exact Hh.
Qed.

Lemma strip_stars_suffix s : ∃ a, s = a ++ strip_stars s.
Proof.
  unfold strip_stars. destruct (run stars_re s mstate0) as [[m rest]|] eqn:H.
  - by destruct (run_extends _ _ _ _ _ H) as [_ Hr].
  - by exists [].
Qed.

Lemma committee_of_link_clean full_text time_raw_v :
  clean_label (committee_of_link full_text time_raw_v).
Proof.
  unfold clean_label, committee_of_link. split; [|apply strip_ends].
  apply strip_Forall.
  match goal with |- Forall _ (strip_stars ?x) =>
    destruct (strip_stars_suffix x) as [a Ha]; assert (Forall (fun c => is_emoji c = false) x) as Hx
  end.
  { apply strip_Forall. apply Forall_forall. by intros c [Hc _]%list_elem_of_filter. }
  rewrite Ha in Hx. by apply Forall_app in Hx as [_ Hx].
Qed.

(** X20. The committee of a record of the grid strategy is not empty, holds
    none of the glyphs of the ranges the strategy removes (the carrot among
    them) and has no whitespace at either end; it is "General" when nothing
    else is left of the text of the link. *)
Theorem grid_committee_clean (tables : list (list (list cell))) (columns : list column) :
  ∃ out,
    _parse_column_layout {| page_tables := tables; page_grid := Some columns |} = Ok out
    ∧ Forall2 (fun hl sh =>
         ∃ c, committee sh = Some c ∧ c ≠ [] ∧ clean_label c
              ∧ is_emoji carrot = true
              ∧ let label := committee_of_link (link_text hl.2)
                               (default [] (link_bold hl.2)) in
                (label = [] → c = py "General") ∧ (label ≠ [] → c = label))
       (headed_links columns) out.
Proof.
  destruct (parse_column_layout_exact {| page_tables := tables; page_grid := Some columns |})
    as (out & Hout & Hall). simpl in Hall.
  exists out. split; [done|].
  eapply Forall2_impl; [exact Hall|].
  intros hl sh (n & slot & _ & _ & ->). unfold link_shift. cbn [committee].
  eexists. split; [done|]. split; [by apply or_str_nonempty|].
  pose proof (committee_of_link_clean (link_text hl.2) (default [] (link_bold hl.2))) as Hc.
  unfold or_str.
  destruct (committee_of_link (link_text hl.2) (default [] (link_bold hl.2))) as [|c l];
    cbn [truthy].
  - split; [|done]. split; [|done].
    unfold clean_label. vm_compute. repeat constructor.
  - done.
Qed.

Lemma grid_committee_clean_witness :
  ∃ sh sh', _parse_column_layout {| page_tables := []; page_grid := Some decorated_columns |}
            = Ok [sh; sh']
            ∧ committee sh = Some (py "Bathroom").
Proof.
  destruct (grid_committee_clean [] decorated_columns) as (out & Hout & Hall).
  destruct out as [|sh [|sh' [|sh3 out]]];
    try (apply Forall2_length in Hall; discriminate Hall).
  exists sh, sh'. split; [exact Hout|].
  change (headed_links decorated_columns)
    with [(py "Sat 2/14/2026", decorated_link); (py "Sat 2/14/2026", a_link)] in Hall.
  apply Forall2_cons in Hall as [(c & Hc & _ & _ & _ & _ & Hlabel) _].
  rewrite Hc. f_equal. rewrite Hlabel; [vm_compute; reflexivity|].
  vm_compute. discriminate.
Defined.

(** ** Mock data *)










(** ** Examples beyond ASCII *)

(** Case mapping: accented letters, the Kelvin sign, the dotted capital I, the
    final sigma, and a title. *)
Example case_examples :
  lower cafe_capitals = lower cafe
  ∧ lower kelvin_stocking = py "stocking"
  ∧ lower [304%N] = [105; 775]%N
  ∧ lower [913; 931]%N = [945; 962]%N
  ∧ lower [913; 931; 913]%N = [945; 963; 945]%N
  ∧ upper [223%N] = py "SS"
  ∧ title [201; 84; 201]%N = [201; 116; 233]%N
  ∧ _normalize_day [233; 116; 233]%N = [201; 116; 233]%N.
Proof. repeat split; vm_compute; reflexivity. Qed.

(** [int()]: digits of other scripts are read, blanks of ASCII only are
    skipped in an ASCII text, and a number of more than 4300 digits is
    refused. *)
Example int_examples_unicode :
  int_of_str [65301%N] = Some 5%Z
  ∧ int_of_str [160; 1635; 160]%N = Some 3%Z
  ∧ int_of_str [28; 53]%N = None
  ∧ int_of_str (py " +7 ") = Some 7%Z
  ∧ int_of_str (replicate 4300 49%N) ≠ None
  ∧ int_of_str (replicate 4301 49%N) = None.
Proof. repeat split; try (vm_compute; reflexivity). vm_compute. discriminate. Qed.

(** A time, a date and a slot count in digits of other scripts are found by
    the patterns of the source. *)
Example digit_examples :
  _classify_time arabic_time = Ok (py "Overnight")
  ∧ is_Some (re_search clock_re arabic_time)
  ∧ parse_header (py "Sat " ++ arabic_date) = (py "Saturday", arabic_date)
  ∧ is_Some (re_match digits_re [65299%N]).
Proof. repeat split; vm_compute; eauto. Qed.

(** The scorer and the ranking compare in the lower case of the runtime. *)
Example cafe_examples :
  rank (matcher_of cafe_excluded) [cafe_shift; late_shift]
  = rank (matcher_of cafe_excluded) [late_shift]
  ∧ (∃ r, score (matcher_of cafe_ranked) cafe_shift = Ok r
          ∧ scored_score r = 105%Z
          ∧ (scored_breakdown r).*1 = ["committee"; "day"; "time"; "slots"; "late"])
  ∧ _fuzzy_committee kelvin_stocking = Some (py "Stocking").
Proof.
  split; [vm_compute; reflexivity|]. split; [|vm_compute; reflexivity].
  eexists. split; [vm_compute; reflexivity|]. split; vm_compute; reflexivity.
Qed.

(** [top] with a negative count leaves out the last results. *)
Example top_negative :
  ∃ ranked, rank (matcher_of plain_preferences) [late_shift; saturday_shift; late_shift]
            = Ok ranked
    ∧ length ranked = 3
    ∧ top (matcher_of plain_preferences) [late_shift; saturday_shift; late_shift] (-1)
      = Ok (take 2 ranked)
    ∧ top (matcher_of plain_preferences) [late_shift; saturday_shift; late_shift] (-5)
      = Ok [].
Proof. eexists. repeat split; vm_compute; reflexivity. Qed.
